(** * itkwasm: the WASI pipeline runtime of [itkwasm/pipeline.py]

    A shallow embedding of [Pipeline.run] and its helpers, and of the
    generated wrapper [downsample_label_image_async], with the properties
    the specification states about them.

    The guest module is modelled by state-passing functions over its linear
    memory and a private state; every call of a guest export is logged, so
    that statements about which exports are called, in which order and with
    which arguments, are statements about the log of a run. *)

From Stdlib Require Import ZArith Lia Bool.
From Stdlib Require Import Strings.String Strings.Ascii Strings.Byte.
From Stdlib Require Import Numbers.DecimalString Numbers.DecimalPos Numbers.DecimalZ.
From Stdlib Require Import Sorting.Sorted.
From stdpp Require Import base list strings gmap.

Local Open Scope string_scope.
Local Open Scope list_scope.
Local Open Scope Z_scope.

(** ** Python values the runtime handles *)

(** [bytes], [bytearray] and the content of a [memoryview]. *)
Definition bytes := list byte.

(** A Python [float], kept as its IEEE-754 binary64 bit pattern: the runtime
    only passes floats through, it never computes with them. *)
Definition float64 := Z.

(** [f"{n}"] for an [int]: base 10, a leading [-] when negative. *)
Definition decimal (n : Z) : string := NilZero.string_of_int (Z.to_int n).

(** [str.encode()]: a [str] is kept as the string of its UTF-8 bytes. *)
Definition encode (s : string) : bytes := list_byte_of_string s.

(** The bounds of the slice [l[a:b]] of a sequence of length [len]:
    a negative index counts from the end, and both are clamped. *)
Definition slice_index (len i : Z) : Z :=
  if i <? 0 then Z.max (i + len) 0 else Z.min i len.

Definition slice_bounds (len a b : Z) : Z * Z :=
  let a' := slice_index len a in
  let b' := slice_index len b in
  (a', Z.max a' b').

(** [l[a:b]] *)
Definition py_slice {A} (l : list A) (a b : Z) : list A :=
  let '(a', b') := slice_bounds (Z.of_nat (length l)) a b in
  take (Z.to_nat (b' - a')) (drop (Z.to_nat a') l).

(** [buf[a:b] = data] on a [memoryview]: the slice and [data] must have the
    same length ([None] is the [ValueError] Python raises otherwise). *)
Definition py_slice_assign (buf : bytes) (a b : Z) (data : bytes) : option bytes :=
  let '(a', b') := slice_bounds (Z.of_nat (length buf)) a b in
  if b' - a' =? Z.of_nat (length data)
  then Some (take (Z.to_nat a') buf ++ data ++ drop (Z.to_nat b') buf)
  else None.

(** Exceptions a run can end with. *)
Inductive Exception : Type :=
| MissingExport (name : string)
| RuntimeError (export : string)
| ValueError (msg : string)
| TypeError (msg : string)
| AttributeError (msg : string)
| UnicodeDecodeError
| JSONDecodeError.

(** ** int_types.py, float_types.py: component types *)

Inductive IntTypes : Type :=
| Int8 | UInt8 | Int16 | UInt16 | Int32 | UInt32 | Int64 | UInt64.

Inductive FloatTypes : Type :=
| Float32 | Float64.

(** A [componentType] as it appears in a descriptor: a member of [IntTypes]
    or of [FloatTypes], or any other value. *)
Inductive ComponentType : Type :=
| CInt (t : IntTypes)
| CFloat (t : FloatTypes)
| COther (tag : string).

(** ** numpy arrays *)

Inductive dtype : Type :=
| np_uint8 | np_int8 | np_uint16 | np_int16 | np_uint32 | np_int32
| np_uint64 | np_int64 | np_float32 | np_float64.

Definition itemsize (d : dtype) : Z :=
  match d with
  | np_uint8 | np_int8 => 1
  | np_uint16 | np_int16 => 2
  | np_uint32 | np_int32 | np_float32 => 4
  | np_uint64 | np_int64 | np_float64 => 8
  end.

(** An array is its element type, its shape and the bytes of its elements
    (little-endian, row-major), which is what [bytes(array)] yields. *)
Record ndarray : Type := mk_ndarray {
  nd_dtype : dtype;
  nd_shape : list Z;
  nd_bytes : bytes
}.

(** [np.frombuffer(buf, dtype=d).copy()]: a one-dimensional array; the
    buffer size must be a multiple of the element size. *)
Definition frombuffer (buf : bytes) (d : dtype) : Exception + ndarray :=
  let n := Z.of_nat (length buf) in
  if n mod itemsize d =? 0
  then inr (mk_ndarray d [n / itemsize d] buf)
  else inl (ValueError "buffer size must be a multiple of element size").

(** The number of elements of an array. *)
Definition nd_size (a : ndarray) : Z :=
  Z.of_nat (length (nd_bytes a)) / itemsize (nd_dtype a).

(** [a.shape = (d, d)]: in-place reshape to two equal, given dimensions. *)
Definition set_shape2 (a : ndarray) (d : Z) : Exception + ndarray :=
  if (0 <=? d) && (d * d =? nd_size a)
  then inr (mk_ndarray (nd_dtype a) [d; d] (nd_bytes a))
  else inl (ValueError "cannot reshape array").

(** [_memoryview_to_numpy_array] *)
Definition _memoryview_to_numpy_array (component_type : ComponentType) (buf : bytes)
  : Exception + ndarray :=
  match component_type with
  | CInt UInt8 => frombuffer buf np_uint8
  | CInt Int8 => frombuffer buf np_int8
  | CInt UInt16 => frombuffer buf np_uint16
  | CInt Int16 => frombuffer buf np_int16
  | CInt UInt32 => frombuffer buf np_uint32
  | CInt Int32 => frombuffer buf np_int32
  | CInt UInt64 => frombuffer buf np_uint64
  | CInt Int64 => frombuffer buf np_int64
  | CFloat Float32 => frombuffer buf np_float32
  | CFloat Float64 => frombuffer buf np_float64
  | COther _ => inl (ValueError "Unsupported component type")
  end.

(** The element type an array of a supported component type has. *)
Definition dtype_of (c : ComponentType) : option dtype :=
  match c with
  | CInt UInt8 => Some np_uint8
  | CInt Int8 => Some np_int8
  | CInt UInt16 => Some np_uint16
  | CInt Int16 => Some np_int16
  | CInt UInt32 => Some np_uint32
  | CInt Int32 => Some np_int32
  | CInt UInt64 => Some np_uint64
  | CInt Int64 => Some np_int64
  | CFloat Float32 => Some np_float32
  | CFloat Float64 => Some np_float64
  | COther _ => None
  end.

(** The empty typed array of element type [d]. *)
Definition empty_array (d : dtype) : ndarray := mk_ndarray d [0] [].

(** ** pathlib.PurePosixPath *)

Module Path.
(** A parsed path: its root ([""] when relative) and its components. *)
Record t : Type := mk { root : string; parts : list string }.

(** [path.parent]: a path without components is its own parent. *)
Definition parent (p : t) : t :=
  mk (root p) (take (Nat.pred (length (parts p))) (parts p)).

(** [str(path)] *)
Definition str (p : t) : string :=
  match root p, parts p with
  | "", [] => "."
  | r, ps => r +:+ String.concat "/" ps
  end.
End Path.

(** ** JSON values, as [json.loads] yields and [json.dumps] takes them *)

#[warnings="-register-all"]
Inductive json : Type :=
| JNull
| JBool (b : bool)
| JInt (n : Z)
| JFloat (x : float64)
| JStr (s : string)
| JList (l : list json)
| JDict (items : list (string * json)).

(** [d[key]] on the items of a [dict]. *)
Fixpoint dict_get (key : string) (items : list (string * json)) : option json :=
  match items with
  | [] => None
  | (k, v) :: rest => if String.eqb k key then Some v else dict_get key rest
  end.

Definition ints (l : list Z) : json := JList (map JInt l).
Definition floats (l : list float64) : json := JList (map JFloat l).

(** ** interface_types.py and the payload classes

    Modelled from the spec: the payload data classes ([TextStream],
    [BinaryStream], [TextFile], [BinaryFile], [Image], [Mesh], [PolyData]
    and their type descriptors), which are value records with the fields
    the descriptors of section 6 name. *)

Module InterfaceTypes.
(** The seven kinds, and [Other] for any value that is none of them. *)
Inductive t : Type :=
| TextStream | BinaryStream | TextFile | BinaryFile | Image | Mesh | PolyData
| Other (name : string).
End InterfaceTypes.

Module TextStream.
Record t : Type := mk { data : string }.
End TextStream.

Module BinaryStream.
Record t : Type := mk { data : bytes }.
End BinaryStream.

Module TextFile.
Record t : Type := mk { path : Path.t }.
End TextFile.

Module BinaryFile.
Record t : Type := mk { path : Path.t }.
End BinaryFile.

Module ImageType.
Record t : Type := mk {
  dimension : Z;
  componentType : ComponentType;
  pixelType : string;
  components : Z
}.
End ImageType.

Module Image.
Record t : Type := mk {
  imageType : ImageType.t;
  name : string;
  origin : list float64;
  spacing : list float64;
  direction : option ndarray;
  size : list Z;
  data : option ndarray
}.

Definition set_data (v : ndarray) (i : t) : t :=
  mk (imageType i) (name i) (origin i) (spacing i) (direction i) (size i) (Some v).
Definition set_direction (v : ndarray) (i : t) : t :=
  mk (imageType i) (name i) (origin i) (spacing i) (Some v) (size i) (data i).
End Image.

Module MeshType.
Record t : Type := mk {
  pointComponentType : ComponentType;
  cellComponentType : ComponentType;
  pointPixelComponentType : ComponentType;
  cellPixelComponentType : ComponentType
}.
End MeshType.

Module Mesh.
Record t : Type := mk {
  meshType : MeshType.t;
  name : string;
  numberOfPoints : Z;
  points : option ndarray;
  numberOfCells : Z;
  cells : option ndarray;
  cellBufferSize : Z;
  numberOfPointPixels : Z;
  pointData : option ndarray;
  numberOfCellPixels : Z;
  cellData : option ndarray
}.

Definition set_points (v : ndarray) (m : t) : t :=
  mk (meshType m) (name m) (numberOfPoints m) (Some v) (numberOfCells m) (cells m)
     (cellBufferSize m) (numberOfPointPixels m) (pointData m)
     (numberOfCellPixels m) (cellData m).
Definition set_cells (v : ndarray) (m : t) : t :=
  mk (meshType m) (name m) (numberOfPoints m) (points m) (numberOfCells m) (Some v)
     (cellBufferSize m) (numberOfPointPixels m) (pointData m)
     (numberOfCellPixels m) (cellData m).
Definition set_pointData (v : ndarray) (m : t) : t :=
  mk (meshType m) (name m) (numberOfPoints m) (points m) (numberOfCells m) (cells m)
     (cellBufferSize m) (numberOfPointPixels m) (Some v)
     (numberOfCellPixels m) (cellData m).
Definition set_cellData (v : ndarray) (m : t) : t :=
  mk (meshType m) (name m) (numberOfPoints m) (points m) (numberOfCells m) (cells m)
     (cellBufferSize m) (numberOfPointPixels m) (pointData m)
     (numberOfCellPixels m) (Some v).
End Mesh.

Module PolyDataType.
Record t : Type := mk {
  pointPixelComponentType : ComponentType;
  cellPixelComponentType : ComponentType
}.
End PolyDataType.

Module PolyData.
Record t : Type := mk {
  polyDataType : PolyDataType.t;
  name : string;
  numberOfPoints : Z;
  points : option ndarray;
  verticesBufferSize : Z;
  vertices : option ndarray;
  linesBufferSize : Z;
  lines : option ndarray;
  polygonsBufferSize : Z;
  polygons : option ndarray;
  triangleStripsBufferSize : Z;
  triangleStrips : option ndarray;
  numberOfPointPixels : Z;
  pointData : option ndarray;
  numberOfCellPixels : Z;
  cellData : option ndarray
}.

Definition set_points (v : ndarray) (p : t) : t :=
  mk (polyDataType p) (name p) (numberOfPoints p) (Some v)
     (verticesBufferSize p) (vertices p) (linesBufferSize p) (lines p)
     (polygonsBufferSize p) (polygons p)
     (triangleStripsBufferSize p) (triangleStrips p)
     (numberOfPointPixels p) (pointData p) (numberOfCellPixels p) (cellData p).
Definition set_vertices (v : ndarray) (p : t) : t :=
  mk (polyDataType p) (name p) (numberOfPoints p) (points p)
     (verticesBufferSize p) (Some v) (linesBufferSize p) (lines p)
     (polygonsBufferSize p) (polygons p)
     (triangleStripsBufferSize p) (triangleStrips p)
     (numberOfPointPixels p) (pointData p) (numberOfCellPixels p) (cellData p).
Definition set_lines (v : ndarray) (p : t) : t :=
  mk (polyDataType p) (name p) (numberOfPoints p) (points p)
     (verticesBufferSize p) (vertices p) (linesBufferSize p) (Some v)
     (polygonsBufferSize p) (polygons p)
     (triangleStripsBufferSize p) (triangleStrips p)
     (numberOfPointPixels p) (pointData p) (numberOfCellPixels p) (cellData p).
Definition set_polygons (v : ndarray) (p : t) : t :=
  mk (polyDataType p) (name p) (numberOfPoints p) (points p)
     (verticesBufferSize p) (vertices p) (linesBufferSize p) (lines p)
     (polygonsBufferSize p) (Some v)
     (triangleStripsBufferSize p) (triangleStrips p)
     (numberOfPointPixels p) (pointData p) (numberOfCellPixels p) (cellData p).
Definition set_triangleStrips (v : ndarray) (p : t) : t :=
  mk (polyDataType p) (name p) (numberOfPoints p) (points p)
     (verticesBufferSize p) (vertices p) (linesBufferSize p) (lines p)
     (polygonsBufferSize p) (polygons p)
     (triangleStripsBufferSize p) (Some v)
     (numberOfPointPixels p) (pointData p) (numberOfCellPixels p) (cellData p).
Definition set_pointData (v : ndarray) (p : t) : t :=
  mk (polyDataType p) (name p) (numberOfPoints p) (points p)
     (verticesBufferSize p) (vertices p) (linesBufferSize p) (lines p)
     (polygonsBufferSize p) (polygons p)
     (triangleStripsBufferSize p) (triangleStrips p)
     (numberOfPointPixels p) (Some v) (numberOfCellPixels p) (cellData p).
Definition set_cellData (v : ndarray) (p : t) : t :=
  mk (polyDataType p) (name p) (numberOfPoints p) (points p)
     (verticesBufferSize p) (vertices p) (linesBufferSize p) (lines p)
     (polygonsBufferSize p) (polygons p)
     (triangleStripsBufferSize p) (triangleStrips p)
     (numberOfPointPixels p) (pointData p) (numberOfCellPixels p) (Some v).
End PolyData.

(** The [data] of a [PipelineInput] or [PipelineOutput]. *)
Inductive Payload : Type :=
| PTextStream (v : TextStream.t)
| PBinaryStream (v : BinaryStream.t)
| PTextFile (v : TextFile.t)
| PBinaryFile (v : BinaryFile.t)
| PImage (v : Image.t)
| PMesh (v : Mesh.t)
| PPolyData (v : PolyData.t).

(** [payload.path], for the classes that have the attribute. *)
Definition payload_path (d : Payload) : option Path.t :=
  match d with
  | PTextFile f => Some (TextFile.path f)
  | PBinaryFile f => Some (BinaryFile.path f)
  | _ => None
  end.

(** pipeline_input.py. A [PipelineInput] pairs a kind with the fully
    populated payload of that kind's class; [InOther] is an input whose
    [type] is none of the seven kinds. *)
Inductive PipelineInput : Type :=
| InTextStream (d : TextStream.t)
| InBinaryStream (d : BinaryStream.t)
| InTextFile (d : TextFile.t)
| InBinaryFile (d : BinaryFile.t)
| InImage (d : Image.t)
| InMesh (d : Mesh.t)
| InPolyData (d : PolyData.t)
| InOther (name : string).

Definition input_type (i : PipelineInput) : InterfaceTypes.t :=
  match i with
  | InTextStream _ => InterfaceTypes.TextStream
  | InBinaryStream _ => InterfaceTypes.BinaryStream
  | InTextFile _ => InterfaceTypes.TextFile
  | InBinaryFile _ => InterfaceTypes.BinaryFile
  | InImage _ => InterfaceTypes.Image
  | InMesh _ => InterfaceTypes.Mesh
  | InPolyData _ => InterfaceTypes.PolyData
  | InOther n => InterfaceTypes.Other n
  end.

(** pipeline_output.py. A declared output slot carries its kind and, for
    the file kinds, the target path; [data] is [None] otherwise. *)
Record PipelineOutput : Type := mk_PipelineOutput {
  type : InterfaceTypes.t;
  data : option Payload
}.

(** ** Library functions the runtime calls

    [json], [bytes.decode] and the constructors and [asdict] of the payload
    data classes are taken as given. *)
Record PyLib : Type := mk_PyLib {
  (** [json.dumps] *)
  json_dumps : json -> string;
  (** [json.loads] *)
  json_loads : string -> Exception + json;
  (** [bytes.decode()] *)
  decode : bytes -> Exception + string;
  (** [dataclasses.asdict] on the three type descriptors *)
  asdict_ImageType : ImageType.t -> json;
  asdict_MeshType : MeshType.t -> json;
  asdict_PolyDataType : PolyDataType.t -> json;
  (** the constructors of [Image], [Mesh] and [PolyData], applied to the
      keys of a parsed descriptor *)
  Image_init : json -> Exception + Image.t;
  Mesh_init : json -> Exception + Mesh.t;
  PolyData_init : json -> Exception + PolyData.t
}.

(** ** The WASI state of one run *)
Record WasiEnv : Type := mk_WasiEnv {
  program_name : string;
  arguments : list string;
  environments : list (string * string);
  map_directories : list (string * string);
  preopen_directories : list string
}.

(** ** The guest *)

(** The calls of guest exports, with their arguments. *)
Inductive Call : Type :=
| Call_initialize
| Call_input_array_alloc (run slot sub size : Z)
| Call_input_json_alloc (run slot size : Z)
| Call_output_array_address (run slot sub : Z)
| Call_output_array_size (run slot sub : Z)
| Call_output_json_address (run slot : Z)
| Call_output_json_size (run slot : Z)
| Call_delayed_start
| Call_delayed_exit (code : Z).

(** How a call ended. *)
Inductive Returned : Type :=
| Trapped
| Value (v : Z)
| Void.

(** What a run logs: each call of a guest export, and each [data_object]
    handed to [_set_input_json]. *)
Inductive Event : Type :=
| Guest (c : Call) (r : Returned)
| InputJson (input_index : Z) (data_object : json).

Section Runtime.

(** The private state of the guest. *)
Context {P : Type}.

(** An instance: its linear memory ([instance.exports.memory.buffer])
    and the guest's private state. *)
Record Instance : Type := mk_Instance {
  buffer : bytes;
  internal : P
}.

(** An exported function: it returns a value and the next state of the
    instance, or traps. *)
Definition GuestFn : Type := Instance -> option (Z * Instance).
Definition GuestProc : Type := Instance -> option Instance.

(** [instance.exports]: an export is [None] when the module lacks it. *)
Record Exports : Type := mk_Exports {
  memory : bool;
  itk_wasm_input_array_alloc : option (Z -> Z -> Z -> Z -> GuestFn);
  itk_wasm_input_json_alloc : option (Z -> Z -> Z -> GuestFn);
  itk_wasm_output_array_address : option (Z -> Z -> Z -> GuestFn);
  itk_wasm_output_array_size : option (Z -> Z -> Z -> GuestFn);
  itk_wasm_output_json_address : option (Z -> Z -> GuestFn);
  itk_wasm_output_json_size : option (Z -> Z -> GuestFn);
  _initialize : option GuestProc;
  itk_wasm_delayed_start : option GuestFn;
  itk_wasm_delayed_exit : option (Z -> GuestProc)
}.

(** [Pipeline.__init__]: the compiled module; [instantiate] is
    [Instance(self.module, import_object)] for the import object of a WASI
    state, taken to succeed. *)
Record Pipeline : Type := mk_Pipeline {
  instantiate : WasiEnv -> Instance;
  exports : Exports
}.

(** *** The monad of the run: instance state, exceptions, log *)

Record Out (A : Type) : Type := mk_Out {
  res : Exception + A;
  st : Instance;
  log : list Event
}.
Arguments mk_Out {A}.
Arguments res {A}.
Arguments st {A}.
Arguments log {A}.

Definition M (A : Type) : Type := Instance -> Out A.

Definition ret {A} (a : A) : M A := fun s => mk_Out (inr a) s [].

Definition raise {A} (e : Exception) : M A := fun s => mk_Out (inl e) s [].

Definition bind {A B} (m : M A) (f : A -> M B) : M B := fun s =>
  let o := m s in
  match res o with
  | inr a => let o' := f a (st o) in mk_Out (res o') (st o') (log o ++ log o')
  | inl e => mk_Out (inl e) (st o) (log o)
  end.

Definition lift {A} (r : Exception + A) : M A :=
  match r with
  | inr a => ret a
  | inl e => raise e
  end.

Definition emit (e : Event) : M unit := fun s => mk_Out (inr tt) s [e].

(** Calling an exported function; a trap surfaces as [RuntimeError]. *)
Definition call (name : string) (c : Call) (f : GuestFn) : M Z := fun s =>
  match f s with
  | Some (v, s') => mk_Out (inr v) s' [Guest c (Value v)]
  | None => mk_Out (inl (RuntimeError name)) s [Guest c Trapped]
  end.

Definition call_proc (name : string) (c : Call) (f : GuestProc) : M unit := fun s =>
  match f s with
  | Some s' => mk_Out (inr tt) s' [Guest c Void]
  | None => mk_Out (inl (RuntimeError name)) s [Guest c Trapped]
  end.

(** [instance.exports.<name>] *)
Definition export {A} (name : string) (e : option A) : M A :=
  match e with
  | Some f => ret f
  | None => raise (MissingExport name)
  end.

(** [memoryview(self.memory.buffer)] *)
Definition memoryview : M bytes := fun s => mk_Out (inr (buffer s)) s [].

(** [buf[a:b] = data] on the view of the linear memory. *)
Definition buffer_assign (a b : Z) (data : bytes) : M unit := fun s =>
  match py_slice_assign (buffer s) a b data with
  | Some buf => mk_Out (inr tt) (mk_Instance buf (internal s)) []
  | None => mk_Out (inl (ValueError "memoryview assignment")) s []
  end.

End Runtime.

Arguments mk_Out {P A}.
Arguments res {P A}.
Arguments st {P A}.
Arguments log {P A}.
Arguments Instance : clear implicits.
Arguments Exports : clear implicits.
Arguments Pipeline : clear implicits.
Arguments M : clear implicits.
Arguments Out : clear implicits.

Declare Scope run_scope.
Delimit Scope run_scope with run.
Notation "x <- m ;; k" := (bind m (fun x => k))
  (at level 100, m at next level, right associativity) : run_scope.
Notation "m ;;; k" := (bind m (fun _ => k))
  (at level 100, right associativity) : run_scope.

Local Open Scope run_scope.

(** ** pipeline.py: [Pipeline] *)

(** The literal prefix of an address URL. *)
Definition address_prefix : string := "data:application/vnd.itk.address,0:".

(** [f"data:application/vnd.itk.address,0:{ptr}"] *)
Definition address_url (ptr : Z) : string := address_prefix +:+ decimal ptr.

(** What is left of [s] after the prefix [pre], if [s] starts with it. *)
Fixpoint strip_prefix (pre s : string) : option string :=
  match pre, s with
  | EmptyString, _ => Some s
  | String a pre', String b s' =>
      if Ascii.eqb a b then strip_prefix pre' s' else None
  | String _ _, EmptyString => None
  end.

(** The pointer an address URL holds, as the guest reads it back. *)
Definition parse_address_url (url : string) : option Z :=
  match strip_prefix address_prefix url with
  | Some digits => option_map Z.of_int (NilZero.int_of_string digits)
  | None => None
  end.

(** [len(l)] *)
Definition len {A} (l : list A) : Z := Z.of_nat (length l).

(** [bytes(array)]; [bytes(None)] raises. *)
Definition to_bytes {P} (a : option ndarray) : M P bytes :=
  match a with
  | Some v => ret (nd_bytes v)
  | None => raise (TypeError "cannot convert 'NoneType' object to bytes")
  end.

(** [bytes(array.data)]; [None] has no attribute [data]. *)
Definition data_bytes {P} (a : option ndarray) : M P bytes :=
  match a with
  | Some v => ret (nd_bytes v)
  | None => raise (AttributeError "'NoneType' object has no attribute 'data'")
  end.

Section Pipeline.

Context {P : Type}.
Context (py : PyLib).

(** The exports [run] stores on [self] once the module is instantiated. *)
Record Self : Type := mk_Self {
  input_array_alloc : Z -> Z -> Z -> Z -> @GuestFn P;
  input_json_alloc : Z -> Z -> Z -> @GuestFn P;
  output_array_address : Z -> Z -> Z -> @GuestFn P;
  output_array_size : Z -> Z -> Z -> @GuestFn P;
  output_json_address : Z -> Z -> @GuestFn P;
  output_json_size : Z -> Z -> @GuestFn P
}.

Context (self : Self).

(** [self.input_array_alloc(...)] and the like: the call is logged. *)
Definition do_input_array_alloc (r i k n : Z) : M P Z :=
  call "itk_wasm_input_array_alloc" (Call_input_array_alloc r i k n)
       (input_array_alloc self r i k n).
Definition do_input_json_alloc (r i n : Z) : M P Z :=
  call "itk_wasm_input_json_alloc" (Call_input_json_alloc r i n)
       (input_json_alloc self r i n).
Definition do_output_array_address (r i k : Z) : M P Z :=
  call "itk_wasm_output_array_address" (Call_output_array_address r i k)
       (output_array_address self r i k).
Definition do_output_array_size (r i k : Z) : M P Z :=
  call "itk_wasm_output_array_size" (Call_output_array_size r i k)
       (output_array_size self r i k).
Definition do_output_json_address (r i : Z) : M P Z :=
  call "itk_wasm_output_json_address" (Call_output_json_address r i)
       (output_json_address self r i).
Definition do_output_json_size (r i : Z) : M P Z :=
  call "itk_wasm_output_json_size" (Call_output_json_size r i)
       (output_json_size self r i).

(** [Pipeline._set_input_array] *)
Definition _set_input_array (data_array : option bytes) (input_index sub_index : Z)
  : M P Z :=
  match data_array with
  | Some d =>
      data_ptr <- do_input_array_alloc 0 input_index sub_index (len d) ;;
      buffer_assign data_ptr (data_ptr + len d) d ;;;
      ret data_ptr
  | None => ret 0
  end.

(** [Pipeline._set_input_json] *)
Definition _set_input_json (data_object : json) (input_index : Z) : M P unit :=
  emit (InputJson input_index data_object) ;;;
  let data_json := encode (json_dumps py data_object) in
  json_ptr <- do_input_json_alloc 0 input_index (len data_json) ;;
  buffer_assign json_ptr (json_ptr + len data_json) data_json.

(** [Pipeline._get_output_json] *)
Definition _get_output_json (output_index : Z) : M P json :=
  json_ptr <- do_output_json_address 0 output_index ;;
  json_len <- do_output_json_size 0 output_index ;;
  buf <- memoryview ;;
  json_str <- lift (decode py (py_slice buf json_ptr (json_ptr + json_len))) ;;
  lift (json_loads py json_str).

(** [bytes(b) if count else bytes([])] *)
Definition gated_bytes (count : Z) (b : option ndarray) : M P bytes :=
  if count =? 0 then ret [] else to_bytes b.

(** The body of the input loop of [run], for one input. *)
Definition encode_input (index : Z) (input_ : PipelineInput) : M P unit :=
  match input_ with
  | InTextStream d =>
      let data_array := encode (TextStream.data d) in
      array_ptr <- _set_input_array (Some data_array) index 0 ;;
      let data_json := JDict [("size", JInt (len data_array));
                              ("data", JStr (address_url array_ptr))] in
      _set_input_json data_json index
  | InBinaryStream d =>
      let data_array := BinaryStream.data d in
      array_ptr <- _set_input_array (Some data_array) index 0 ;;
      let data_json := JDict [("size", JInt (len data_array));
                              ("data", JStr (address_url array_ptr))] in
      _set_input_json data_json index
  | InTextFile _ => ret tt
  | InBinaryFile _ => ret tt
  | InImage image =>
      mv <- data_bytes (Image.data image) ;;
      data_ptr <- _set_input_array (Some mv) index 0 ;;
      dv <- data_bytes (Image.direction image) ;;
      direction_ptr <- _set_input_array (Some dv) index 1 ;;
      let image_json := JDict [
        ("imageType", asdict_ImageType py (Image.imageType image));
        ("name", JStr (Image.name image));
        ("origin", floats (Image.origin image));
        ("spacing", floats (Image.spacing image));
        ("direction", JStr (address_url direction_ptr));
        ("size", ints (Image.size image));
        ("data", JStr (address_url data_ptr))] in
      _set_input_json image_json index
  | InMesh mesh =>
      pv <- gated_bytes (Mesh.numberOfPoints mesh) (Mesh.points mesh) ;;
      points_ptr <- _set_input_array (Some pv) index 0 ;;
      cv <- gated_bytes (Mesh.numberOfCells mesh) (Mesh.cells mesh) ;;
      cells_ptr <- _set_input_array (Some cv) index 1 ;;
      pdv <- gated_bytes (Mesh.numberOfPointPixels mesh) (Mesh.pointData mesh) ;;
      point_data_ptr <- _set_input_array (Some pdv) index 2 ;;
      cdv <- gated_bytes (Mesh.numberOfCellPixels mesh) (Mesh.cellData mesh) ;;
      cell_data_ptr <- _set_input_array (Some cdv) index 3 ;;
      let mesh_json := JDict [
        ("meshType", asdict_MeshType py (Mesh.meshType mesh));
        ("name", JStr (Mesh.name mesh));
        ("numberOfPoints", JInt (Mesh.numberOfPoints mesh));
        ("points", JStr (address_url points_ptr));
        ("numberOfCells", JInt (Mesh.numberOfCells mesh));
        ("cells", JStr (address_url cells_ptr));
        ("cellBufferSize", JInt (Mesh.cellBufferSize mesh));
        ("numberOfPointPixels", JInt (Mesh.numberOfPointPixels mesh));
        ("pointData", JStr (address_url point_data_ptr));
        ("numberOfCellPixels", JInt (Mesh.numberOfCellPixels mesh));
        ("cellData", JStr (address_url cell_data_ptr))] in
      _set_input_json mesh_json index
  | InPolyData polydata =>
      pv <- gated_bytes (PolyData.numberOfPoints polydata) (PolyData.points polydata) ;;
      points_ptr <- _set_input_array (Some pv) index 0 ;;
      pv <- gated_bytes (PolyData.verticesBufferSize polydata)
                        (PolyData.vertices polydata) ;;
      vertices_ptr <- _set_input_array (Some pv) index 1 ;;
      pv <- gated_bytes (PolyData.linesBufferSize polydata) (PolyData.lines polydata) ;;
      lines_ptr <- _set_input_array (Some pv) index 2 ;;
      pv <- gated_bytes (PolyData.polygonsBufferSize polydata)
                        (PolyData.polygons polydata) ;;
      polygons_ptr <- _set_input_array (Some pv) index 3 ;;
      pv <- gated_bytes (PolyData.triangleStripsBufferSize polydata)
                        (PolyData.triangleStrips polydata) ;;
      triangleStrips_ptr <- _set_input_array (Some pv) index 4 ;;
      pv <- gated_bytes (PolyData.numberOfPointPixels polydata)
                        (PolyData.pointData polydata) ;;
      pointData_ptr <- _set_input_array (Some pv) index 5 ;;
      pv <- gated_bytes (PolyData.numberOfCellPixels polydata)
                        (PolyData.cellData polydata) ;;
      cellData_ptr <- _set_input_array (Some pv) index 6 ;;
      let polydata_json := JDict [
        ("polyDataType", asdict_PolyDataType py (PolyData.polyDataType polydata));
        ("name", JStr (PolyData.name polydata));
        ("numberOfPoints", JInt (PolyData.numberOfPoints polydata));
        ("points", JStr (address_url points_ptr));
        ("verticesBufferSize", JInt (PolyData.verticesBufferSize polydata));
        ("vertices", JStr (address_url vertices_ptr));
        ("linesBufferSize", JInt (PolyData.linesBufferSize polydata));
        ("lines", JStr (address_url lines_ptr));
        ("polygonsBufferSize", JInt (PolyData.polygonsBufferSize polydata));
        ("polygons", JStr (address_url polygons_ptr));
        ("triangleStripsBufferSize", JInt (PolyData.triangleStripsBufferSize polydata));
        ("triangleStrips", JStr (address_url triangleStrips_ptr));
        ("numberOfPointPixels", JInt (PolyData.numberOfPointPixels polydata));
        ("pointData", JStr (address_url pointData_ptr));
        ("numberOfCellPixels", JInt (PolyData.numberOfCellPixels polydata));
        ("cellData", JStr (address_url cellData_ptr))] in
      _set_input_json polydata_json index
  | InOther name =>
      raise (ValueError ("Unexpected/not yet supported input.type " +:+ name))
  end.

(** [for index, input_ in enumerate(inputs)], from [index] on. *)
Fixpoint encode_inputs (index : Z) (inputs : list PipelineInput) : M P unit :=
  match inputs with
  | [] => ret tt
  | input_ :: rest =>
      encode_input index input_ ;;;
      encode_inputs (index + 1) rest
  end.

(** [_memoryview_to_numpy_array(ct, memoryview(self.memory.buffer)[ptr:ptr+size])]
    with [ptr] and [size] read from the guest for the given sub-index. *)
Definition read_array (component_type : ComponentType) (index sub_index : Z)
  : M P ndarray :=
  data_ptr <- do_output_array_address 0 index sub_index ;;
  data_size <- do_output_array_size 0 index sub_index ;;
  buf <- memoryview ;;
  lift (_memoryview_to_numpy_array component_type
          (py_slice buf data_ptr (data_ptr + data_size))).

(** [if count > 0: x.f = <array read from the guest>
     else: x.g = _memoryview_to_numpy_array(ct, bytes([]))]
    where [set_then] assigns [f] and [set_else] assigns [g]. *)
Definition gated_array {T} (count : Z) (component_type : ComponentType)
    (index sub_index : Z) (set_then set_else : ndarray -> T -> T) (x : T) : M P T :=
  if 0 <? count
  then a <- read_array component_type index sub_index ;; ret (set_then a x)
  else a <- lift (_memoryview_to_numpy_array component_type []) ;; ret (set_else a x).

(** [output.data.path] *)
Definition output_path (output : PipelineOutput) : Exception + Path.t :=
  match data output with
  | Some d =>
      match payload_path d with
      | Some p => inr p
      | None => inl (AttributeError "object has no attribute 'path'")
      end
  | None => inl (AttributeError "'NoneType' object has no attribute 'path'")
  end.

(** The body of the output loop of [run], for one declared output: the
    value appended to [populated_outputs]. *)
Definition decode_output (index : Z) (output : PipelineOutput)
  : M P (option PipelineOutput) :=
  match type output with
  | InterfaceTypes.TextStream =>
      data_ptr <- do_output_array_address 0 index 0 ;;
      data_size <- do_output_array_size 0 index 0 ;;
      buf <- memoryview ;;
      let data_array_view := py_slice buf data_ptr (data_ptr + data_size) in
      text <- lift (decode py data_array_view) ;;
      ret (Some (mk_PipelineOutput InterfaceTypes.TextStream
                   (Some (PTextStream (TextStream.mk text)))))
  | InterfaceTypes.BinaryStream =>
      data_ptr <- do_output_array_address 0 index 0 ;;
      data_size <- do_output_array_size 0 index 0 ;;
      buf <- memoryview ;;
      let data_array := py_slice buf data_ptr (data_ptr + data_size) in
      ret (Some (mk_PipelineOutput InterfaceTypes.BinaryStream
                   (Some (PBinaryStream (BinaryStream.mk data_array)))))
  | InterfaceTypes.TextFile =>
      path <- lift (output_path output) ;;
      ret (Some (mk_PipelineOutput InterfaceTypes.TextFile
                   (Some (PTextFile (TextFile.mk path)))))
  | InterfaceTypes.BinaryFile =>
      path <- lift (output_path output) ;;
      ret (Some (mk_PipelineOutput InterfaceTypes.BinaryFile
                   (Some (PBinaryFile (BinaryFile.mk path)))))
  | InterfaceTypes.Image =>
      image_json <- _get_output_json index ;;
      image <- lift (Image_init py image_json) ;;
      data_array <- read_array (ImageType.componentType (Image.imageType image))
                               index 0 ;;
      let image := Image.set_data data_array image in
      direction_array <- read_array (CFloat Float64) index 1 ;;
      let dimension := ImageType.dimension (Image.imageType image) in
      direction_array <- lift (set_shape2 direction_array dimension) ;;
      let image := Image.set_direction direction_array image in
      ret (Some (mk_PipelineOutput InterfaceTypes.Image (Some (PImage image))))
  | InterfaceTypes.Mesh =>
      mesh_json <- _get_output_json index ;;
      mesh <- lift (Mesh_init py mesh_json) ;;
      let meshType := Mesh.meshType mesh in
      mesh <- gated_array (Mesh.numberOfPoints mesh)
                (MeshType.pointComponentType meshType) index 0
                Mesh.set_points Mesh.set_points mesh ;;
      mesh <- gated_array (Mesh.numberOfCells mesh)
                (MeshType.cellComponentType meshType) index 1
                Mesh.set_cells Mesh.set_cells mesh ;;
      mesh <- gated_array (Mesh.numberOfPointPixels mesh)
                (MeshType.pointPixelComponentType meshType) index 2
                Mesh.set_pointData Mesh.set_pointData mesh ;;
      mesh <- gated_array (Mesh.numberOfCellPixels mesh)
                (MeshType.cellPixelComponentType meshType) index 3
                Mesh.set_cellData Mesh.set_cellData mesh ;;
      ret (Some (mk_PipelineOutput InterfaceTypes.Mesh (Some (PMesh mesh))))
  | InterfaceTypes.PolyData =>
      polydata_json <- _get_output_json index ;;
      polydata <- lift (PolyData_init py polydata_json) ;;
      let polyDataType := PolyData.polyDataType polydata in
      polydata <- gated_array (PolyData.numberOfPoints polydata)
                    (CFloat Float32) index 0
                    PolyData.set_points PolyData.set_points polydata ;;
      polydata <- gated_array (PolyData.verticesBufferSize polydata)
                    (CInt UInt32) index 1
                    PolyData.set_vertices PolyData.set_vertices polydata ;;
      polydata <- gated_array (PolyData.linesBufferSize polydata)
                    (CInt UInt32) index 2
                    PolyData.set_lines PolyData.set_lines polydata ;;
      polydata <- gated_array (PolyData.polygonsBufferSize polydata)
                    (CInt UInt32) index 3
                    PolyData.set_polygons PolyData.set_polygons polydata ;;
      polydata <- gated_array (PolyData.triangleStripsBufferSize polydata)
                    (CInt UInt32) index 4
                    PolyData.set_triangleStrips PolyData.set_triangleStrips polydata ;;
      polydata <- gated_array (PolyData.numberOfPointPixels polydata)
                    (PolyDataType.pointPixelComponentType polyDataType) index 5
                    PolyData.set_pointData PolyData.set_triangleStrips polydata ;;
      polydata <- gated_array (PolyData.numberOfCellPixels polydata)
                    (PolyDataType.cellPixelComponentType polyDataType) index 6
                    PolyData.set_cellData PolyData.set_triangleStrips polydata ;;
      ret (Some (mk_PipelineOutput InterfaceTypes.PolyData (Some (PPolyData polydata))))
  | InterfaceTypes.Other _ => ret None
  end.

(** [for index, output in enumerate(outputs)], from [index] on: the
    values appended to [populated_outputs]. *)
Fixpoint decode_outputs (index : Z) (outputs : list PipelineOutput)
  : M P (list (option PipelineOutput)) :=
  match outputs with
  | [] => ret []
  | output :: rest =>
      output_data <- decode_output index output ;;
      populated <- decode_outputs (index + 1) rest ;;
      ret (output_data :: populated)
  end.

End Pipeline.

(** *** [Pipeline.run] *)

(** [preopen_directories.add(str(path.parent))] *)
Definition add_parent (path : Path.t) (dirs : gset string) : gset string :=
  {[ Path.str (Path.parent path) ]} ∪ dirs.

(** The first loop of [run], over the inputs. *)
Fixpoint preopen_inputs (dirs : gset string) (inputs : list PipelineInput)
  : gset string :=
  match inputs with
  | [] => dirs
  | InTextFile f :: rest => preopen_inputs (add_parent (TextFile.path f) dirs) rest
  | InBinaryFile f :: rest => preopen_inputs (add_parent (BinaryFile.path f) dirs) rest
  | _ :: rest => preopen_inputs dirs rest
  end.

Definition is_file (t : InterfaceTypes.t) : bool :=
  match t with
  | InterfaceTypes.TextFile | InterfaceTypes.BinaryFile => true
  | _ => false
  end.

(** The second loop of [run], over the outputs. *)
Fixpoint preopen_outputs (dirs : gset string) (outputs : list PipelineOutput)
  : Exception + gset string :=
  match outputs with
  | [] => inr dirs
  | output :: rest =>
      if is_file (type output)
      then match output_path output with
           | inr path => preopen_outputs (add_parent path dirs) rest
           | inl e => inl e
           end
      else preopen_outputs dirs rest
  end.

(** [preopen_directories], as handed to the WASI state builder. *)
Definition preopen (inputs : list PipelineInput) (outputs : list PipelineOutput)
  : Exception + list string :=
  match preopen_outputs (preopen_inputs ∅ inputs) outputs with
  | inr dirs => inr (elements dirs)
  | inl e => inl e
  end.

Section Run.

Context {P : Type}.
Context (py : PyLib).

(** [run] from the instantiation on. *)
Definition run_instance (pipeline : Pipeline P)
    (outputs : list PipelineOutput) (inputs : list PipelineInput)
  : M P (list (option PipelineOutput)) :=
  let ex := exports pipeline in
  export "memory" (if memory ex then Some tt else None) ;;;
  input_array_alloc <- export "itk_wasm_input_array_alloc"
                              (itk_wasm_input_array_alloc ex) ;;
  input_json_alloc <- export "itk_wasm_input_json_alloc"
                             (itk_wasm_input_json_alloc ex) ;;
  output_array_address <- export "itk_wasm_output_array_address"
                                 (itk_wasm_output_array_address ex) ;;
  output_array_size <- export "itk_wasm_output_array_size"
                              (itk_wasm_output_array_size ex) ;;
  output_json_address <- export "itk_wasm_output_json_address"
                                (itk_wasm_output_json_address ex) ;;
  output_json_size <- export "itk_wasm_output_json_size"
                             (itk_wasm_output_json_size ex) ;;
  let self := mk_Self input_array_alloc input_json_alloc output_array_address
                      output_array_size output_json_address output_json_size in
  initialize <- export "_initialize" (_initialize ex) ;;
  call_proc "_initialize" Call_initialize initialize ;;;
  encode_inputs py self 0 inputs ;;;
  delayed_start <- export "itk_wasm_delayed_start" (itk_wasm_delayed_start ex) ;;
  return_code <- call "itk_wasm_delayed_start" Call_delayed_start delayed_start ;;
  populated_outputs <-
    (if negb (len outputs =? 0) && (return_code =? 0)
     then decode_outputs py self 0 outputs
     else ret []) ;;
  delayed_exit <- export "itk_wasm_delayed_exit" (itk_wasm_delayed_exit ex) ;;
  call_proc "itk_wasm_delayed_exit" (Call_delayed_exit return_code)
            (delayed_exit return_code) ;;;
  ret populated_outputs.

(** What a run yields: the tuple returned or the exception raised, and the
    log of the run. *)
Record Run : Type := mk_Run {
  result : Exception + list (option PipelineOutput);
  events : list Event
}.

(** [Pipeline.run] *)
Definition run (pipeline : Pipeline P) (args : list string)
    (outputs : list PipelineOutput) (inputs : list PipelineInput) : Run :=
  match preopen inputs outputs with
  | inl e => mk_Run (inl e) []
  | inr dirs =>
      let wasi_env := mk_WasiEnv "itk-wasm-pipeline" args [] [] dirs in
      let o := run_instance pipeline outputs inputs (instantiate pipeline wasi_env) in
      mk_Run (res o) (log o)
  end.

End Run.

(** ** downsample_label_image_async.py *)

(** A value passed for a [List[int]] parameter. *)
Inductive PyArg : Type :=
| PyList (l : list Z)
| PyDict (items : list (Z * Z)).

Module downsample.
(** The defaults in the signature of [downsample_label_image_async]. *)
Definition shrink_factors_default : PyArg := PyList [].
Definition crop_radius_default : PyArg := PyDict [].

(** [downsample_label_image_async]; [func] is what [environment_dispatch]
    returns, and an argument is [None] when the caller omits it. *)
Definition downsample_label_image_async {R}
    (func : Image.t -> PyArg -> PyArg -> R)
    (input : Image.t) (shrink_factors crop_radius : option PyArg) : R :=
  func input
       (default shrink_factors_default shrink_factors)
       (default crop_radius_default crop_radius).
End downsample.

(** ** A guest and a library to run examples with *)

Module Sample.

(** The guest keeps the next free address; its allocators bump it. *)
Definition alloc (size : Z) : @GuestFn Z := fun s =>
  Some (internal s, mk_Instance (buffer s) (internal s + size)).

Definition const (v : Z) : @GuestFn Z := fun s => Some (v, s).

(** Output arrays: sub-index [k] of every slot is at address [8 * k] and
    has the [k]-th of [sizes] bytes (0 beyond); descriptors are empty. *)
Definition self (sizes : list Z) : @Self Z :=
  mk_Self (fun _ _ _ size => alloc size)
          (fun _ _ size => alloc size)
          (fun _ _ sub => const (8 * sub))
          (fun _ _ sub => const (nth (Z.to_nat sub) sizes 0))
          (fun _ _ => const 0)
          (fun _ _ => const 0).

Definition exports (return_code : Z) (sizes : list Z) : Exports Z :=
  let f := self sizes in
  mk_Exports true
    (Some (input_array_alloc f)) (Some (input_json_alloc f))
    (Some (output_array_address f)) (Some (output_array_size f))
    (Some (output_json_address f)) (Some (output_json_size f))
    (Some (fun s => Some s))
    (Some (const return_code))
    (Some (fun _ s => Some s)).

(** A memory of 64 zero bytes; allocation starts at address 8. *)
Definition instance : Instance Z := mk_Instance (repeat "000"%byte 64) 8.

Definition pipeline (return_code : Z) (sizes : list Z) : Pipeline Z :=
  mk_Pipeline (fun _ => instance) (exports return_code sizes).

(** The same module without the export [itk_wasm_delayed_start]. *)
Definition without_delayed_start : Pipeline Z :=
  let ex := exports 0 [] in
  mk_Pipeline (fun _ => instance)
    (mk_Exports true (itk_wasm_input_array_alloc ex) (itk_wasm_input_json_alloc ex)
       (itk_wasm_output_array_address ex) (itk_wasm_output_array_size ex)
       (itk_wasm_output_json_address ex) (itk_wasm_output_json_size ex)
       (_initialize ex) None (itk_wasm_delayed_exit ex)).

(** The same module without the export [itk_wasm_output_json_size]. *)
Definition without_output_json_size : Pipeline Z :=
  let ex := exports 0 [] in
  mk_Pipeline (fun _ => instance)
    (mk_Exports true (itk_wasm_input_array_alloc ex) (itk_wasm_input_json_alloc ex)
       (itk_wasm_output_array_address ex) (itk_wasm_output_array_size ex)
       (itk_wasm_output_json_address ex) None
       (_initialize ex) (itk_wasm_delayed_start ex) (itk_wasm_delayed_exit ex)).

(** A library whose descriptors always parse to the given payloads, and
    which renders every descriptor as [{}]. *)
Definition py (image : Image.t) (mesh : Mesh.t) (polydata : PolyData.t) : PyLib :=
  mk_PyLib (fun _ => "{}") (fun _ => inr (JDict []))
           (fun b => inr (string_of_list_byte b))
           (fun _ => JDict []) (fun _ => JDict []) (fun _ => JDict [])
           (fun _ => inr image) (fun _ => inr mesh) (fun _ => inr polydata).

(** A 2-D image descriptor of component type [c], without buffers. *)
Definition image (c : ComponentType) : Image.t :=
  Image.mk (ImageType.mk 2 c "Scalar" 1) "image" [] [] None [] None.

(** A mesh and a polydata whose counts and buffer sizes are all zero. *)
Definition mesh : Mesh.t :=
  Mesh.mk (MeshType.mk (CFloat Float32) (CInt UInt32) (CInt UInt8) (CInt UInt8))
          "mesh" 0 None 0 None 0 0 None 0 None.

Definition polydata : PolyData.t :=
  PolyData.mk (PolyDataType.mk (CInt UInt8) (CFloat Float64))
              "polydata" 0 None 0 None 0 None 0 None 0 None 0 None 0 None.

Definition lib : PyLib := py (image (CInt UInt8)) mesh polydata.

(** A declared output slot of a kind that needs no path. *)
Definition slot (t : InterfaceTypes.t) : PipelineOutput := mk_PipelineOutput t None.

Definition in_bin : Path.t := Path.mk "/" ["tmp"; "a"; "in.bin"].
Definition out_bin : Path.t := Path.mk "/" ["tmp"; "b"; "out.bin"].


Definition file_inputs : list PipelineInput :=
  [InBinaryFile (BinaryFile.mk Sample.in_bin)].

Definition file_outputs : list PipelineOutput :=
  [mk_PipelineOutput InterfaceTypes.BinaryFile
     (Some (PBinaryFile (BinaryFile.mk Sample.out_bin)))].

(** A guest whose output accessors all report the range of [size] bytes
    at [ptr], whatever the slot and sub-index. *)
Definition echo (ptr size : Z) : @Self Z :=
  mk_Self (fun _ _ _ n => alloc n)
          (fun _ _ n => alloc n)
          (fun _ _ _ => const ptr)
          (fun _ _ _ => const size)
          (fun _ _ => const ptr)
          (fun _ _ => const size).

(** One hundred bytes, more than the memory of the sample guest holds. *)
Definition too_long : bytes := repeat "120"%byte 100.

(** The state of the sample instance after a failed write of [too_long]. *)
Definition after_alloc : Instance Z := mk_Instance (repeat "000"%byte 64) 108.

(** The sample module, returning code 1, without the export
    [itk_wasm_delayed_exit]. *)
Definition without_delayed_exit : Pipeline Z :=
  let ex := exports 1 [] in
  mk_Pipeline (fun _ => instance)
    (mk_Exports true (itk_wasm_input_array_alloc ex) (itk_wasm_input_json_alloc ex)
       (itk_wasm_output_array_address ex) (itk_wasm_output_array_size ex)
       (itk_wasm_output_json_address ex) (itk_wasm_output_json_size ex)
       (_initialize ex) (itk_wasm_delayed_start ex) None).

(** The sample module, returning code 1, whose [itk_wasm_delayed_exit]
    traps. *)
Definition trapping_delayed_exit : Pipeline Z :=
  let ex := exports 1 [] in
  mk_Pipeline (fun _ => instance)
    (mk_Exports true (itk_wasm_input_array_alloc ex) (itk_wasm_input_json_alloc ex)
       (itk_wasm_output_array_address ex) (itk_wasm_output_array_size ex)
       (itk_wasm_output_json_address ex) (itk_wasm_output_json_size ex)
       (_initialize ex) (itk_wasm_delayed_start ex) (Some (fun _ _ => None))).

(** *** A guest that writes an image

    The guest leaves a [uint8] image of [pixels] by 1 pixels: the pixel
    data at address 0, the 2 by 2 direction matrix at address 8, and the
    text of the descriptor at address 64. *)

Definition quote : string := String "034"%char EmptyString.

(** A quoted string, and a quoted key with its separator. *)
Definition quoted (s : string) : string := quote +:+ s +:+ quote.
Definition key (k : string) : string := quoted k +:+ ": ".

(** The descriptor of the image, as text and as [json.loads] reads it. *)
Definition image_text (pixels : Z) : string :=
  "{" +:+ key "imageType" +:+
        "{" +:+ key "dimension" +:+ "2, " +:+
                key "componentType" +:+ quoted "uint8" +:+ ", " +:+
                key "pixelType" +:+ quoted "Scalar" +:+ ", " +:+
                key "components" +:+ "1}, " +:+
         key "name" +:+ quoted "image" +:+ ", " +:+
         key "origin" +:+ "[], " +:+
         key "spacing" +:+ "[], " +:+
         key "direction" +:+ quoted (address_url 8) +:+ ", " +:+
         key "size" +:+ "[" +:+ decimal pixels +:+ ", 1], " +:+
         key "data" +:+ quoted (address_url 0) +:+ "}".

Definition image_descriptor (pixels : Z) : json :=
  JDict [("imageType", JDict [("dimension", JInt 2);
                              ("componentType", JStr "uint8");
                              ("pixelType", JStr "Scalar");
                              ("components", JInt 1)]);
         ("name", JStr "image");
         ("origin", JList []);
         ("spacing", JList []);
         ("direction", JStr (address_url 8));
         ("size", ints [pixels; 1]);
         ("data", JStr (address_url 0))].

(** [json.loads], on the one text the guest writes. *)
Definition loads (pixels : Z) (text : string) : Exception + json :=
  if String.eqb text (image_text pixels)
  then inr (image_descriptor pixels)
  else inl JSONDecodeError.

(** The member of [IntTypes] or [FloatTypes] a string equals. *)
Definition component_of (s : string) : ComponentType :=
  if String.eqb s "int8" then CInt Int8
  else if String.eqb s "uint8" then CInt UInt8
  else if String.eqb s "int16" then CInt Int16
  else if String.eqb s "uint16" then CInt UInt16
  else if String.eqb s "int32" then CInt Int32
  else if String.eqb s "uint32" then CInt UInt32
  else if String.eqb s "int64" then CInt Int64
  else if String.eqb s "uint64" then CInt UInt64
  else if String.eqb s "float32" then CFloat Float32
  else if String.eqb s "float64" then CFloat Float64
  else COther s.

Definition int_items (j : json) : list Z :=
  match j with
  | JList l => omap (fun x => match x with JInt n => Some n | _ => None end) l
  | _ => []
  end.

Definition float_items (j : json) : list float64 :=
  match j with
  | JList l => omap (fun x => match x with JFloat n => Some n | _ => None end) l
  | _ => []
  end.

(** The constructor of [Image] on the keys of a descriptor: [imageType]
    is turned into an [ImageType]; [direction] and [data] hold the address
    strings of the descriptor, not arrays, until [run] assigns them. *)
Definition image_of (j : json) : Exception + Image.t :=
  match j with
  | JDict items =>
      match dict_get "imageType" items,
            dict_get "name" items, dict_get "origin" items,
            dict_get "spacing" items, dict_get "size" items with
      | Some (JDict t), Some (JStr name), Some origin, Some spacing, Some size =>
          match dict_get "dimension" t, dict_get "componentType" t,
                dict_get "pixelType" t, dict_get "components" t with
          | Some (JInt d), Some (JStr c), Some (JStr p), Some (JInt n) =>
              inr (Image.mk (ImageType.mk d (component_of c) p n) name
                            (float_items origin) (float_items spacing) None
                            (int_items size) None)
          | _, _, _, _ => inl (TypeError "ImageType")
          end
      | _, _, _, _, _ => inl (TypeError "Image")
      end
  | _ => inl (TypeError "Image")
  end.

(** The library of the examples with images: it reads the descriptor the
    guest wrote. *)
Definition reader (pixels : Z) : PyLib :=
  mk_PyLib (json_dumps lib) (loads pixels) (decode lib)
           (asdict_ImageType lib) (asdict_MeshType lib) (asdict_PolyDataType lib)
           image_of (Mesh_init lib) (PolyData_init lib).

Definition imaging (pixels : Z) : @Self Z :=
  mk_Self (fun _ _ _ size => alloc size)
          (fun _ _ size => alloc size)
          (fun _ _ sub => const (8 * sub))
          (fun _ _ sub => const (nth (Z.to_nat sub) [pixels; 32] 0))
          (fun _ _ => const 64)
          (fun _ _ => const (len (encode (image_text pixels)))).

(** The memory the guest leaves: four pixel bytes and zeros up to address
    64, then the text of the descriptor. *)
Definition image_instance (pixels : Z) : Instance Z :=
  mk_Instance (["001"; "002"; "003"; "004"]%byte ++ repeat "000"%byte 60
               ++ encode (image_text pixels))
              (64 + len (encode (image_text pixels))).

Definition image_pipeline (pixels : Z) : Pipeline Z :=
  let f := imaging pixels in
  mk_Pipeline (fun _ => image_instance pixels)
    (mk_Exports true
       (Some (input_array_alloc f)) (Some (input_json_alloc f))
       (Some (output_array_address f)) (Some (output_array_size f))
       (Some (output_json_address f)) (Some (output_json_size f))
       (Some (fun s => Some s))
       (Some (const 0))
       (Some (fun _ s => Some s))).

End Sample.

(** * Observing runs *)

(** ** Classes of events *)

(** The events of staging inputs. *)
Definition is_staging (e : Event) : bool :=
  match e with
  | Guest (Call_input_array_alloc _ _ _ _) _
  | Guest (Call_input_json_alloc _ _ _) _
  | InputJson _ _ => true
  | _ => false
  end.

(** The calls of the output accessors. *)
Definition is_accessor (e : Event) : bool :=
  match e with
  | Guest (Call_output_array_address _ _ _) _
  | Guest (Call_output_array_size _ _ _) _
  | Guest (Call_output_json_address _ _) _
  | Guest (Call_output_json_size _ _) _ => true
  | _ => false
  end.

Definition is_delayed_start (e : Event) : bool :=
  match e with
  | Guest Call_delayed_start _ => true
  | _ => false
  end.

Definition is_delayed_exit (e : Event) : bool :=
  match e with
  | Guest (Call_delayed_exit _) _ => true
  | _ => false
  end.

(** What can precede the call of [itk_wasm_delayed_start]. *)
Definition before_start (e : Event) : bool :=
  match e with
  | Guest Call_initialize _ => true
  | _ => is_staging e
  end.

(** The staging events of one input slot. *)
Definition staged_for (slot : Z) (e : Event) : bool :=
  match e with
  | Guest (Call_input_array_alloc _ i _ _) _
  | Guest (Call_input_json_alloc _ i _) _
  | InputJson i _ => i =? slot
  | _ => false
  end.

(** The staging events of the slots from [slot] on. *)
Definition staged_from (slot : Z) (e : Event) : bool :=
  match e with
  | Guest (Call_input_array_alloc _ i _ _) _
  | Guest (Call_input_json_alloc _ i _) _
  | InputJson i _ => slot <=? i
  | _ => false
  end.

(** Every event but the staging events of one slot. *)
Definition other_slot (slot : Z) (e : Event) : bool := negb (staged_for slot e).

(** Every event but the staging events. *)
Definition not_staging (e : Event) : bool := negb (is_staging e).

(** The descriptors handed to [_set_input_json] for one slot, in order. *)
Fixpoint descriptors_of (slot : Z) (l : list Event) : list json :=
  match l with
  | [] => []
  | InputJson i obj :: rest =>
      if i =? slot then obj :: descriptors_of slot rest else descriptors_of slot rest
  | _ :: rest => descriptors_of slot rest
  end.

Definition all (Q : Event -> bool) (l : list Event) : Prop :=
  Forall (fun e => Q e = true) l.

(** The number of events of class [Q] in a log. *)
Fixpoint count (Q : Event -> bool) (l : list Event) : nat :=
  match l with
  | [] => O
  | e :: rest => if Q e then S (count Q rest) else count Q rest
  end.

(** The sizes and outcomes of the calls of [itk_wasm_input_array_alloc]
    for one slot and sub-index, in order. *)
Fixpoint array_allocs (slot sub : Z) (l : list Event) : list (Z * Returned) :=
  match l with
  | [] => []
  | Guest (Call_input_array_alloc _ i k n) r :: rest =>
      if (i =? slot) && (k =? sub)
      then (n, r) :: array_allocs slot sub rest
      else array_allocs slot sub rest
  | _ :: rest => array_allocs slot sub rest
  end.

(** The outcomes of the calls of [itk_wasm_output_array_address] for one
    slot and sub-index, in order. *)
Fixpoint array_addresses (slot sub : Z) (l : list Event) : list Returned :=
  match l with
  | [] => []
  | Guest (Call_output_array_address _ i k) r :: rest =>
      if (i =? slot) && (k =? sub)
      then r :: array_addresses slot sub rest
      else array_addresses slot sub rest
  | _ :: rest => array_addresses slot sub rest
  end.

(** The outcomes of the calls of [itk_wasm_output_array_size] for one
    slot and sub-index, in order. *)
Fixpoint array_sizes (slot sub : Z) (l : list Event) : list Returned :=
  match l with
  | [] => []
  | Guest (Call_output_array_size _ i k) r :: rest =>
      if (i =? slot) && (k =? sub)
      then r :: array_sizes slot sub rest
      else array_sizes slot sub rest
  | _ :: rest => array_sizes slot sub rest
  end.


(** The buffer fields of the descriptor of each kind, with their
    sub-indices (Table T1). *)
Definition buffer_fields (input_ : PipelineInput) : list (string * Z) :=
  match input_ with
  | InTextStream _ | InBinaryStream _ => [("data", 0)]
  | InImage _ => [("data", 0); ("direction", 1)]
  | InMesh _ => [("points", 0); ("cells", 1); ("pointData", 2); ("cellData", 3)]
  | InPolyData _ =>
      [("points", 0); ("vertices", 1); ("lines", 2); ("polygons", 3);
       ("triangleStrips", 4); ("pointData", 5); ("cellData", 6)]
  | InTextFile _ | InBinaryFile _ | InOther _ => []
  end.

(** [input_.data.path] of an input of a file kind. *)
Definition input_path (input_ : PipelineInput) : option Path.t :=
  match input_ with
  | InTextFile f => Some (TextFile.path f)
  | InBinaryFile f => Some (BinaryFile.path f)
  | _ => None
  end.

(** The name of an export, when the module lacks it. *)
Definition absent {A} (name : string) (e : option A) : list string :=
  match e with
  | Some _ => []
  | None => [name]
  end.

(** The exports a module lacks among those [run] resolves before its first
    guest call, in the order [run] resolves them. *)
Definition missing_exports {P} (ex : Exports P) : list string :=
  (if memory ex then [] else ["memory"]) ++
  absent "itk_wasm_input_array_alloc" (itk_wasm_input_array_alloc ex) ++
  absent "itk_wasm_input_json_alloc" (itk_wasm_input_json_alloc ex) ++
  absent "itk_wasm_output_array_address" (itk_wasm_output_array_address ex) ++
  absent "itk_wasm_output_array_size" (itk_wasm_output_array_size ex) ++
  absent "itk_wasm_output_json_address" (itk_wasm_output_json_address ex) ++
  absent "itk_wasm_output_json_size" (itk_wasm_output_json_size ex) ++
  absent "_initialize" (_initialize ex).

(** ** Outcomes of computations *)

(** [m] returns [a] from state [s], ending in [s'] with log [l]. *)
Definition runs {P A} (m : M P A) (s : Instance P) (a : A) (s' : Instance P)
    (l : list Event) : Prop :=
  m s = mk_Out (inr a) s' l.

(** Every event [m] logs is of class [Q]. *)
Definition emits {P} (Q : Event -> bool) {A} (m : M P A) : Prop :=
  forall s, all Q (log (m s)).

(** ** The parts of [run] *)

(** [run] from the return of [itk_wasm_delayed_start] on. *)
Definition finish {P} (py : PyLib) (ex : Exports P) (self : @Self P)
    (outputs : list PipelineOutput) (return_code : Z)
  : M P (list (option PipelineOutput)) :=
  populated_outputs <-
    (if negb (len outputs =? 0) && (return_code =? 0)
     then decode_outputs py self 0 outputs
     else ret []) ;;
  delayed_exit <- export "itk_wasm_delayed_exit" (itk_wasm_delayed_exit ex) ;;
  call_proc "itk_wasm_delayed_exit" (Call_delayed_exit return_code)
            (delayed_exit return_code) ;;;
  ret populated_outputs.

(** How a run from the instantiation on can go: it fails before
    [itk_wasm_delayed_start] is called; or that call traps; or it
    returns a code and the run goes on with [finish]. *)
Definition run_cases {P} (py : PyLib) (pipeline : Pipeline P)
    (outputs : list PipelineOutput)
    (o : Out P (list (option PipelineOutput))) : Prop :=
  (exists e, res o = inl e /\ all before_start (log o)) \/
  (exists pre,
      res o = inl (RuntimeError "itk_wasm_delayed_start") /\
      log o = pre ++ [Guest Call_delayed_start Trapped] /\
      all before_start pre) \/
  (exists self pre return_code s,
      all before_start pre /\
      res o = res (finish py (exports pipeline) self outputs return_code s) /\
      log o = pre ++ Guest Call_delayed_start (Value return_code)
                  :: log (finish py (exports pipeline) self outputs return_code s)).

(** [run] from the resolution of [itk_wasm_delayed_start] on. *)
Definition launch {P} (py : PyLib) (ex : Exports P) (self : @Self P)
    (outputs : list PipelineOutput)
  : M P (list (option PipelineOutput)) :=
  delayed_start <- export "itk_wasm_delayed_start" (itk_wasm_delayed_start ex) ;;
  return_code <- call "itk_wasm_delayed_start" Call_delayed_start delayed_start ;;
  finish py ex self outputs return_code.

(** ** Further observations *)

(** The bytes a stream input stages. *)
Definition stream_bytes (input_ : PipelineInput) : option bytes :=
  match input_ with
  | InTextStream d => Some (encode (TextStream.data d))
  | InBinaryStream d => Some (BinaryStream.data d)
  | _ => None
  end.

(** The calls of [itk_wasm_input_array_alloc] for one slot, for the
    sub-indices from [sub] on, one for each size and returned pointer. *)
Fixpoint alloc_events (slot sub : Z) (allocs : list (Z * Z)) : list Event :=
  match allocs with
  | [] => []
  | (size, ptr) :: rest =>
      Guest (Call_input_array_alloc 0 slot sub size) (Value ptr)
      :: alloc_events slot (sub + 1) rest
  end.

(** The slots of the staging events of a log, in order. *)
Fixpoint staging_slots (l : list Event) : list Z :=
  match l with
  | [] => []
  | Guest (Call_input_array_alloc _ i _ _) _ :: rest
  | Guest (Call_input_json_alloc _ i _) _ :: rest
  | InputJson i _ :: rest => i :: staging_slots rest
  | _ :: rest => staging_slots rest
  end.

(** The [run] argument of a guest call is 0, where the export has one. *)
Definition run_is_zero (e : Event) : bool :=
  match e with
  | Guest (Call_input_array_alloc r _ _ _) _
  | Guest (Call_input_json_alloc r _ _) _
  | Guest (Call_output_array_address r _ _) _
  | Guest (Call_output_array_size r _ _) _
  | Guest (Call_output_json_address r _) _
  | Guest (Call_output_json_size r _) _ => r =? 0
  | _ => true
  end.

(** A guest call that trapped. *)
Definition is_trap (e : Event) : bool :=
  match e with
  | Guest _ Trapped => true
  | _ => false
  end.

Definition no_trap (e : Event) : bool := negb (is_trap e).

(** No call trapped, or one did, it is the last event, and the outcome is
    the [RuntimeError] of that trap. *)
Definition trap_final {P A} (o : Out P A) : Prop :=
  all no_trap (log o) \/
  exists name pre c,
    res o = inl (RuntimeError name) /\
    log o = pre ++ [Guest c Trapped] /\
    all no_trap pre.

(** [trap_final] holds of [m] from every state. *)
Definition tidy {P A} (m : M P A) : Prop := forall s, trap_final (m s).

(** The four buffers of a mesh: sub-index, gating count, component type
    and field. *)
Definition mesh_buffers (mesh : Mesh.t) : list (Z * Z * ComponentType * option ndarray) :=
  let t := Mesh.meshType mesh in
  [(0, Mesh.numberOfPoints mesh, MeshType.pointComponentType t, Mesh.points mesh);
   (1, Mesh.numberOfCells mesh, MeshType.cellComponentType t, Mesh.cells mesh);
   (2, Mesh.numberOfPointPixels mesh, MeshType.pointPixelComponentType t,
    Mesh.pointData mesh);
   (3, Mesh.numberOfCellPixels mesh, MeshType.cellPixelComponentType t,
    Mesh.cellData mesh)].

(** The staging events of a log come slot by slot, in increasing order of
    the slots, and for slots below [n] only. *)
Definition slots_in_order (n : Z) (l : list Event) : Prop :=
  StronglySorted Z.le (staging_slots l) /\
  Forall (fun i => 0 <= i < n) (staging_slots l).

(** [run] on a module instantiated with the WASI environment [env]. *)
Definition run_with {P} (py : PyLib) (pipeline : Pipeline P)
    (outputs : list PipelineOutput) (inputs : list PipelineInput) (env : WasiEnv)
  : Run :=
  let o := run_instance py pipeline outputs inputs (instantiate pipeline env) in
  mk_Run (res o) (log o).

(** The directory [d] is the parent of the path of a file input or of a
    file output of the call. *)
Definition named_by (inputs : list PipelineInput) (outputs : list PipelineOutput)
    (d : string) : Prop :=
  (exists input_ path,
      In input_ inputs /\ input_path input_ = Some path /\
      d = Path.str (Path.parent path)) \/
  (exists output path,
      In output outputs /\ is_file (type output) = true /\
      output_path output = inr path /\ d = Path.str (Path.parent path)).

(** The kind whose payload class a payload is of. *)
Definition payload_kind (d : Payload) : InterfaceTypes.t :=
  match d with
  | PTextStream _ => InterfaceTypes.TextStream
  | PBinaryStream _ => InterfaceTypes.BinaryStream
  | PTextFile _ => InterfaceTypes.TextFile
  | PBinaryFile _ => InterfaceTypes.BinaryFile
  | PImage _ => InterfaceTypes.Image
  | PMesh _ => InterfaceTypes.Mesh
  | PPolyData _ => InterfaceTypes.PolyData
  end.

(** What [run] puts in the tuple for a declared slot: a populated output of
    the slot's kind, with a payload of that kind's class; [None] for a
    kind that is none of the seven. *)
Definition populates (slot : PipelineOutput) (v : option PipelineOutput) : Prop :=
  match v with
  | Some out =>
      type out = type slot /\
      exists d, data out = Some d /\ payload_kind d = type slot
  | None => exists name, type slot = InterfaceTypes.Other name
  end.

(** * Properties *)

Lemma all_app Q l1 l2 : all Q l1 -> all Q l2 -> all Q (l1 ++ l2).
Proof. intros H1 H2. apply Forall_app. split; assumption. Qed.

Lemma all_impl (Q R : Event -> bool) l :
  (forall e, Q e = true -> R e = true) -> all Q l -> all R l.
Proof. intros H Hl. induction Hl; constructor; auto. Qed.

Lemma staging_before_start e : is_staging e = true -> before_start e = true.
Proof. destruct e as [[] ?|]; simpl; intros; reflexivity || discriminate. Qed.

Lemma before_start_not_accessor e : before_start e = true -> is_accessor e = false.
Proof. destruct e as [[] ?|]; simpl; intros; reflexivity || discriminate. Qed.

Lemma count_app Q l1 l2 : count Q (l1 ++ l2) = (count Q l1 + count Q l2)%nat.
Proof.
  induction l1 as [|e l1 IH]; simpl; [reflexivity|].
  rewrite IH. destruct (Q e); reflexivity.
Qed.

Lemma count_none Q R l :
  (forall e, Q e = true -> R e = false) -> all Q l -> count R l = O.
Proof.
  intros HQR Hl. induction Hl as [|e l He _ IH]; simpl; [reflexivity|].
  rewrite (HQR e He). assumption.
Qed.

(** ** Reasoning about runs *)

Section Rules.

Context {P : Type}.
Implicit Types s : Instance P.

Lemma runs_intro {A} (m : M P A) s a :
  res (m s) = inr a -> runs m s a (st (m s)) (log (m s)).
Proof. unfold runs. destruct (m s) as [r s' l]. simpl. intros ->. reflexivity. Qed.

Lemma runs_bind_inv {A B} (m : M P A) (f : A -> M P B) s b s2 l :
  runs (bind m f) s b s2 l ->
  exists a s1 l1 l2, runs m s a s1 l1 /\ runs (f a) s1 b s2 l2 /\ l = l1 ++ l2.
Proof.
  unfold runs, bind. destruct (m s) as [[e|a] s1 l1]; simpl; [discriminate|].
  destruct (f a s1) as [r s2' l2] eqn:E. simpl. intros H. injection H as -> -> <-.
  exists a, s1, l1, l2. auto.
Qed.

Lemma runs_ret_inv {A} (a b : A) s s' l :
  runs (ret a) s b s' l -> b = a /\ s' = s /\ l = [].
Proof. unfold runs, ret. intros H. injection H as -> -> <-. auto. Qed.

Lemma runs_raise_inv {A} e s (b : A) s' l : runs (raise e) s b s' l -> False.
Proof. unfold runs, raise. discriminate. Qed.

Lemma runs_lift_inv {A} (r : Exception + A) s b s' l :
  runs (lift r) s b s' l -> r = inr b /\ s' = s /\ l = [].
Proof.
  destruct r as [e|a]; simpl; intros H.
  - destruct (runs_raise_inv _ _ _ _ _ H).
  - apply runs_ret_inv in H as (-> & -> & ->). auto.
Qed.

Lemma runs_call_inv name c f s v s' l :
  runs (call name c f) s v s' l -> f s = Some (v, s') /\ l = [Guest c (Value v)].
Proof.
  unfold runs, call. destruct (f s) as [[v0 s0]|]; [|discriminate].
  intros H. injection H as -> -> <-. auto.
Qed.

Lemma runs_call_proc_inv name c f s u s' l :
  runs (call_proc name c f) s u s' l -> f s = Some s' /\ l = [Guest c Void].
Proof.
  unfold runs, call_proc. destruct (f s) as [s0|]; [|discriminate].
  intros H. injection H as _ -> <-. auto.
Qed.

Lemma runs_export_inv {A} name (e : option A) s f s' l :
  runs (export name e) s f s' l -> e = Some f /\ s' = s /\ l = [].
Proof.
  destruct e as [g|]; simpl; intros H.
  - apply runs_ret_inv in H as (-> & -> & ->). auto.
  - destruct (runs_raise_inv _ _ _ _ _ H).
Qed.

Lemma runs_memoryview_inv s buf s' l :
  runs memoryview s buf s' l -> buf = buffer s /\ s' = s /\ l = [].
Proof. unfold runs, memoryview. intros H. injection H as <- <- <-. auto. Qed.

Lemma runs_buffer_assign_inv a b d s u s' l :
  runs (buffer_assign a b d) s u s' l -> l = [].
Proof.
  unfold runs, buffer_assign. destruct (py_slice_assign _ _ _ _); [|discriminate].
  intros H. injection H as _ _ <-. reflexivity.
Qed.

Lemma runs_emit_inv e s u s' l : runs (emit e) s u s' l -> s' = s /\ l = [e].
Proof. unfold runs, emit. intros H. injection H as _ <- <-. auto. Qed.

Lemma emits_ret Q {A} (a : A) : emits Q (@ret P A a).
Proof. intros s. constructor. Qed.

Lemma emits_raise Q {A} e : emits Q (@raise P A e).
Proof. intros s. constructor. Qed.

Lemma emits_lift Q {A} (r : Exception + A) : emits Q (@lift P A r).
Proof. destruct r; [apply emits_raise | apply emits_ret]. Qed.

Lemma emits_export Q {A} name (e : option A) : emits Q (@export P A name e).
Proof. destruct e; [apply emits_ret | apply emits_raise]. Qed.

Lemma emits_memoryview Q : emits Q (@memoryview P).
Proof. intros s. constructor. Qed.

Lemma emits_buffer_assign Q a b d : emits Q (@buffer_assign P a b d).
Proof.
  intros s. unfold buffer_assign. destruct (py_slice_assign _ _ _ _); constructor.
Qed.

Lemma emits_emit (Q : Event -> bool) e : Q e = true -> emits Q (@emit P e).
Proof. intros H s. simpl. repeat constructor. assumption. Qed.

Lemma emits_call (Q : Event -> bool) name c (f : @GuestFn P) :
  (forall r, Q (Guest c r) = true) -> emits Q (call name c f).
Proof.
  intros H s. unfold call. destruct (f s) as [[v s']|]; simpl;
    repeat constructor; apply H.
Qed.

Lemma emits_call_proc (Q : Event -> bool) name c (f : @GuestProc P) :
  (forall r, Q (Guest c r) = true) -> emits Q (call_proc name c f).
Proof.
  intros H s. unfold call_proc. destruct (f s) as [s'|]; simpl;
    repeat constructor; apply H.
Qed.

Lemma emits_bind Q {A B} (m : M P A) (f : A -> M P B) :
  emits Q m -> (forall a, emits Q (f a)) -> emits Q (bind m f).
Proof.
  intros Hm Hf s. unfold bind. specialize (Hm s).
  destruct (res (m s)) as [e|a]; simpl; [assumption|].
  apply all_app; [assumption | apply Hf].
Qed.

Lemma emits_impl (Q R : Event -> bool) {A} (m : M P A) :
  (forall e, Q e = true -> R e = true) -> emits Q m -> emits R m.
Proof. intros H Hm s. eapply all_impl; [exact H | apply Hm]. Qed.

(** The log of a sequence: that of the first part, then that of the
    second when the first returns. *)
Lemma log_bind {A B} (m : M P A) (f : A -> M P B) s :
  log (bind m f s) =
  log (m s) ++ match res (m s) with
               | inr a => log (f a (st (m s)))
               | inl _ => []
               end.
Proof.
  unfold bind. destruct (res (m s)); simpl; [rewrite app_nil_r|]; reflexivity.
Qed.

Lemma res_bind {A B} (m : M P A) (f : A -> M P B) s :
  res (bind m f s) =
  match res (m s) with
  | inr a => res (f a (st (m s)))
  | inl e => inl e
  end.
Proof. unfold bind. destruct (res (m s)); reflexivity. Qed.

End Rules.

Create HintDb emits.

#[local] Hint Resolve emits_ret emits_raise emits_lift emits_export emits_memoryview
  emits_buffer_assign : emits.

(** Splits a hypothesis that a sequence of steps returned into one
    hypothesis for each step. *)
Ltac invert_runs :=
  repeat match goal with
  | H : runs (bind _ _) _ _ _ _ |- _ =>
      let a := fresh "a" in let s := fresh "s" in
      let l1 := fresh "l" in let l2 := fresh "l" in
      let H1 := fresh "Hrun" in let H2 := fresh "Hrun" in let E := fresh "El" in
      apply runs_bind_inv in H as (a & s & l1 & l2 & H1 & H2 & E)
  | H : runs (ret _) _ _ _ _ |- _ => apply runs_ret_inv in H as (? & ? & ?)
  | H : runs (raise _) _ _ _ _ |- _ => destruct (runs_raise_inv _ _ _ _ _ H)
  | H : runs (lift _) _ _ _ _ |- _ => apply runs_lift_inv in H as (? & ? & ?)
  | H : runs memoryview _ _ _ _ |- _ => apply runs_memoryview_inv in H as (? & ? & ?)
  | H : runs (buffer_assign _ _ _) _ _ _ _ |- _ => apply runs_buffer_assign_inv in H
  | H : runs (emit _) _ _ _ _ |- _ => apply runs_emit_inv in H as (? & ?)
  | H : runs (call _ _ _) _ _ _ _ |- _ => apply runs_call_inv in H as (? & ?)
  | H : runs (call_proc _ _ _) _ _ _ _ |- _ => apply runs_call_proc_inv in H as (? & ?)
  | H : runs (export _ _) _ _ _ _ |- _ => apply runs_export_inv in H as (? & ? & ?)
  end.

(** Proves that a sequence of steps logs events of one class only. *)
Ltac prove_emits :=
  repeat first
    [ solve [auto with emits]
    | apply emits_bind; [|intros]
    | apply emits_call; intros; reflexivity
    | apply emits_call_proc; intros; reflexivity
    | apply emits_emit; reflexivity ].

(** ** Address URLs *)

Lemma strip_prefix_app pre s : strip_prefix pre (pre +:+ s) = Some s.
Proof.
  induction pre as [|a pre IH]; simpl; [reflexivity|].
  rewrite Ascii.eqb_refl. exact IH.
Qed.

Lemma decimal_parses n : NilZero.int_of_string (decimal n) = Some (Z.to_int n).
Proof.
  unfold decimal. destruct n as [|p|p].
  - reflexivity.
  - apply NilZero.isi; [|discriminate].
    simpl. intros [= H]. exact (Unsigned.to_uint_nonnil p H).
  - apply NilZero.isi; [discriminate|].
    simpl. intros [= H]. exact (Unsigned.to_uint_nonnil p H).
Qed.

(** An address URL reads back as the pointer it was made from. *)
Lemma address_url_parses ptr : parse_address_url (address_url ptr) = Some ptr.
Proof.
  unfold parse_address_url, address_url. rewrite strip_prefix_app, decimal_parses.
  simpl. rewrite DecimalZ.of_to. reflexivity.
Qed.

Example address_url_1024 : address_url 1024 = "data:application/vnd.itk.address,0:1024".
Proof. reflexivity. Qed.

(** ** The steps of staging and decoding *)

Section Steps.

Context {P : Type}.
Context (py : PyLib) (self : @Self P).

Lemma set_input_array_inv d i k s p s' l :
  runs (_set_input_array self (Some d) i k) s p s' l ->
  l = [Guest (Call_input_array_alloc 0 i k (len d)) (Value p)].
Proof.
  unfold _set_input_array, do_input_array_alloc. intros H. invert_runs. subst.
  reflexivity.
Qed.

Lemma set_input_json_inv obj i s u s' l :
  runs (_set_input_json py self obj i) s u s' l ->
  exists n q, l = [InputJson i obj; Guest (Call_input_json_alloc 0 i n) (Value q)].
Proof.
  unfold _set_input_json, do_input_json_alloc. intros H. invert_runs. subst.
  eauto.
Qed.

Lemma to_bytes_inv a s v s' l :
  runs (@to_bytes P a) s v s' l -> s' = s /\ l = [].
Proof. unfold to_bytes. destruct a; intros H; invert_runs; auto. Qed.

Lemma data_bytes_inv a s v s' l :
  runs (@data_bytes P a) s v s' l -> s' = s /\ l = [].
Proof. unfold data_bytes. destruct a; intros H; invert_runs; auto. Qed.

Lemma gated_bytes_inv c b s v s' l :
  runs (@gated_bytes P c b) s v s' l -> s' = s /\ l = [] /\ (c = 0 -> v = []).
Proof.
  unfold gated_bytes. destruct (c =? 0) eqn:E; intros H.
  - invert_runs. auto.
  - apply to_bytes_inv in H as (-> & ->). repeat split.
    intros ->. discriminate.
Qed.

Lemma emits_set_input_array d i k : emits is_staging (_set_input_array self d i k).
Proof. unfold _set_input_array, do_input_array_alloc. destruct d; prove_emits. Qed.

Lemma emits_set_input_json obj i : emits is_staging (_set_input_json py self obj i).
Proof. unfold _set_input_json, do_input_json_alloc. prove_emits. Qed.

Lemma emits_to_bytes Q a : emits Q (@to_bytes P a).
Proof. unfold to_bytes. destruct a; prove_emits. Qed.

Lemma emits_data_bytes Q a : emits Q (@data_bytes P a).
Proof. unfold data_bytes. destruct a; prove_emits. Qed.

Lemma emits_gated_bytes Q c b : emits Q (@gated_bytes P c b).
Proof. unfold gated_bytes. destruct (c =? 0); [prove_emits | apply emits_to_bytes]. Qed.

Hint Resolve emits_set_input_array emits_set_input_json emits_to_bytes
  emits_data_bytes emits_gated_bytes : emits.

Lemma emits_encode_input index input_ :
  emits is_staging (encode_input py self index input_).
Proof. destruct input_; simpl; prove_emits. Qed.

Lemma emits_encode_inputs inputs :
  forall index, emits is_staging (encode_inputs py self index inputs).
Proof.
  induction inputs as [|input_ rest IH]; intros index; simpl.
  - prove_emits.
  - apply emits_bind; [apply emits_encode_input | intros _; apply IH].
Qed.

Lemma emits_get_output_json index : emits is_accessor (_get_output_json py self index).
Proof.
  unfold _get_output_json, do_output_json_address, do_output_json_size. prove_emits.
Qed.

Lemma emits_read_array c index sub : emits is_accessor (read_array self c index sub).
Proof.
  unfold read_array, do_output_array_address, do_output_array_size. prove_emits.
Qed.

Hint Resolve emits_get_output_json emits_read_array : emits.

Lemma emits_gated_array {T} count c index sub (f g : ndarray -> T -> T) x :
  emits is_accessor (gated_array self count c index sub f g x).
Proof. unfold gated_array. destruct (0 <? count); prove_emits. Qed.

Hint Resolve emits_gated_array : emits.

Lemma emits_decode_output index output :
  emits is_accessor (decode_output py self index output).
Proof.
  unfold decode_output, do_output_array_address, do_output_array_size.
  destruct (type output); prove_emits.
Qed.

Lemma emits_decode_outputs outputs :
  forall index, emits is_accessor (decode_outputs py self index outputs).
Proof.
  induction outputs as [|output rest IH]; intros index; simpl.
  - prove_emits.
  - apply emits_bind; [apply emits_decode_output | intros a].
    apply emits_bind; [apply IH | intros; prove_emits].
Qed.

End Steps.

(** Splits a hypothesis that staging one input returned into the events
    of its steps. *)
Ltac invert_encode :=
  repeat (invert_runs;
    match goal with
    | H : runs (_set_input_array _ (Some _) _ _) _ _ _ _ |- _ =>
        apply set_input_array_inv in H
    | H : runs (_set_input_json _ _ _ _) _ _ _ _ |- _ =>
        apply set_input_json_inv in H as (? & ? & ?)
    | H : runs (gated_bytes _ _) _ _ _ _ |- _ =>
        apply gated_bytes_inv in H as (? & ? & ?)
    | H : runs (data_bytes _) _ _ _ _ |- _ =>
        apply data_bytes_inv in H as (? & ?)
    end);
  invert_runs.

(** Picks the member of a literal list a membership hypothesis is about. *)
Ltac pick_member H :=
  simpl in H;
  repeat match type of H with
  | _ \/ _ => destruct H as [H|H]
  end;
  [ injection H as ? ? .. | destruct H ].

Section Staging.

Context {P : Type}.
Context (py : PyLib) (self : @Self P).




End Staging.

(** ** Slots *)

Lemma staged_for_is_staging slot e : staged_for slot e = true -> is_staging e = true.
Proof. destruct e as [[] ?|]; simpl; intros; reflexivity || discriminate. Qed.

Lemma staged_for_from slot e : staged_for slot e = true -> staged_from slot e = true.
Proof.
  destruct e as [[] ?|]; simpl; intros H; try discriminate;
    apply Z.eqb_eq in H; apply Z.leb_le; lia.
Qed.

Lemma staged_from_next slot e : staged_from (slot + 1) e = true -> staged_from slot e = true.
Proof.
  destruct e as [[] ?|]; simpl; intros H; try discriminate;
    apply Z.leb_le in H; apply Z.leb_le; lia.
Qed.

Lemma staged_from_other slot k e :
  slot < k -> staged_from k e = true -> other_slot slot e = true.
Proof.
  unfold other_slot. destruct e as [[] ?|]; simpl; intros Hk H; try discriminate;
    apply Z.leb_le in H; apply negb_true_iff, Z.eqb_neq; lia.
Qed.

Lemma staged_for_other slot k e :
  slot <> k -> staged_for k e = true -> other_slot slot e = true.
Proof.
  unfold other_slot. destruct e as [[] ?|]; simpl; intros Hk H; try discriminate;
    apply Z.eqb_eq in H; apply negb_true_iff, Z.eqb_neq; lia.
Qed.

Lemma not_staging_other slot e : not_staging e = true -> other_slot slot e = true.
Proof.
  unfold not_staging, other_slot. destruct e as [[] ?|]; simpl; intros;
    reflexivity || discriminate.
Qed.

Lemma accessor_not_staging e : is_accessor e = true -> not_staging e = true.
Proof. destruct e as [[] ?|]; simpl; intros; reflexivity || discriminate. Qed.





Lemma count_staged_other slot l :
  all (other_slot slot) l -> count (staged_for slot) l = O.
Proof.
  apply count_none. intros e. unfold other_slot. apply negb_true_iff.
Qed.

Section Slots.

Context {P : Type}.
Context (py : PyLib) (self : @Self P).

Lemma slot_set_input_array d i k : emits (staged_for i) (_set_input_array self d i k).
Proof.
  unfold _set_input_array, do_input_array_alloc. destruct d; [|prove_emits].
  apply emits_bind; [|intros; prove_emits].
  apply emits_call. intros r. apply Z.eqb_refl.
Qed.

Lemma slot_set_input_json obj i : emits (staged_for i) (_set_input_json py self obj i).
Proof.
  unfold _set_input_json, do_input_json_alloc.
  apply emits_bind; [apply emits_emit, Z.eqb_refl | intros _].
  apply emits_bind; [|intros; prove_emits].
  apply emits_call. intros r. apply Z.eqb_refl.
Qed.

Hint Resolve slot_set_input_array slot_set_input_json emits_to_bytes
  emits_data_bytes emits_gated_bytes : emits.

(** Staging one input logs staging events of its slot only. *)
Lemma slot_encode_input index input_ :
  emits (staged_for index) (encode_input py self index input_).
Proof. destruct input_; unfold encode_input; prove_emits. Qed.

Lemma slot_encode_inputs inputs :
  forall index, emits (staged_from index) (encode_inputs py self index inputs).
Proof.
  induction inputs as [|input_ rest IH]; intros index; simpl.
  - prove_emits.
  - apply emits_bind.
    + eapply emits_impl; [apply staged_for_from | apply slot_encode_input].
    + intros _. eapply emits_impl; [apply staged_from_next | apply IH].
Qed.

(** In the log of staging all inputs, the log of staging the [i]-th stands
    between events of other slots. *)
Lemma encode_inputs_split inputs :
  forall index s u s' l i input_,
    runs (encode_inputs py self index inputs) s u s' l ->
    inputs !! i = Some input_ ->
    exists l1 l2 l3 s1 s2,
      l = l1 ++ l2 ++ l3 /\
      runs (encode_input py self (index + Z.of_nat i) input_) s1 tt s2 l2 /\
      all (other_slot (index + Z.of_nat i)) l1 /\
      all (other_slot (index + Z.of_nat i)) l3.
Proof.
  induction inputs as [|x rest IH]; intros index s u s' l i input_ H Hi;
    [discriminate|].
  simpl in H. apply runs_bind_inv in H as (a & s0 & la & lb & H1 & H2 & ->).
  destruct a. destruct i as [|i]; simpl in Hi.
  - injection Hi as ->. rewrite Z.add_0_r.
    exists [], la, lb, s, s0.
    split; [reflexivity|]. split; [exact H1|]. split; [constructor|].
    pose proof (slot_encode_inputs rest (index + 1) s0) as Hl.
    unfold runs in H2. rewrite H2 in Hl. simpl in Hl.
    eapply all_impl; [|exact Hl].
    intros e. apply staged_from_other. lia.
  - destruct (IH _ _ _ _ _ _ _ H2 Hi) as (l1 & l2 & l3 & t1 & t2 & -> & Hr & Ha & Hb).
    replace (index + Z.of_nat (S i)) with (index + 1 + Z.of_nat i) by lia.
    exists (la ++ l1), l2, l3, t1, t2.
    split; [rewrite app_assoc; reflexivity|]. split; [exact Hr|].
    split; [|exact Hb].
    apply all_app; [|exact Ha].
    pose proof (slot_encode_input index x s) as Hl.
    unfold runs in H1. rewrite H1 in Hl. simpl in Hl.
    eapply all_impl; [|exact Hl].
    intros e. apply staged_for_other. lia.
Qed.

(** Staging all inputs logs nothing for the slot of an input of a file
    kind. *)
Lemma encode_inputs_skip_files inputs :
  forall index i input_,
    inputs !! i = Some input_ ->
    is_file (input_type input_) = true ->
    emits (other_slot (index + Z.of_nat i)) (encode_inputs py self index inputs).
Proof.
  induction inputs as [|x rest IH]; intros index i input_ Hi Hf; [discriminate|].
  simpl. destruct i as [|i]; simpl in Hi.
  - injection Hi as ->. rewrite Z.add_0_r. apply emits_bind.
    + destruct input_; try discriminate; simpl; prove_emits.
    + intros _. eapply emits_impl; [|apply slot_encode_inputs].
      intros e. apply staged_from_other. lia.
  - replace (index + Z.of_nat (S i)) with (index + 1 + Z.of_nat i) by lia.
    apply emits_bind.
    + eapply emits_impl; [|apply slot_encode_input].
      intros e. apply staged_for_other. lia.
    + intros _. eapply IH; eassumption.
Qed.

End Slots.

(** ** Preopened directories *)

Lemma preopen_inputs_keeps inputs :
  forall (dirs : gset string) d, d ∈ dirs -> d ∈ preopen_inputs dirs inputs.
Proof.
  induction inputs as [|input_ rest IH]; intros dirs d Hd; simpl; [assumption|].
  destruct input_; apply IH; unfold add_parent; set_solver.
Qed.

Lemma preopen_inputs_adds inputs :
  forall (dirs : gset string) input_ path,
    In input_ inputs -> input_path input_ = Some path ->
    Path.str (Path.parent path) ∈ preopen_inputs dirs inputs.
Proof.
  induction inputs as [|i rest IH]; intros dirs input_ path Hin Hp; [destruct Hin|].
  destruct Hin as [->|Hin].
  - destruct input_; simpl in Hp; try discriminate; injection Hp as <-; simpl;
      apply preopen_inputs_keeps; unfold add_parent; set_solver.
  - destruct i; simpl; eapply IH; eassumption.
Qed.

Lemma preopen_outputs_keeps outputs :
  forall (dirs dirs' : gset string) d,
    preopen_outputs dirs outputs = inr dirs' -> d ∈ dirs -> d ∈ dirs'.
Proof.
  induction outputs as [|o rest IH]; intros dirs dirs' d H Hd; simpl in H.
  - injection H as <-. assumption.
  - destruct (is_file (type o)); [|eapply IH; eassumption].
    destruct (output_path o) as [e|path]; [discriminate|].
    eapply IH; [eassumption|]. unfold add_parent. set_solver.
Qed.

Lemma preopen_outputs_adds outputs :
  forall (dirs dirs' : gset string) output path,
    preopen_outputs dirs outputs = inr dirs' ->
    In output outputs -> is_file (type output) = true ->
    output_path output = inr path ->
    Path.str (Path.parent path) ∈ dirs'.
Proof.
  induction outputs as [|o rest IH]; intros dirs dirs' output path H Hin Hf Hp;
    [destruct Hin|].
  simpl in H. destruct Hin as [->|Hin].
  - rewrite Hf, Hp in H. eapply preopen_outputs_keeps; [eassumption|].
    unfold add_parent. set_solver.
  - destruct (is_file (type o)); [|eapply IH; eassumption].
    destruct (output_path o) as [e|path']; [discriminate|].
    eapply IH; eassumption.
Qed.

(** ** The phases of a run *)

Lemma before_start_not_start e : before_start e = true -> is_delayed_start e = false.
Proof. destruct e as [[] ?|]; simpl; intros; reflexivity || discriminate. Qed.

Lemma before_start_not_exit e : before_start e = true -> is_delayed_exit e = false.
Proof. destruct e as [[] ?|]; simpl; intros; reflexivity || discriminate. Qed.

Lemma accessor_not_start e : is_accessor e = true -> is_delayed_start e = false.
Proof. destruct e as [[] ?|]; simpl; intros; reflexivity || discriminate. Qed.

Lemma accessor_not_exit e : is_accessor e = true -> is_delayed_exit e = false.
Proof. destruct e as [[] ?|]; simpl; intros; reflexivity || discriminate. Qed.

Lemma all_not_in Q l e : all Q l -> Q e = false -> ~ In e l.
Proof.
  intros Hl He Hin. induction Hl as [|x l Hx _ IH]; [destruct Hin|].
  destruct Hin as [->|Hin]; [congruence | auto].
Qed.

Section Phases.

Context {P : Type}.
Context (py : PyLib).

Lemma run_cases_bind (pipeline : Pipeline P) outputs {A} (m : M P A) f s :
  emits before_start m ->
  (forall a s', run_cases py pipeline outputs (f a s')) ->
  run_cases py pipeline outputs (bind m f s).
Proof.
  intros Hm Hf. specialize (Hm s). unfold run_cases.
  rewrite res_bind, log_bind.
  destruct (res (m s)) as [e|a].
  - left. exists e. rewrite app_nil_r. auto.
  - destruct (Hf a (st (m s))) as
      [(e & Hr & Hl)|[(pre & Hr & Hl & Hp)|(self & pre & rc & s1 & Hp & Hr & Hl)]].
    + left. exists e. split; [assumption|]. apply all_app; assumption.
    + right. left. exists (log (m s) ++ pre). rewrite Hl, app_assoc.
      repeat split; [assumption|]. apply all_app; assumption.
    + right. right. exists self, (log (m s) ++ pre), rc, s1.
      rewrite Hl, app_assoc. repeat split; [|assumption].
      apply all_app; assumption.
Qed.

Lemma run_instance_cases (pipeline : Pipeline P) outputs inputs s :
  run_cases py pipeline outputs (run_instance py pipeline outputs inputs s).
Proof.
  unfold run_instance.
  repeat (apply run_cases_bind; [solve [prove_emits] | intros ? ?]).
  apply run_cases_bind.
  { eapply emits_impl; [apply staging_before_start | apply emits_encode_inputs]. }
  intros _ s0.
  apply run_cases_bind; [solve [prove_emits] | intros delayed_start s1].
  unfold run_cases. rewrite res_bind, log_bind.
  remember (call "itk_wasm_delayed_start" Call_delayed_start delayed_start s1) as c
    eqn:Ec.
  unfold call in Ec. destruct (delayed_start s1) as [[rc s2]|]; subst c;
    cbn [res log st].
  - right. right. exists (mk_Self a0 a1 a2 a3 a4 a5), [], rc, s2.
    split; [constructor|]. split; reflexivity.
  - right. left. exists []. split; [reflexivity|]. split; [reflexivity|constructor].
Qed.

(** [finish], case by case. *)
Lemma finish_cases (ex : Exports P) self outputs rc s :
  let d := (if negb (len outputs =? 0) && (rc =? 0)
            then decode_outputs py self 0 outputs
            else ret []) s in
  let o := finish py ex self outputs rc s in
  match res d with
  | inl e => res o = inl e /\ log o = log d
  | inr tup =>
      match itk_wasm_delayed_exit ex with
      | None => res o = inl (MissingExport "itk_wasm_delayed_exit") /\ log o = log d
      | Some f =>
          match f rc (st d) with
          | Some _ =>
              res o = inr tup /\ log o = log d ++ [Guest (Call_delayed_exit rc) Void]
          | None =>
              res o = inl (RuntimeError "itk_wasm_delayed_exit") /\
              log o = log d ++ [Guest (Call_delayed_exit rc) Trapped]
          end
      end
  end.
Proof.
  intros d o. unfold o, finish. rewrite res_bind, log_bind. fold d.
  destruct (res d) as [e|tup]; [rewrite app_nil_r; auto|].
  rewrite res_bind, log_bind.
  destruct (itk_wasm_delayed_exit ex) as [f|]; simpl; [|rewrite app_nil_r; auto].
  rewrite res_bind, log_bind. unfold call_proc.
  destruct (f rc (st d)); simpl; rewrite ?app_nil_r; auto.
Qed.

Lemma finish_decodes (self : @Self P) outputs rc s :
  all is_accessor
    (log ((if negb (len outputs =? 0) && (rc =? 0)
           then decode_outputs py self 0 outputs
           else ret []) s)).
Proof.
  destruct (negb (len outputs =? 0) && (rc =? 0)).
  - apply emits_decode_outputs.
  - constructor.
Qed.

End Phases.

(** ** The delayed entry points *)

Lemma count_start_before l : all before_start l -> count is_delayed_start l = O.
Proof. apply count_none, before_start_not_start. Qed.

Lemma count_exit_before l : all before_start l -> count is_delayed_exit l = O.
Proof. apply count_none, before_start_not_exit. Qed.

Lemma count_start_accessor l : all is_accessor l -> count is_delayed_start l = O.
Proof. apply count_none, accessor_not_start. Qed.

Lemma count_exit_accessor l : all is_accessor l -> count is_delayed_exit l = O.
Proof. apply count_none, accessor_not_exit. Qed.

Lemma count_accessor_before l : all before_start l -> count is_accessor l = O.
Proof. apply count_none, before_start_not_accessor. Qed.

(** Rewrites the counts of the delayed entry points in a log made of
    parts whose classes are known. *)
Ltac count_delayed :=
  repeat rewrite count_app; simpl;
  repeat match goal with
  | H : all before_start ?l |- _ =>
      rewrite ?(count_start_before l H), ?(count_exit_before l H),
        ?(count_accessor_before l H); clear H
  | H : all is_accessor ?l |- _ =>
      rewrite ?(count_start_accessor l H), ?(count_exit_accessor l H); clear H
  end;
  simpl.

Lemma start_not_before l r :
  all before_start l -> ~ In (Guest Call_delayed_start r) l.
Proof. intros Hl. eapply all_not_in; [exact Hl | reflexivity]. Qed.

Section Delayed.

Context {P : Type}.
Context (py : PyLib).

(** C3, as the code has it: in every run [itk_wasm_delayed_start] is
    called at most once and [itk_wasm_delayed_exit] at most as often.
    When the run returns, each was called exactly once and the last
    event is the call of [itk_wasm_delayed_exit] with the code
    [itk_wasm_delayed_start] returned.  When the run raises,
    [itk_wasm_delayed_exit] was not called at all, unless the exception
    is the trap of that very call. *)
Theorem delayed_exit_once_when_run_returns
    (pipeline : Pipeline P) args outputs inputs :
  let r := run py pipeline args outputs inputs in
  (count is_delayed_start (events r) <= 1)%nat /\
  (count is_delayed_exit (events r) <= count is_delayed_start (events r))%nat /\
  match result r with
  | inr _ =>
      count is_delayed_start (events r) = 1%nat /\
      count is_delayed_exit (events r) = 1%nat /\
      exists pre rc,
        events r = pre ++ [Guest (Call_delayed_exit rc) Void] /\
        In (Guest Call_delayed_start (Value rc)) pre
  | inl _ =>
      count is_delayed_exit (events r) = O \/
      exists pre rc, events r = pre ++ [Guest (Call_delayed_exit rc) Trapped]
  end.
Proof.
  unfold run. destruct (preopen inputs outputs) as [e|dirs]; simpl.
  { repeat split; auto. }
  set (s := instantiate pipeline _).
  destruct (run_instance_cases py pipeline outputs inputs s) as
    [(e & -> & Hl)|[(pre & -> & -> & Hp)|(self & pre & rc & s1 & Hp & -> & ->)]].
  - count_delayed. repeat split; auto.
  - count_delayed. repeat split; auto.
  - pose proof (finish_cases py (exports pipeline) self outputs rc s1) as Hf.
    pose proof (finish_decodes py self outputs rc s1) as Hd.
    simpl in Hf.
    destruct (res (_ s1)) as [e|tup].
    + destruct Hf as [-> ->]. count_delayed. repeat split; auto.
    + destruct (itk_wasm_delayed_exit (exports pipeline)) as [f|].
      * destruct (f rc _); destruct Hf as [-> ->].
        -- rewrite app_comm_cons, app_assoc. count_delayed.
           repeat split; auto. eexists _, rc. split; [reflexivity|].
           apply in_or_app. right. left. reflexivity.
        -- rewrite app_comm_cons, app_assoc. count_delayed.
           repeat split; auto. right. eauto.
      * destruct Hf as [-> ->]. count_delayed. repeat split; auto.
Qed.

Lemma finish_not_start (ex : Exports P) self outputs rc s e :
  In e (log (finish py ex self outputs rc s)) -> is_delayed_start e = false.
Proof.
  pose proof (finish_cases py ex self outputs rc s) as Hf.
  pose proof (finish_decodes py self outputs rc s) as Hd.
  simpl in Hf. intros Hin.
  assert (Hacc : forall l, all is_accessor l -> In e l -> is_delayed_start e = false).
  { intros l Hl He. destruct (is_delayed_start e) eqn:E; [|reflexivity].
    induction Hl as [|x l Hx _ IH]; [destruct He|].
    destruct He as [->|He]; [|auto].
    apply accessor_not_start in Hx. congruence. }
  destruct (res (_ s)) as [e'|tup].
  - destruct Hf as [_ Hl]. rewrite Hl in Hin. eauto.
  - destruct (itk_wasm_delayed_exit ex) as [f|].
    + destruct (f rc _); destruct Hf as [_ Hl]; rewrite Hl in Hin;
        apply in_app_or in Hin as [Hin|[<-|[]]]; eauto.
    + destruct Hf as [_ Hl]. rewrite Hl in Hin. eauto.
Qed.

(** C5, as the code has it: when [itk_wasm_delayed_start] returns a
    non-zero code, no output is decoded whatever output slots were
    declared (no output accessor is called), and [run] goes straight on
    to [itk_wasm_delayed_exit].  When the module lacks that export the
    run raises [MissingExport] and the call of [itk_wasm_delayed_start]
    is its last guest call.  Otherwise [itk_wasm_delayed_exit] is called
    with that code, as the next and last guest call: the run returns the
    empty tuple when the call returns, and raises [RuntimeError] when it
    traps. *)
Theorem nonzero_return_code_decodes_nothing
    (pipeline : Pipeline P) args outputs inputs rc :
  let r := run py pipeline args outputs inputs in
  In (Guest Call_delayed_start (Value rc)) (events r) ->
  rc <> 0 ->
  count is_accessor (events r) = O /\
  exists pre,
    all before_start pre /\
    match itk_wasm_delayed_exit (exports pipeline) with
    | None =>
        result r = inl (MissingExport "itk_wasm_delayed_exit") /\
        events r = pre ++ [Guest Call_delayed_start (Value rc)]
    | Some _ =>
        (result r = inr [] /\
         events r = pre ++ [Guest Call_delayed_start (Value rc);
                            Guest (Call_delayed_exit rc) Void]) \/
        (result r = inl (RuntimeError "itk_wasm_delayed_exit") /\
         events r = pre ++ [Guest Call_delayed_start (Value rc);
                            Guest (Call_delayed_exit rc) Trapped])
    end.
Proof.
  unfold run. destruct (preopen inputs outputs) as [e|dirs]; simpl;
    intros Hin Hrc; [destruct Hin|].
  set (s := instantiate pipeline _) in *. clearbody s.
  destruct (run_instance_cases py pipeline outputs inputs s) as
    [(e & Hr & Hl)|[(pre & Hr & Hl & Hp)|(self & pre & rc' & s1 & Hp & Hr & Hl)]].
  - destruct (start_not_before _ _ Hl Hin).
  - rewrite Hl in Hin. apply in_app_or in Hin as [Hin|[Hin|[]]].
    + destruct (start_not_before _ _ Hp Hin).
    + discriminate.
  - rewrite Hl in Hin. apply in_app_or in Hin as [Hin|[Hin|Hin]].
    + destruct (start_not_before _ _ Hp Hin).
    + injection Hin as ->. rewrite Hr, Hl.
      pose proof (finish_cases py (exports pipeline) self outputs rc s1) as Hf.
      simpl in Hf. apply Z.eqb_neq in Hrc. rewrite Hrc, andb_false_r in Hf.
      simpl in Hf.
      destruct (itk_wasm_delayed_exit (exports pipeline)) as [f|].
      * destruct (f rc s1); destruct Hf as [-> ->]; simpl;
          (split; [count_delayed; reflexivity|]);
          exists pre; (split; [assumption|]); [left | right];
          split; reflexivity.
      * destruct Hf as [-> ->]. simpl. split; [count_delayed; reflexivity|].
        exists pre. split; [assumption|]. split; reflexivity.
    + apply finish_not_start in Hin. discriminate.
Qed.

End Delayed.

(** ** Missing exports *)

Section Missing.

Context {P : Type}.
Context (py : PyLib).

(** C4, as the code has it: when the module lacks [memory], one of the
    six allocator and accessor exports or [_initialize], the run fails
    with [MissingExport] for the first of them in resolution order and
    no guest call has been made.  [itk_wasm_delayed_start] and
    [itk_wasm_delayed_exit] are not among them: when none of the eight
    is missing, [_initialize] is called, whatever else the module
    lacks. *)
Theorem missing_export_before_guest_calls
    (pipeline : Pipeline P) args outputs inputs dirs :
  preopen inputs outputs = inr dirs ->
  let r := run py pipeline args outputs inputs in
  match missing_exports (exports pipeline) with
  | name :: _ => result r = inl (MissingExport name) /\ events r = []
  | [] => exists returned rest, events r = Guest Call_initialize returned :: rest
  end.
Proof.
  intros Hpre. unfold run. rewrite Hpre. simpl.
  set (s := instantiate pipeline _). clearbody s.
  unfold run_instance, missing_exports.
  destruct (exports pipeline) as [mem a b c d e f g ds de]. simpl.
  destruct mem; [|split; reflexivity].
  destruct a as [a|]; [|split; reflexivity].
  destruct b as [b|]; [|split; reflexivity].
  destruct c as [c|]; [|split; reflexivity].
  destruct d as [d|]; [|split; reflexivity].
  destruct e as [e|]; [|split; reflexivity].
  destruct f as [f|]; [|split; reflexivity].
  destruct g as [g|]; [|split; reflexivity].
  simpl. rewrite log_bind. unfold call_proc. destruct (g s); simpl; eauto.
Qed.

End Missing.

(** ** Decoding outputs *)

Lemma py_slice_empty {A} (l : list A) (a : Z) : py_slice l a (a + 0) = [].
Proof.
  unfold py_slice, slice_bounds. rewrite Z.add_0_r, Z.max_id, Z.sub_diag.
  reflexivity.
Qed.

Lemma empty_buffer_array c a :
  _memoryview_to_numpy_array c [] = inr a ->
  exists d, dtype_of c = Some d /\ a = empty_array d.
Proof.
  destruct c as [[]|[]|]; simpl; intros H; try discriminate;
    injection H as <-; eexists; split; reflexivity.
Qed.

Section Decoding.

Context {P : Type}.
Context (py : PyLib) (self : @Self P).

Lemma get_output_json_inv index s j s' l :
  runs (_get_output_json py self index) s j s' l ->
  exists p n,
    l = [Guest (Call_output_json_address 0 index) (Value p);
         Guest (Call_output_json_size 0 index) (Value n)].
Proof.
  unfold _get_output_json, do_output_json_address, do_output_json_size.
  intros H. invert_runs. subst. eauto.
Qed.

Lemma read_array_inv c index sub s a s' l :
  runs (read_array self c index sub) s a s' l ->
  exists p n,
    l = [Guest (Call_output_array_address 0 index sub) (Value p);
         Guest (Call_output_array_size 0 index sub) (Value n)] /\
    _memoryview_to_numpy_array c (py_slice (buffer s') p (p + n)) = inr a.
Proof.
  unfold read_array, do_output_array_address, do_output_array_size.
  intros H. invert_runs. subst. eauto.
Qed.

Lemma decode_outputs_lookup outputs :
  forall index s tup s' l i output,
    runs (decode_outputs py self index outputs) s tup s' l ->
    outputs !! i = Some output ->
    exists s1 v s2 l1,
      runs (decode_output py self (index + Z.of_nat i) output) s1 v s2 l1 /\
      tup !! i = Some v.
Proof.
  induction outputs as [|o rest IH]; intros index s tup s' l i output H Hi;
    [discriminate|].
  simpl in H. invert_runs. subst. destruct i as [|i]; simpl in Hi.
  - injection Hi as ->. rewrite Z.add_0_r. eauto 6.
  - edestruct IH as (? & ? & ? & ? & Hd & Hv); [eassumption | eassumption |].
    replace (index + Z.of_nat (S i)) with (index + 1 + Z.of_nat i) by lia.
    eauto 6.
Qed.

(** C8, as the code has it: when decoding an image output returns and
    [itk_wasm_output_array_size] gave size 0 for the pixel data, the
    image is the one the constructor of [Image] built from the descriptor
    [_get_output_json] read from the guest, with its data set to the
    empty typed array of the component type that descriptor declares;
    and [itk_wasm_output_array_address] and [itk_wasm_output_array_size]
    were each called once for that sub-buffer. *)
Theorem image_size_zero_pixel_data index output s out :
  type output = InterfaceTypes.Image ->
  res (decode_output py self index output s) = inr out ->
  In (Guest (Call_output_array_size 0 index 0) (Value 0))
     (log (decode_output py self index output s)) ->
  exists descriptor constructed d ptr direction,
    res (_get_output_json py self index s) = inr descriptor /\
    Image_init py descriptor = inr constructed /\
    dtype_of (ImageType.componentType (Image.imageType constructed)) = Some d /\
    out = Some (mk_PipelineOutput InterfaceTypes.Image
                  (Some (PImage (Image.set_direction direction
                                   (Image.set_data (empty_array d) constructed))))) /\
    array_addresses index 0 (log (decode_output py self index output s))
    = [Value ptr] /\
    array_sizes index 0 (log (decode_output py self index output s))
    = [Value 0].
Proof.
  intros Ht H. apply runs_intro in H. revert H.
  generalize (log (decode_output py self index output s)).
  generalize (st (decode_output py self index output s)).
  intros s' l H Hin. unfold decode_output in H. rewrite Ht in H.
  invert_runs.
  match goal with
  | Hr : runs (_get_output_json _ _ _) _ ?j _ _ |- _ =>
      assert (Hj : res (_get_output_json py self index s) = inr j)
        by (rewrite Hr; reflexivity);
      apply get_output_json_inv in Hr as (? & ? & ?)
  end.
  repeat match goal with
  | Hr : runs (read_array _ _ _ _) _ _ _ _ |- _ =>
      apply read_array_inv in Hr as (? & ? & ? & ?)
  end.
  subst. simpl in Hin.
  destruct Hin as [Hin|[Hin|[Hin|[Hin|[Hin|[Hin|[]]]]]]]; try discriminate.
  injection Hin as ->.
  match goal with
  | Hm : _memoryview_to_numpy_array _ (py_slice _ _ (_ + 0)) = _ |- _ =>
      rewrite py_slice_empty in Hm;
      apply empty_buffer_array in Hm as (d & Hd & ->)
  end.
  eexists _, _, d, _, _. split; [exact Hj|]. split; [eassumption|].
  split; [exact Hd|]. split; [reflexivity|].
  simpl. rewrite Z.eqb_refl. simpl. split; reflexivity.
Qed.

End Decoding.

(** C10: an output slot whose kind is none of the seven is decoded to
    [None], without error and without any guest call; when a run whose
    guest returned code 0 returns, the tuple holds [None] at the
    position of every such slot; and there are such runs: a module
    whose exports all return, run with that slot as its only output,
    returns the tuple [(None,)]. *)
Theorem unhandled_output_kind_yields_None {P} (py : PyLib) output name :
  type output = InterfaceTypes.Other name ->
  (forall (self : @Self P) index s,
      decode_output py self index output s = mk_Out (inr None) s []) /\
  (forall (pipeline : Pipeline P) args outputs inputs tup i,
      let r := run py pipeline args outputs inputs in
      result r = inr tup ->
      In (Guest Call_delayed_start (Value 0)) (events r) ->
      outputs !! i = Some output ->
      tup !! i = Some None) /\
  (forall (p : P) args,
      let returning := fun s : Instance P => Some (0, s) in
      let pipeline :=
        mk_Pipeline (fun _ => mk_Instance [] p)
          (mk_Exports true
             (Some (fun _ _ _ _ => returning)) (Some (fun _ _ _ => returning))
             (Some (fun _ _ _ => returning)) (Some (fun _ _ _ => returning))
             (Some (fun _ _ => returning)) (Some (fun _ _ => returning))
             (Some (fun s => Some s)) (Some returning) (Some (fun _ s => Some s))) in
      run py pipeline args [output] []
      = mk_Run (inr [None])
               [Guest Call_initialize Void; Guest Call_delayed_start (Value 0);
                Guest (Call_delayed_exit 0) Void]).
Proof.
  intros Ht.
  assert (Hdec : forall (self : @Self P) index s,
             decode_output py self index output s = mk_Out (inr None) s []).
  { intros self index s. unfold decode_output. rewrite Ht. reflexivity. }
  split; [exact Hdec|]. split.
  - intros pipeline args outputs inputs tup i. unfold run.
    destruct (preopen inputs outputs) as [e|dirs]; simpl; [discriminate|].
    set (s := instantiate pipeline _). clearbody s. intros Hres Hin Hi.
    destruct (run_instance_cases py pipeline outputs inputs s) as
      [(e & Hr & Hl)|[(pre & Hr & Hl & Hp)|(self' & pre & rc & s1 & Hp & Hr & Hl)]];
      [congruence | congruence |].
    rewrite Hl in Hin. apply in_app_or in Hin as [Hin|[Hin|Hin]].
    + destruct (start_not_before _ _ Hp Hin).
    + injection Hin as ->. rewrite Hr in Hres.
      pose proof (finish_cases py (exports pipeline) self' outputs 0 s1) as Hf.
      simpl in Hf.
      assert (Hne : negb (len outputs =? 0) = true).
      { destruct outputs; [discriminate|]. unfold len. simpl length.
        apply negb_true_iff, Z.eqb_neq. lia. }
      rewrite Hne in Hf. simpl in Hf.
      destruct (res (decode_outputs py self' 0 outputs s1)) as [e|tup'] eqn:Ed.
      { destruct Hf as [Hf _]. congruence. }
      assert (tup' = tup) as ->.
      { destruct (itk_wasm_delayed_exit (exports pipeline)) as [f|];
          [destruct (f 0 _)|]; destruct Hf as [Hf _]; congruence. }
      apply runs_intro in Ed.
      destruct (decode_outputs_lookup _ _ _ _ _ _ _ _ _ _ Ed Hi)
        as (s2 & v & s3 & l1 & Hd & Hv).
      unfold decode_output in Hd. rewrite Ht in Hd. invert_runs. subst. exact Hv.
    + apply finish_not_start in Hin. discriminate.
  - intros p args. cbv zeta. unfold run, preopen. simpl. rewrite Ht. simpl.
    unfold bind. rewrite !Hdec. reflexivity.
Qed.


(** ** The polydata output path *)

Section PolyDataOutput.

Context {P : Type}.
Context (py : PyLib) (self : @Self P).

Lemma gated_array_same_inv {T} count c index sub (f : ndarray -> T -> T) x s y s' l :
  runs (gated_array self count c index sub f f x) s y s' l ->
  exists a, y = f a x.
Proof.
  unfold gated_array. destruct (0 <? count); intros H; invert_runs; subst; eauto.
Qed.

Lemma gated_array_inv {T} count c index sub (f g : ndarray -> T -> T) x s y s' l :
  runs (gated_array self count c index sub f g x) s y s' l ->
  (0 < count /\ exists a, y = f a x) \/
  (count <= 0 /\ l = [] /\
   exists d, dtype_of c = Some d /\ y = g (empty_array d) x).
Proof.
  unfold gated_array. destruct (0 <? count) eqn:E; intros H; invert_runs; subst.
  - left. apply Z.ltb_lt in E. eauto.
  - right. apply Z.ltb_ge in E.
    match goal with
    | Hm : _memoryview_to_numpy_array _ [] = _ |- _ =>
        apply empty_buffer_array in Hm as (d & Hd & ->)
    end.
    eauto 6.
Qed.

(** What decoding a polydata output does with the two pixel buffers:
    when a pixel count of the descriptor is not positive, the
    corresponding field, [pointData] or [cellData], is left as the
    constructor of [PolyData] set it, and the empty typed array goes to
    [triangleStrips]. *)
Lemma polydata_pixel_buffers_decoded index output s out :
  type output = InterfaceTypes.PolyData ->
  res (decode_output py self index output s) = inr out ->
  exists descriptor constructed polydata,
    PolyData_init py descriptor = inr constructed /\
    out = Some (mk_PipelineOutput InterfaceTypes.PolyData (Some (PPolyData polydata))) /\
    (PolyData.numberOfPointPixels constructed <= 0 ->
     PolyData.pointData polydata = PolyData.pointData constructed) /\
    (PolyData.numberOfCellPixels constructed <= 0 ->
     PolyData.cellData polydata = PolyData.cellData constructed /\
     exists d,
       dtype_of (PolyDataType.cellPixelComponentType
                   (PolyData.polyDataType constructed)) = Some d /\
       PolyData.triangleStrips polydata = Some (empty_array d)).
Proof.
  intros Ht H. apply runs_intro in H. revert H.
  generalize (log (decode_output py self index output s)).
  generalize (st (decode_output py self index output s)).
  intros s' l H. unfold decode_output in H. rewrite Ht in H.
  invert_runs.
  repeat match goal with
  | Hr : runs (gated_array _ _ _ _ _ ?f ?f _) _ _ _ _ |- _ =>
      apply gated_array_same_inv in Hr as (? & ?)
  end.
  subst. simpl in *.
  repeat match goal with
  | Hr : runs (gated_array _ _ _ _ _ _ _ _) _ _ _ _ |- _ =>
      apply gated_array_inv in Hr as [(? & ? & ?)|(? & ? & ? & ? & ?)]
  end;
  subst; simpl in *;
  (eexists _, _, _; split; [eassumption|]; split; [reflexivity|]; simpl;
   split; [intros; reflexivity || lia | intros; try lia; eauto]).
Qed.

End PolyDataOutput.

(** C1, in a run: the guest's descriptor is a polydata whose counts and
    buffer sizes are all zero.  The run returns it with [pointData] and
    [cellData] unset, and with [triangleStrips] the empty array of the
    cell pixel component type, which [cellData] was to receive. *)
Theorem polydata_zero_pixel_counts_leave_fields_unset :
  let r := run Sample.lib (Sample.pipeline 0 []) []
               [Sample.slot InterfaceTypes.PolyData] [] in
  exists polydata,
    result r = inr [Some (mk_PipelineOutput InterfaceTypes.PolyData
                            (Some (PPolyData polydata)))] /\
    PolyData.numberOfPointPixels polydata = 0 /\
    PolyData.numberOfCellPixels polydata = 0 /\
    PolyData.pointData polydata = None /\
    PolyData.cellData polydata = None /\
    PolyData.triangleStrips polydata = Some (empty_array np_float64) /\
    PolyDataType.cellPixelComponentType (PolyData.polyDataType polydata)
    = CFloat Float64.
Proof. vm_compute. eexists. repeat split. Qed.

(** ** The generated wrapper *)

(** C9, on the code: the default of [crop_radius] is the empty dict, not
    the empty list that [shrink_factors] defaults to, and it is what the
    dispatched function receives when the caller omits the argument. *)
Theorem crop_radius_default_is_a_dict :
  downsample.crop_radius_default = PyDict [] /\
  downsample.crop_radius_default <> PyList [] /\
  downsample.shrink_factors_default = PyList [] /\
  forall R (func : Image.t -> PyArg -> PyArg -> R) input,
    downsample.downsample_label_image_async func input None None
    = func input (PyList []) (PyDict []).
Proof. repeat split. discriminate. Qed.

(** ** Staging, in a run *)

Section Staged.

Context {P : Type}.
Context (py : PyLib).

Lemma emits_launch (Q : Event -> bool) (ex : Exports P) self outputs :
  (forall e, is_accessor e = true -> Q e = true) ->
  (forall r, Q (Guest Call_delayed_start r) = true) ->
  (forall rc r, Q (Guest (Call_delayed_exit rc) r) = true) ->
  emits Q (launch py ex self outputs).
Proof.
  intros Ha Hs He. unfold launch, finish.
  apply emits_bind; [prove_emits | intros delayed_start].
  apply emits_bind; [apply emits_call, Hs | intros rc].
  apply emits_bind.
  - destruct (negb (len outputs =? 0) && (rc =? 0)); [|prove_emits].
    eapply emits_impl; [exact Ha | apply emits_decode_outputs].
  - intros tup. apply emits_bind; [prove_emits | intros delayed_exit].
    apply emits_bind; [apply emits_call_proc, He | intros; prove_emits].
Qed.

Lemma call_proc_cases name c (f : @GuestProc P) s :
  (exists s', call_proc name c f s = mk_Out (inr tt) s' [Guest c Void]) \/
  call_proc name c f s = mk_Out (inl (RuntimeError name)) s [Guest c Trapped].
Proof. unfold call_proc. destruct (f s); eauto. Qed.

(** When [itk_wasm_delayed_start] was called, every input had been
    staged: the log is the call of [_initialize], the log of staging the
    inputs, and events that stage nothing. *)
Lemma run_staged (pipeline : Pipeline P) outputs inputs s returned :
  In (Guest Call_delayed_start returned)
     (log (run_instance py pipeline outputs inputs s)) ->
  exists (self : @Self P) s0 s1 staged post,
    runs (encode_inputs py self 0 inputs) s0 tt s1 staged /\
    log (run_instance py pipeline outputs inputs s)
    = Guest Call_initialize Void :: staged ++ post /\
    all not_staging post.
Proof.
  unfold run_instance.
  destruct (exports pipeline) as [mem a b c d e f g ds de] eqn:Eex. simpl.
  destruct mem; [|intros []].
  destruct a as [a|]; [|intros []].
  destruct b as [b|]; [|intros []].
  destruct c as [c|]; [|intros []].
  destruct d as [d|]; [|intros []].
  destruct e as [e|]; [|intros []].
  destruct f as [f|]; [|intros []].
  destruct g as [g|]; [|intros []].
  simpl. set (self := mk_Self a b c d e f).
  rewrite log_bind.
  destruct (call_proc_cases "_initialize" Call_initialize g s) as [(s0 & E)|E];
    rewrite E; simpl.
  2:{ intros [H|[]]. discriminate. }
  rewrite log_bind.
  destruct (encode_inputs py self 0 inputs s0) as [[err|[]] s1 staged] eqn:E2; simpl.
  - pose proof (emits_encode_inputs py self inputs 0 s0) as Hl.
    rewrite E2 in Hl. simpl in Hl. rewrite app_nil_r.
    intros [H|H]; [discriminate|].
    destruct (start_not_before staged returned); [|exact H].
    eapply all_impl; [apply staging_before_start | exact Hl].
  - intros _. exists self, s0, s1, staged.
    eexists. split; [exact E2|]. split; [reflexivity|].
    apply (emits_launch not_staging
             (mk_Exports true (Some a) (Some b) (Some c) (Some d) (Some e) (Some f)
                (Some g) ds de) self outputs);
      [apply accessor_not_staging | reflexivity | reflexivity].
Qed.

(** A run logs nothing for the slot of an input of a file kind. *)
Lemma run_instance_skips_files (pipeline : Pipeline P) outputs inputs i input_ :
  inputs !! i = Some input_ ->
  is_file (input_type input_) = true ->
  emits (other_slot (Z.of_nat i)) (run_instance py pipeline outputs inputs).
Proof.
  intros Hi Hf. unfold run_instance.
  repeat (apply emits_bind; [solve [prove_emits] | intros ?]).
  apply emits_bind.
  { change (Z.of_nat i) with (0 + Z.of_nat i).
    eapply encode_inputs_skip_files; eassumption. }
  intros _.
  apply (emits_launch (other_slot (Z.of_nat i)) (exports pipeline)).
  - intros e He. apply not_staging_other, accessor_not_staging, He.
  - reflexivity.
  - reflexivity.
Qed.



(** C7: the parent directory of the path of every input and output of kind
    [TextFile] or [BinaryFile] is in the preopen list, and the list has
    no duplicates; staging an input of a file kind does nothing, the run
    logs no allocator call and no descriptor for its slot, and decoding an
    output of a file kind calls no guest export. *)
Theorem file_kinds_preopened_and_not_staged
    (self : @Self P) (pipeline : Pipeline P) args inputs outputs dirs :
  preopen inputs outputs = inr dirs ->
  NoDup dirs /\
  (forall input_ path,
      In input_ inputs -> input_path input_ = Some path ->
      In (Path.str (Path.parent path)) dirs) /\
  (forall output path,
      In output outputs -> is_file (type output) = true ->
      output_path output = inr path ->
      In (Path.str (Path.parent path)) dirs) /\
  (forall index input_ s,
      In input_ inputs -> is_file (input_type input_) = true ->
      encode_input py self index input_ s = mk_Out (inr tt) s []) /\
  (forall i input_,
      inputs !! i = Some input_ -> is_file (input_type input_) = true ->
      count (staged_for (Z.of_nat i)) (events (run py pipeline args outputs inputs))
      = O) /\
  (forall index output s,
      In output outputs -> is_file (type output) = true ->
      log (decode_output py self index output s) = []).
Proof.
  intros H. assert (Hpre := H). unfold preopen in H.
  destruct (preopen_outputs (preopen_inputs ∅ inputs) outputs) as [e|set] eqn:E;
    [discriminate|].
  injection H as <-. repeat split.
  - apply NoDup_elements.
  - intros input_ path Hin Hp. apply list_elem_of_In, elem_of_elements.
    eapply preopen_outputs_keeps; [eassumption|].
    eapply preopen_inputs_adds; eassumption.
  - intros output path Hin Hf Hp. apply list_elem_of_In, elem_of_elements.
    eapply preopen_outputs_adds; eassumption.
  - intros index input_ s _ Hf. destruct input_; try discriminate; reflexivity.
  - intros i input_ Hi Hf. unfold run. rewrite Hpre. simpl.
    apply count_staged_other. eapply run_instance_skips_files; eassumption.
  - intros index output s _ Hf. unfold decode_output.
    destruct (type output); try discriminate;
      destruct (output_path output); reflexivity.
Qed.

End Staged.

(** ** Runs of the sample guest *)

(** Finds an event in the log of a run of the sample guest. *)
Ltac find_event := vm_compute; repeat (first [left; reflexivity | right]).



(** Against C3 as stated: the component type of the image descriptor is
    not supported, decoding raises after [itk_wasm_delayed_start] has
    returned, and [itk_wasm_delayed_exit] is not called. *)
Lemma decode_error_skips_delayed_exit :
  let r := run (Sample.py (Sample.image (COther "complex64"))
                          Sample.mesh Sample.polydata)
               (Sample.pipeline 0 [0; 32]) []
               [Sample.slot InterfaceTypes.Image] [] in
  result r = inl (ValueError "Unsupported component type") /\
  In (Guest Call_delayed_start (Value 0)) (events r) /\
  count is_delayed_start (events r) = 1%nat /\
  count is_delayed_exit (events r) = O.
Proof. vm_compute. repeat split. auto. Qed.

(** Against C4 as stated: the module lacks [itk_wasm_delayed_start]; the
    run fails with [MissingExport] after [_initialize] and both input
    allocators have been called. *)
Lemma missing_delayed_start_found_after_guest_calls :
  let r := run Sample.lib Sample.without_delayed_start [] []
               [InTextStream (TextStream.mk "hi")] in
  itk_wasm_delayed_start (exports Sample.without_delayed_start) = None /\
  result r = inl (MissingExport "itk_wasm_delayed_start") /\
  events r =
    [Guest Call_initialize Void;
     Guest (Call_input_array_alloc 0 0 0 2) (Value 8);
     InputJson 0 (JDict [("size", JInt 2);
                         ("data", JStr "data:application/vnd.itk.address,0:8")]);
     Guest (Call_input_json_alloc 0 0 2) (Value 10)].
Proof. vm_compute. repeat split. Qed.

Lemma missing_export_before_guest_calls_witness :
  preopen [InTextStream (TextStream.mk "hi")] [] = inr [] /\
  let r := run Sample.lib Sample.without_output_json_size ["app"] []
               [InTextStream (TextStream.mk "hi")] in
  result r = inl (MissingExport "itk_wasm_output_json_size") /\ events r = [].
Proof.
  split; [vm_compute; reflexivity|].
  apply (missing_export_before_guest_calls Sample.lib
           Sample.without_output_json_size ["app"] []
           [InTextStream (TextStream.mk "hi")] []).
  vm_compute. reflexivity.
Defined.

(** Against C5 as stated: the guest returns code 1.  On a module without
    [itk_wasm_delayed_exit] the run raises [MissingExport] and calls
    nothing after [itk_wasm_delayed_start]; on a module whose
    [itk_wasm_delayed_exit] traps, the run raises [RuntimeError].  In
    neither does it return the empty tuple. *)
Lemma nonzero_return_code_can_raise :
  let outputs := [Sample.slot InterfaceTypes.BinaryStream] in
  let r := run Sample.lib Sample.without_delayed_exit [] outputs [] in
  let r' := run Sample.lib Sample.trapping_delayed_exit [] outputs [] in
  (result r = inl (MissingExport "itk_wasm_delayed_exit") /\
   events r = [Guest Call_initialize Void; Guest Call_delayed_start (Value 1)] /\
   count is_delayed_exit (events r) = O) /\
  (result r' = inl (RuntimeError "itk_wasm_delayed_exit") /\
   events r' = [Guest Call_initialize Void; Guest Call_delayed_start (Value 1);
                Guest (Call_delayed_exit 1) Trapped]).
Proof. vm_compute. repeat split. Qed.

Lemma nonzero_return_code_decodes_nothing_witness :
  let r := run Sample.lib (Sample.pipeline 1 []) []
               [Sample.slot InterfaceTypes.BinaryStream;
                Sample.slot InterfaceTypes.Image] [] in
  In (Guest Call_delayed_start (Value 1)) (events r) /\
  1 <> 0 /\
  result r = inr [] /\
  events r = [Guest Call_initialize Void; Guest Call_delayed_start (Value 1);
              Guest (Call_delayed_exit 1) Void] /\
  count is_accessor (events r) = O /\
  exists pre,
    all before_start pre /\
    ((result r = inr [] /\
      events r = pre ++ [Guest Call_delayed_start (Value 1);
                         Guest (Call_delayed_exit 1) Void]) \/
     (result r = inl (RuntimeError "itk_wasm_delayed_exit") /\
      events r = pre ++ [Guest Call_delayed_start (Value 1);
                         Guest (Call_delayed_exit 1) Trapped])).
Proof.
  cbv zeta. split; [find_event|].
  split; [discriminate|].
  split; [vm_compute; reflexivity|].
  split; [vm_compute; reflexivity|].
  apply (nonzero_return_code_decodes_nothing Sample.lib (Sample.pipeline 1 []) []
           [Sample.slot InterfaceTypes.BinaryStream;
            Sample.slot InterfaceTypes.Image] [] 1).
  - find_event.
  - discriminate.
Defined.


Lemma file_kinds_preopened_and_not_staged_witness :
  preopen Sample.file_inputs Sample.file_outputs = inr ["/tmp/a"; "/tmp/b"] /\
  NoDup ["/tmp/a"; "/tmp/b"] /\
  (forall input_ path,
      In input_ Sample.file_inputs -> input_path input_ = Some path ->
      In (Path.str (Path.parent path)) ["/tmp/a"; "/tmp/b"]) /\
  (forall output path,
      In output Sample.file_outputs -> is_file (type output) = true ->
      output_path output = inr path ->
      In (Path.str (Path.parent path)) ["/tmp/a"; "/tmp/b"]) /\
  (forall index input_ s,
      In input_ Sample.file_inputs -> is_file (input_type input_) = true ->
      encode_input Sample.lib (Sample.self []) index input_ s = mk_Out (inr tt) s []) /\
  (forall i input_,
      Sample.file_inputs !! i = Some input_ -> is_file (input_type input_) = true ->
      count (staged_for (Z.of_nat i))
            (events (run Sample.lib (Sample.pipeline 0 []) ["app"]
                         Sample.file_outputs Sample.file_inputs))
      = O) /\
  (forall index output s,
      In output Sample.file_outputs -> is_file (type output) = true ->
      log (decode_output Sample.lib (Sample.self []) index output s) = []).
Proof.
  split; [vm_compute; reflexivity|].
  apply (file_kinds_preopened_and_not_staged Sample.lib (Sample.self [])
           (Sample.pipeline 0 []) ["app"] Sample.file_inputs Sample.file_outputs
           ["/tmp/a"; "/tmp/b"]).
  vm_compute. reflexivity.
Defined.

(** Against C8 as stated: the guest reports size 0 for the pixel data of
    the image it describes; the run decodes it to the empty [uint8]
    array, and it has called [itk_wasm_output_array_address] for that
    sub-buffer. *)
Lemma empty_image_data_calls_output_array_address :
  let r := run (Sample.reader 0) (Sample.image_pipeline 0) []
               [Sample.slot InterfaceTypes.Image] [] in
  events r
  = [Guest Call_initialize Void;
     Guest Call_delayed_start (Value 0);
     Guest (Call_output_json_address 0 0) (Value 64);
     Guest (Call_output_json_size 0 0) (Value 260);
     Guest (Call_output_array_address 0 0 0) (Value 0);
     Guest (Call_output_array_size 0 0 0) (Value 0);
     Guest (Call_output_array_address 0 0 1) (Value 8);
     Guest (Call_output_array_size 0 0 1) (Value 32);
     Guest (Call_delayed_exit 0) Void] /\
  array_addresses 0 0 (events r) = [Value 0] /\
  exists image,
    result r = inr [Some (mk_PipelineOutput InterfaceTypes.Image
                            (Some (PImage image)))] /\
    Image.data image = Some (empty_array np_uint8).
Proof.
  vm_compute. split; [reflexivity|]. split; [reflexivity|].
  eexists. split; reflexivity.
Qed.

Lemma image_size_zero_pixel_data_witness :
  let output := Sample.slot InterfaceTypes.Image in
  let o := decode_output (Sample.reader 0) (Sample.imaging 0) 0 output
                         (Sample.image_instance 0) in
  type output = InterfaceTypes.Image /\
  In (Guest (Call_output_array_size 0 0 0) (Value 0)) (log o) /\
  exists out constructed ptr direction,
    res o = inr out /\
    res (_get_output_json (Sample.reader 0) (Sample.imaging 0) 0
                          (Sample.image_instance 0))
    = inr (Sample.image_descriptor 0) /\
    Sample.image_of (Sample.image_descriptor 0) = inr constructed /\
    dtype_of (ImageType.componentType (Image.imageType constructed))
    = Some np_uint8 /\
    out = Some (mk_PipelineOutput InterfaceTypes.Image
                  (Some (PImage (Image.set_direction direction
                                   (Image.set_data (empty_array np_uint8)
                                                   constructed))))) /\
    array_addresses 0 0 (log o) = [Value ptr] /\
    array_sizes 0 0 (log o) = [Value 0].
Proof.
  cbv zeta. split; [reflexivity|].
  split; [find_event|].
  destruct (res (decode_output (Sample.reader 0) (Sample.imaging 0) 0
                   (Sample.slot InterfaceTypes.Image) (Sample.image_instance 0)))
    as [e|out] eqn:E; [vm_compute in E; discriminate|].
  destruct (image_size_zero_pixel_data (Sample.reader 0) (Sample.imaging 0) 0
              (Sample.slot InterfaceTypes.Image) (Sample.image_instance 0) out)
    as (descriptor & constructed & d & ptr & direction
        & Hj & Hc & Hd & Ho & Ha & Hn);
    [reflexivity | exact E | find_event |].
  assert (Hj' : res (_get_output_json (Sample.reader 0) (Sample.imaging 0) 0
                       (Sample.image_instance 0))
                = inr (Sample.image_descriptor 0)) by (vm_compute; reflexivity).
  rewrite Hj' in Hj. injection Hj as <-.
  change (Image_init (Sample.reader 0)) with Sample.image_of in Hc.
  assert (Hd' : dtype_of (ImageType.componentType (Image.imageType constructed))
                = Some np_uint8).
  { vm_compute in Hc. injection Hc as <-. reflexivity. }
  rewrite Hd' in Hd. injection Hd as <-.
  exists out, constructed, ptr, direction.
  split; [reflexivity|]. split; [reflexivity|]. split; [exact Hc|].
  split; [exact Hd'|]. split; [exact Ho|]. split; [exact Ha | exact Hn].
Defined.

(** A run with a slot of an unhandled kind between two handled ones: the
    guest returns code 0, the run returns, and the tuple has [None] in the
    middle. *)
Lemma unhandled_output_kind_yields_None_witness :
  let output := Sample.slot (InterfaceTypes.Other "JsonObject") in
  let outputs := [Sample.slot InterfaceTypes.BinaryStream; output;
                  Sample.slot InterfaceTypes.BinaryStream] in
  let r := run Sample.lib (Sample.pipeline 0 []) [] outputs [] in
  let empty := Some (mk_PipelineOutput InterfaceTypes.BinaryStream
                       (Some (PBinaryStream (BinaryStream.mk [])))) in
  type output = InterfaceTypes.Other "JsonObject" /\
  outputs !! 1%nat = Some output /\
  In (Guest Call_delayed_start (Value 0)) (events r) /\
  result r = inr [empty; None; empty] /\
  [empty; None; empty] !! 1%nat = Some None /\
  decode_output Sample.lib (Sample.self []) 1 output Sample.instance
  = mk_Out (inr None) Sample.instance [].
Proof.
  cbv zeta.
  destruct (unhandled_output_kind_yields_None (P:=Z) Sample.lib
              (Sample.slot (InterfaceTypes.Other "JsonObject")) "JsonObject"
              eq_refl) as (Hd & Hr & _).
  split; [reflexivity|]. split; [reflexivity|]. split; [find_event|].
  split; [vm_compute; reflexivity|].
  split; [|apply Hd].
  apply (Hr (Sample.pipeline 0 []) []
            [Sample.slot InterfaceTypes.BinaryStream;
             Sample.slot (InterfaceTypes.Other "JsonObject");
             Sample.slot InterfaceTypes.BinaryStream] []
            [Some (mk_PipelineOutput InterfaceTypes.BinaryStream
                     (Some (PBinaryStream (BinaryStream.mk []))));
             None;
             Some (mk_PipelineOutput InterfaceTypes.BinaryStream
                     (Some (PBinaryStream (BinaryStream.mk []))))]
            1%nat).
  - vm_compute. reflexivity.
  - find_event.
  - reflexivity.
Defined.

(** * Further properties *)

(** ** Slices of the linear memory *)

Lemma slice_index_range n i : 0 <= n -> 0 <= slice_index n i <= n.
Proof. unfold slice_index. destruct (i <? 0) eqn:E; [apply Z.ltb_lt in E|apply Z.ltb_ge in E]; lia. Qed.

Lemma slice_bounds_range n a b :
  0 <= n -> 0 <= fst (slice_bounds n a b) <= snd (slice_bounds n a b) /\
            snd (slice_bounds n a b) <= n.
Proof.
  intros Hn. unfold slice_bounds. simpl.
  pose proof (slice_index_range n a Hn). pose proof (slice_index_range n b Hn). lia.
Qed.

(** A slice inside the sequence has the bounds it is written with. *)
Lemma slice_bounds_inside n a b :
  0 <= a -> a <= b -> b <= n -> slice_bounds n a b = (a, b).
Proof.
  intros Ha Hab Hb. unfold slice_bounds, slice_index.
  destruct (a <? 0) eqn:Ea; [apply Z.ltb_lt in Ea; lia|].
  destruct (b <? 0) eqn:Eb; [apply Z.ltb_lt in Eb; lia|].
  f_equal; lia.
Qed.

Lemma py_slice_assign_inv buf a b d buf' :
  py_slice_assign buf a b d = Some buf' ->
  let lo := fst (slice_bounds (len buf) a b) in
  let hi := snd (slice_bounds (len buf) a b) in
  hi - lo = len d /\
  buf' = take (Z.to_nat lo) buf ++ d ++ drop (Z.to_nat hi) buf /\
  length buf' = length buf.
Proof.
  unfold py_slice_assign, len. intros H.
  pose proof (slice_bounds_range (Z.of_nat (length buf)) a b ltac:(lia)) as Hr.
  destruct (slice_bounds (Z.of_nat (length buf)) a b) as [lo hi]. simpl in *.
  destruct (hi - lo =? Z.of_nat (length d)) eqn:E; [|discriminate].
  apply Z.eqb_eq in E. injection H as <-. repeat split; [assumption|].
  rewrite !length_app, length_take, length_drop. lia.
Qed.

(** Reading back the slice that was assigned gives what was assigned. *)
Lemma py_slice_assigned buf a b d buf' :
  py_slice_assign buf a b d = Some buf' -> py_slice buf' a b = d.
Proof.
  intros H. apply py_slice_assign_inv in H as (Hd & -> & Hl).
  unfold py_slice. fold (len buf) in *. rewrite Hl.
  pose proof (slice_bounds_range (Z.of_nat (length buf)) a b ltac:(lia)) as Hr.
  unfold len in *.
  destruct (slice_bounds (Z.of_nat (length buf)) a b) as [lo hi]. simpl in *.
  assert (Hlo : length (take (Z.to_nat lo) buf) = Z.to_nat lo)
    by (rewrite length_take; lia).
  rewrite <- Hlo at 1. rewrite drop_app_length.
  replace (Z.to_nat (hi - lo)) with (length d) by lia.
  apply take_app_length.
Qed.

(** Assigning a slice leaves what is before and after it as it was. *)
Lemma py_slice_assign_frame buf a b d buf' :
  py_slice_assign buf a b d = Some buf' ->
  take (Z.to_nat (fst (slice_bounds (len buf) a b))) buf'
  = take (Z.to_nat (fst (slice_bounds (len buf) a b))) buf /\
  drop (Z.to_nat (snd (slice_bounds (len buf) a b))) buf'
  = drop (Z.to_nat (snd (slice_bounds (len buf) a b))) buf.
Proof.
  intros H.
  pose proof (slice_bounds_range (len buf) a b ltac:(unfold len; lia)) as Hr.
  apply py_slice_assign_inv in H as (Hd & -> & _). cbv zeta in Hd.
  set (lo := fst (slice_bounds (len buf) a b)) in *.
  set (hi := snd (slice_bounds (len buf) a b)) in *.
  unfold len in *. split.
  - apply take_app_length'. rewrite length_take. lia.
  - rewrite app_assoc. apply drop_app_length'.
    rewrite length_app, length_take. lia.
Qed.

Section Memory.

Context {P : Type}.

(** What [buf[a:b] = data] on the linear memory leaves behind. *)
Lemma buffer_assign_inv a b d (s : Instance P) u s' l :
  runs (buffer_assign a b d) s u s' l ->
  l = [] /\
  internal s' = internal s /\
  length (buffer s') = length (buffer s) /\
  py_slice (buffer s') a b = d /\
  take (Z.to_nat (fst (slice_bounds (len (buffer s)) a b))) (buffer s')
  = take (Z.to_nat (fst (slice_bounds (len (buffer s)) a b))) (buffer s) /\
  drop (Z.to_nat (snd (slice_bounds (len (buffer s)) a b))) (buffer s')
  = drop (Z.to_nat (snd (slice_bounds (len (buffer s)) a b))) (buffer s).
Proof.
  unfold runs, buffer_assign.
  destruct (py_slice_assign (buffer s) a b d) as [buf|] eqn:E; [|discriminate].
  intros H. inversion H; subst; clear H. cbn [buffer internal].
  split; [reflexivity|]. split; [reflexivity|].
  split; [apply (py_slice_assign_inv _ _ _ _ _ E)|].
  split; [apply (py_slice_assigned _ _ _ _ _ E)|].
  apply (py_slice_assign_frame _ _ _ _ _ E).
Qed.

End Memory.

(** ** The numeric buffer bridge *)

(** X1: [_memoryview_to_numpy_array] returns exactly when the component
    type is one of the ten supported and the buffer size is a multiple of
    its element size; the array then has that element type, one dimension
    of [size / element size] elements, and the bytes of the buffer,
    unchanged. *)
Theorem memoryview_to_numpy_array_returns c buf a :
  _memoryview_to_numpy_array c buf = inr a <->
  exists d,
    dtype_of c = Some d /\
    len buf mod itemsize d = 0 /\
    a = mk_ndarray d [len buf / itemsize d] buf.
Proof.
  unfold len. split.
  - destruct c as [[]|[]|]; simpl; unfold frombuffer; try discriminate;
      match goal with
      | |- context [?x mod ?y =? 0] => destruct (x mod y =? 0) eqn:E
      end; try discriminate;
      intros H; injection H as <-; apply Z.eqb_eq in E;
      eexists; repeat split; exact E.
  - intros (d & Hd & Hm & ->).
    destruct c as [[]|[]|]; simpl in Hd; try discriminate;
      injection Hd as <-; simpl; unfold frombuffer;
      apply Z.eqb_eq in Hm; rewrite Hm; reflexivity.
Qed.

(** ** Writing into the linear memory *)

Section Writing.

Context {P : Type}.
Context (py : PyLib) (self : @Self P).

(** X2: when [_set_input_array] returns a pointer, that pointer is what the
    guest allocator returned for the size of the data, and the memory the
    allocator left differs only in the slice [ptr:ptr+len(data)], which
    now reads as the data: the length of the memory, the bytes before
    and after the slice, and the guest's private state are untouched. *)
Theorem set_input_array_writes_allocation d i k s p :
  res (_set_input_array self (Some d) i k s) = inr p ->
  exists s1,
    input_array_alloc self 0 i k (len d) s = Some (p, s1) /\
    let s' := st (_set_input_array self (Some d) i k s) in
    let lo := fst (slice_bounds (len (buffer s1)) p (p + len d)) in
    let hi := snd (slice_bounds (len (buffer s1)) p (p + len d)) in
    internal s' = internal s1 /\
    length (buffer s') = length (buffer s1) /\
    py_slice (buffer s') p (p + len d) = d /\
    take (Z.to_nat lo) (buffer s') = take (Z.to_nat lo) (buffer s1) /\
    drop (Z.to_nat hi) (buffer s') = drop (Z.to_nat hi) (buffer s1).
Proof.
  intros H. apply runs_intro in H. revert H.
  generalize (st (_set_input_array self (Some d) i k s)).
  generalize (log (_set_input_array self (Some d) i k s)).
  intros l s' H. unfold _set_input_array, do_input_array_alloc in H.
  apply runs_bind_inv in H as (q & s1 & l1 & l2 & Hc & H & _).
  apply runs_call_inv in Hc as (Hc & _).
  apply runs_bind_inv in H as (u & s2 & l3 & l4 & Hw & H & _).
  apply runs_ret_inv in H as (-> & -> & _).
  apply buffer_assign_inv in Hw as (_ & Hi & Hl & Hr & Ht & Hd).
  exists s1. split; [exact Hc|]. cbv zeta. auto.
Qed.

(** X3: when the range the guest allocator returned for non-empty data
    does not fit in the linear memory, [_set_input_array] raises
    [ValueError] after the one allocator call, and writes nothing. *)
Theorem set_input_array_out_of_bounds d i k s p s1 :
  input_array_alloc self 0 i k (len d) s = Some (p, s1) ->
  0 <= p -> d <> [] -> len (buffer s1) < p + len d ->
  _set_input_array self (Some d) i k s
  = mk_Out (inl (ValueError "memoryview assignment")) s1
           [Guest (Call_input_array_alloc 0 i k (len d)) (Value p)].
Proof.
  intros Ha Hp Hd Hlen.
  unfold _set_input_array, do_input_array_alloc, bind, call, buffer_assign.
  rewrite Ha. simpl.
  assert (Hn : py_slice_assign (buffer s1) p (p + len d) d = None).
  { unfold py_slice_assign, slice_bounds, slice_index, len in *.
    assert (0 < Z.of_nat (length d)) by (destruct d; [congruence | simpl; lia]).
    destruct (p <? 0) eqn:E1; [apply Z.ltb_lt in E1; lia|].
    destruct (p + Z.of_nat (length d) <? 0) eqn:E2; [apply Z.ltb_lt in E2; lia|].
    match goal with
    | |- (if ?c then _ else _) = None => destruct c eqn:E3; [|reflexivity]
    end.
    apply Z.eqb_eq in E3. lia. }
  rewrite Hn. reflexivity.
Qed.

(** X4: when [_set_input_json] returns, the guest JSON allocator was
    called once, for the slot and with the byte length of the encoded
    [json.dumps] of the descriptor, and the memory at the pointer it
    returned reads as those bytes. *)
Theorem set_input_json_writes_descriptor obj i s :
  res (_set_input_json py self obj i s) = inr tt ->
  let data_json := encode (json_dumps py obj) in
  let s' := st (_set_input_json py self obj i s) in
  exists q s1,
    input_json_alloc self 0 i (len data_json) s = Some (q, s1) /\
    log (_set_input_json py self obj i s)
    = [InputJson i obj; Guest (Call_input_json_alloc 0 i (len data_json)) (Value q)] /\
    py_slice (buffer s') q (q + len data_json) = data_json /\
    length (buffer s') = length (buffer s1) /\
    internal s' = internal s1.
Proof.
  unfold _set_input_json, do_input_json_alloc, bind, call, buffer_assign, emit.
  simpl.
  destruct (input_json_alloc self 0 i _ s) as [[q s1]|]; simpl; [|discriminate].
  destruct (py_slice_assign (buffer s1) q _ _) as [buf|] eqn:E; simpl;
    [|discriminate].
  intros _. exists q, s1. repeat split.
  - eapply py_slice_assigned. exact E.
  - apply py_slice_assign_inv in E as (_ & _ & Hl). exact Hl.
Qed.

End Writing.

(** X5: two address URLs are equal only when their pointers are: the
    string embedded in a descriptor determines the pointer. *)
Theorem address_url_injective p q : address_url p = address_url q -> p = q.
Proof.
  intros H. pose proof (address_url_parses p) as Hp.
  rewrite H, address_url_parses in Hp. congruence.
Qed.

(** ** Staging one input *)

Section StagingOne.

Context {P : Type}.
Context (py : PyLib) (self : @Self P).

(** X6: when staging a text or binary stream returns, the size passed to
    the input-array allocator and the [size] field of the descriptor are
    both the byte length of the payload (of its UTF-8 encoding, for a
    text stream), and the descriptor is [{"size": N, "data": URL}] with
    the URL of the pointer the allocator returned. *)
Theorem stream_descriptor_size index input_ payload s :
  stream_bytes input_ = Some payload ->
  res (encode_input py self index input_ s) = inr tt ->
  exists ptr,
    array_allocs index 0 (log (encode_input py self index input_ s))
    = [(len payload, Value ptr)] /\
    descriptors_of index (log (encode_input py self index input_ s))
    = [JDict [("size", JInt (len payload)); ("data", JStr (address_url ptr))]].
Proof.
  intros Hb H. apply runs_intro in H. revert H.
  generalize (st (encode_input py self index input_ s)).
  generalize (log (encode_input py self index input_ s)).
  intros l s' H.
  destruct input_; simpl in Hb; try discriminate; injection Hb as <-;
    unfold encode_input in H; invert_encode; subst;
    simpl; rewrite ?Z.eqb_refl; simpl; eauto.
Qed.

(** X7: when staging an input of a kind other than the file kinds
    returns, its log is, in this order: one input-array allocation for
    each buffer of the kind, for the sub-indices 0, 1, 2, ... in turn;
    the descriptor; one input-JSON allocation.  Every buffer of the slot
    is allocated before the descriptor is built, and nothing else is
    logged. *)
Theorem staging_calls_in_order index input_ s :
  input_path input_ = None ->
  res (encode_input py self index input_ s) = inr tt ->
  exists allocs obj size ptr,
    length allocs = length (buffer_fields input_) /\
    log (encode_input py self index input_ s)
    = alloc_events index 0 allocs
      ++ [InputJson index obj; Guest (Call_input_json_alloc 0 index size) (Value ptr)].
Proof.
  intros Hp H. apply runs_intro in H. revert H.
  generalize (st (encode_input py self index input_ s)).
  generalize (log (encode_input py self index input_ s)).
  intros l s' H.
  destruct input_; simpl in Hp; try discriminate;
    unfold encode_input in H; invert_encode; subst.
  - eexists [(_, _)], _, _, _. split; reflexivity.
  - eexists [(_, _)], _, _, _. split; reflexivity.
  - eexists [(_, _); (_, _)], _, _, _. split; reflexivity.
  - eexists [(_, _); (_, _); (_, _); (_, _)], _, _, _. split; reflexivity.
  - eexists [(_, _); (_, _); (_, _); (_, _); (_, _); (_, _); (_, _)], _, _, _.
    split; reflexivity.
Qed.

End StagingOne.

(** ** The [run] argument *)

Section RunArgument.

Context {P : Type}.
Context (py : PyLib).

Lemma zero_set_input_array (self : @Self P) d i k :
  emits run_is_zero (_set_input_array self d i k).
Proof. unfold _set_input_array, do_input_array_alloc. destruct d; prove_emits. Qed.

Lemma zero_set_input_json (self : @Self P) obj i :
  emits run_is_zero (_set_input_json py self obj i).
Proof. unfold _set_input_json, do_input_json_alloc. prove_emits. Qed.

Hint Resolve zero_set_input_array zero_set_input_json emits_to_bytes
  emits_data_bytes emits_gated_bytes : emits.

Lemma zero_encode_input (self : @Self P) index input_ :
  emits run_is_zero (encode_input py self index input_).
Proof. destruct input_; unfold encode_input; prove_emits. Qed.

Lemma zero_encode_inputs (self : @Self P) inputs :
  forall index, emits run_is_zero (encode_inputs py self index inputs).
Proof.
  induction inputs as [|input_ rest IH]; intros index; simpl.
  - prove_emits.
  - apply emits_bind; [apply zero_encode_input | intros _; apply IH].
Qed.

Lemma zero_get_output_json (self : @Self P) index :
  emits run_is_zero (_get_output_json py self index).
Proof.
  unfold _get_output_json, do_output_json_address, do_output_json_size. prove_emits.
Qed.

Lemma zero_read_array (self : @Self P) c index sub :
  emits run_is_zero (read_array self c index sub).
Proof.
  unfold read_array, do_output_array_address, do_output_array_size. prove_emits.
Qed.

Hint Resolve zero_get_output_json zero_read_array : emits.

Lemma zero_gated_array (self : @Self P) {T} count c index sub
    (f g : ndarray -> T -> T) x :
  emits run_is_zero (gated_array self count c index sub f g x).
Proof. unfold gated_array. destruct (0 <? count); prove_emits. Qed.

Hint Resolve zero_gated_array : emits.

Lemma zero_decode_output (self : @Self P) index output :
  emits run_is_zero (decode_output py self index output).
Proof.
  unfold decode_output, do_output_array_address, do_output_array_size.
  destruct (type output); prove_emits.
Qed.

Lemma zero_decode_outputs (self : @Self P) outputs :
  forall index, emits run_is_zero (decode_outputs py self index outputs).
Proof.
  induction outputs as [|output rest IH]; intros index; simpl.
  - prove_emits.
  - apply emits_bind; [apply zero_decode_output | intros a].
    apply emits_bind; [apply IH | intros; prove_emits].
Qed.

(** X8: every guest call a run makes to an allocator or an accessor
    passes 0 for the [run] argument. *)
Theorem run_argument_is_zero (pipeline : Pipeline P) args outputs inputs :
  all run_is_zero (events (run py pipeline args outputs inputs)).
Proof.
  unfold run. destruct (preopen inputs outputs) as [e|dirs]; simpl; [constructor|].
  generalize (instantiate pipeline (mk_WasiEnv "itk-wasm-pipeline" args [] [] dirs)).
  change (emits run_is_zero (run_instance py pipeline outputs inputs)).
  unfold run_instance.
  repeat (apply emits_bind; [solve [prove_emits] | intros ?]).
  apply emits_bind; [apply zero_encode_inputs | intros _].
  repeat (apply emits_bind; [solve [prove_emits] | intros ?]).
  apply emits_bind.
  - match goal with
    | |- context [if ?c then _ else _] => destruct c
    end; [apply zero_decode_outputs | prove_emits].
  - intros tup. prove_emits.
Qed.

End RunArgument.

(** ** The order of the slots *)

Lemma staging_slots_app l1 l2 :
  staging_slots (l1 ++ l2) = staging_slots l1 ++ staging_slots l2.
Proof.
  induction l1 as [|e l1 IH]; [reflexivity|].
  destruct e as [[] ?|]; simpl; congruence.
Qed.

Lemma staging_slots_none l : all not_staging l -> staging_slots l = [].
Proof.
  intros Hl. induction Hl as [|e l He _ IH]; [reflexivity|].
  destruct e as [[] ?|]; simpl; try assumption; discriminate.
Qed.

Lemma staging_slots_for slot l :
  all (staged_for slot) l -> Forall (fun i => i = slot) (staging_slots l).
Proof.
  intros Hl. induction Hl as [|e l He _ IH]; [constructor|].
  destruct e as [[] ?|]; simpl in *; try discriminate;
    constructor; try assumption; apply Z.eqb_eq; assumption.
Qed.

Lemma staging_slots_from slot l :
  all (staged_from slot) l -> Forall (fun i => slot <= i) (staging_slots l).
Proof.
  intros Hl. induction Hl as [|e l He _ IH]; [constructor|].
  destruct e as [[] ?|]; simpl in *; try discriminate;
    constructor; try assumption; apply Z.leb_le; assumption.
Qed.

Lemma sorted_after (slot : Z) (l1 l2 : list Z) :
  Forall (fun i => i = slot) l1 ->
  Forall (fun i => slot + 1 <= i) l2 ->
  StronglySorted Z.le l2 ->
  StronglySorted Z.le (l1 ++ l2).
Proof.
  intros H1 H2 Hs. induction l1 as [|x l1 IH]; simpl; [assumption|].
  inversion H1 as [|? ? Hx H1']; subst.
  constructor; [apply IH; assumption|].
  apply Forall_app. split.
  - clear IH H1. induction H1' as [|y l1 -> _ IHl]; constructor; [lia|assumption].
  - clear IH. induction H2 as [|y l2 Hy _ IHl]; constructor; [lia|].
    apply IHl. inversion Hs; assumption.
Qed.

Section SlotOrder.

Context {P : Type}.
Context (py : PyLib).

Lemma encode_inputs_slots (self : @Self P) inputs :
  forall index s,
    StronglySorted Z.le (staging_slots (log (encode_inputs py self index inputs s))) /\
    Forall (fun i => index <= i < index + len inputs)
           (staging_slots (log (encode_inputs py self index inputs s))).
Proof.
  induction inputs as [|x rest IH]; intros index s; cbn [encode_inputs].
  - split; constructor.
  - rewrite log_bind, staging_slots_app.
    pose proof (staging_slots_for _ _ (slot_encode_input py self index x s)) as Hx.
    assert (Hlen : len (x :: rest) = len rest + 1) by (unfold len; simpl length; lia).
    assert (Hrest :
      StronglySorted Z.le
        (staging_slots
           match res (encode_input py self index x s) with
           | inr _ => log (encode_inputs py self (index + 1) rest
                             (st (encode_input py self index x s)))
           | inl _ => []
           end) /\
      Forall (fun i => index + 1 <= i < index + 1 + len rest)
        (staging_slots
           match res (encode_input py self index x s) with
           | inr _ => log (encode_inputs py self (index + 1) rest
                             (st (encode_input py self index x s)))
           | inl _ => []
           end)).
    { destruct (res (encode_input py self index x s)); [split; constructor | apply IH]. }
    destruct Hrest as [Hs Hb]. split.
    + eapply sorted_after; [exact Hx | | exact Hs].
      eapply List.Forall_impl; [|exact Hb]. simpl. intros; lia.
    + apply Forall_app. split.
      * eapply List.Forall_impl; [|exact Hx]. simpl. intros i ->.
        unfold len in *. lia.
      * eapply List.Forall_impl; [|exact Hb]. simpl. intros; lia.
Qed.

Lemma slots_in_order_bind n {A B} (m : M P A) (f : A -> M P B) s :
  emits not_staging m ->
  (forall a s', slots_in_order n (log (f a s'))) ->
  slots_in_order n (log (bind m f s)).
Proof.
  intros Hm Hf. unfold slots_in_order.
  rewrite log_bind, staging_slots_app, (staging_slots_none _ (Hm s)). simpl.
  destruct (res (m s)); [split; constructor | apply Hf].
Qed.

(** X9: in every run the inputs are staged in the order of the caller's
    list: the slots of the staging events (input-array allocations,
    descriptors, input-JSON allocations) never decrease along the log,
    and each is the position of an input of the list. *)
Theorem inputs_staged_in_order (pipeline : Pipeline P) args outputs inputs :
  slots_in_order (len inputs) (events (run py pipeline args outputs inputs)).
Proof.
  unfold run. destruct (preopen inputs outputs) as [e|dirs]; simpl;
    [split; constructor|].
  generalize (instantiate pipeline (mk_WasiEnv "itk-wasm-pipeline" args [] [] dirs)).
  intros s. unfold run_instance.
  repeat (apply slots_in_order_bind; [solve [prove_emits] | intros ? ?]).
  unfold slots_in_order. rewrite log_bind, staging_slots_app.
  match goal with
  | |- context [staging_slots (match ?r with inr _ => log (?k ?st) | inl _ => [] end)] =>
      assert (Hpost : staging_slots
                        (match r with inr _ => log (k st) | inl _ => [] end) = [])
  end.
  { destruct (res _); [reflexivity|].
    apply staging_slots_none.
    apply (emits_launch py not_staging (exports pipeline));
      [apply accessor_not_staging | reflexivity | reflexivity]. }
  rewrite Hpost, app_nil_r.
  apply (encode_inputs_slots _ inputs 0).
Qed.

End SlotOrder.

(** ** Traps *)

Section Traps.

Context {P : Type}.

Lemma tidy_silent {A} (m : M P A) : (forall s, log (m s) = []) -> tidy m.
Proof. intros H s. left. rewrite H. constructor. Qed.

Lemma tidy_ret {A} (a : A) : tidy (@ret P A a).
Proof. apply tidy_silent. reflexivity. Qed.

Lemma tidy_raise {A} e : tidy (@raise P A e).
Proof. apply tidy_silent. reflexivity. Qed.

Lemma tidy_lift {A} (r : Exception + A) : tidy (@lift P A r).
Proof. destruct r; [apply tidy_raise | apply tidy_ret]. Qed.

Lemma tidy_export {A} name (e : option A) : tidy (@export P A name e).
Proof. destruct e; [apply tidy_ret | apply tidy_raise]. Qed.

Lemma tidy_memoryview : tidy (@memoryview P).
Proof. apply tidy_silent. reflexivity. Qed.

Lemma tidy_buffer_assign a b d : tidy (@buffer_assign P a b d).
Proof.
  apply tidy_silent. intros s. unfold buffer_assign.
  destruct (py_slice_assign _ _ _ _); reflexivity.
Qed.

Lemma tidy_emit i obj : tidy (@emit P (InputJson i obj)).
Proof. intros s. left. repeat constructor. Qed.

Lemma tidy_call name c (f : @GuestFn P) : tidy (call name c f).
Proof.
  intros s. unfold trap_final, call. destruct (f s) as [[v s']|]; simpl.
  - left. repeat constructor.
  - right. exists name, [], c. repeat split. constructor.
Qed.

Lemma tidy_call_proc name c (f : @GuestProc P) : tidy (call_proc name c f).
Proof.
  intros s. unfold trap_final, call_proc. destruct (f s) as [s'|]; simpl.
  - left. repeat constructor.
  - right. exists name, [], c. repeat split. constructor.
Qed.

Lemma tidy_bind {A B} (m : M P A) (f : A -> M P B) :
  tidy m -> (forall a, tidy (f a)) -> tidy (bind m f).
Proof.
  intros Hm Hf s. unfold trap_final. rewrite res_bind, log_bind.
  destruct (Hm s) as [Hl|(name & pre & c & Hr & Hl & Hp)].
  - destruct (res (m s)) as [e|a].
    + left. rewrite app_nil_r. exact Hl.
    + destruct (Hf a (st (m s))) as [Hl'|(name & pre & c & Hr & Hl' & Hp)].
      * left. apply all_app; assumption.
      * right. exists name, (log (m s) ++ pre), c. rewrite Hl', app_assoc.
        repeat split; [exact Hr|]. apply all_app; assumption.
  - rewrite Hr. right. exists name, pre, c. rewrite app_nil_r. auto.
Qed.

End Traps.

Create HintDb tidy.

#[local] Hint Resolve tidy_ret tidy_raise tidy_lift tidy_export tidy_memoryview
  tidy_buffer_assign tidy_emit tidy_call tidy_call_proc : tidy.

(** Proves that a trap can only end a sequence of steps. *)
Ltac prove_tidy :=
  repeat first
    [ solve [auto with tidy]
    | apply tidy_bind; [|intros] ].

Section TrapsInRun.

Context {P : Type}.
Context (py : PyLib).

Lemma tidy_to_bytes a : tidy (@to_bytes P a).
Proof. unfold to_bytes. destruct a; prove_tidy. Qed.

Lemma tidy_data_bytes a : tidy (@data_bytes P a).
Proof. unfold data_bytes. destruct a; prove_tidy. Qed.

Lemma tidy_gated_bytes c b : tidy (@gated_bytes P c b).
Proof. unfold gated_bytes. destruct (c =? 0); [prove_tidy | apply tidy_to_bytes]. Qed.

Lemma tidy_set_input_array (self : @Self P) d i k : tidy (_set_input_array self d i k).
Proof. unfold _set_input_array, do_input_array_alloc. destruct d; prove_tidy. Qed.

Lemma tidy_set_input_json (self : @Self P) obj i : tidy (_set_input_json py self obj i).
Proof. unfold _set_input_json, do_input_json_alloc. prove_tidy. Qed.

Hint Resolve tidy_to_bytes tidy_data_bytes tidy_gated_bytes tidy_set_input_array
  tidy_set_input_json : tidy.

Lemma tidy_encode_input (self : @Self P) index input_ :
  tidy (encode_input py self index input_).
Proof. destruct input_; unfold encode_input; prove_tidy. Qed.

Lemma tidy_encode_inputs (self : @Self P) inputs :
  forall index, tidy (encode_inputs py self index inputs).
Proof.
  induction inputs as [|input_ rest IH]; intros index; simpl.
  - prove_tidy.
  - apply tidy_bind; [apply tidy_encode_input | intros _; apply IH].
Qed.

Lemma tidy_get_output_json (self : @Self P) index :
  tidy (_get_output_json py self index).
Proof.
  unfold _get_output_json, do_output_json_address, do_output_json_size. prove_tidy.
Qed.

Lemma tidy_read_array (self : @Self P) c index sub : tidy (read_array self c index sub).
Proof.
  unfold read_array, do_output_array_address, do_output_array_size. prove_tidy.
Qed.

Hint Resolve tidy_get_output_json tidy_read_array : tidy.

Lemma tidy_gated_array (self : @Self P) {T} count c index sub
    (f g : ndarray -> T -> T) x :
  tidy (gated_array self count c index sub f g x).
Proof. unfold gated_array. destruct (0 <? count); prove_tidy. Qed.

Hint Resolve tidy_gated_array : tidy.

Lemma tidy_decode_output (self : @Self P) index output :
  tidy (decode_output py self index output).
Proof.
  unfold decode_output, do_output_array_address, do_output_array_size.
  destruct (type output); prove_tidy.
Qed.

Lemma tidy_decode_outputs (self : @Self P) outputs :
  forall index, tidy (decode_outputs py self index outputs).
Proof.
  induction outputs as [|output rest IH]; intros index; simpl.
  - prove_tidy.
  - apply tidy_bind; [apply tidy_decode_output | intros a].
    apply tidy_bind; [apply IH | intros; prove_tidy].
Qed.

Lemma tidy_run_instance (pipeline : Pipeline P) outputs inputs :
  tidy (run_instance py pipeline outputs inputs).
Proof.
  unfold run_instance.
  repeat (apply tidy_bind; [solve [prove_tidy] | intros ?]).
  apply tidy_bind; [apply tidy_encode_inputs | intros _].
  repeat (apply tidy_bind; [solve [prove_tidy] | intros ?]).
  apply tidy_bind.
  - match goal with
    | |- context [if ?c then _ else _] => destruct c
    end; [apply tidy_decode_outputs | prove_tidy].
  - intros tup. prove_tidy.
Qed.

(** X10: a guest trap ends the run at once.  In every run, either no
    guest call trapped, or exactly one did: it is the last event of the
    log, nothing is called after it (no retry, no [itk_wasm_delayed_exit]),
    and the run raises the [RuntimeError] of that trap. *)
Theorem trap_ends_the_run (pipeline : Pipeline P) args outputs inputs :
  let r := run py pipeline args outputs inputs in
  count is_trap (events r) = O \/
  exists name pre c,
    result r = inl (RuntimeError name) /\
    events r = pre ++ [Guest c Trapped] /\
    count is_trap pre = O.
Proof.
  assert (Hnone : forall l, all no_trap l -> count is_trap l = O).
  { intros l. apply count_none. intros e. unfold no_trap. apply negb_true_iff. }
  unfold run. destruct (preopen inputs outputs) as [e|dirs]; simpl; [left; reflexivity|].
  destruct (tidy_run_instance pipeline outputs inputs
              (instantiate pipeline (mk_WasiEnv "itk-wasm-pipeline" args [] [] dirs)))
    as [Hl|(name & pre & c & Hr & Hl & Hp)].
  - left. apply Hnone, Hl.
  - right. exists name, pre, c. auto.
Qed.

End TrapsInRun.

(** ** What a run returns, and when it reads outputs *)

Lemma all_in Q l e : all Q l -> In e l -> Q e = true.
Proof.
  intros Hl Hin. induction Hl as [|x l Hx _ IH]; [destruct Hin|].
  destruct Hin as [->|Hin]; auto.
Qed.

(** In a list cut in two ways, an element that is not in the first part of
    the second cut, nor the element that cut is made at, comes after that
    element. *)
Lemma cut_after {A} (l1 : list A) x l2 m1 y m2 :
  l1 ++ x :: l2 = m1 ++ y :: m2 -> ~ In x m1 -> x <> y -> In y l1.
Proof.
  revert l1. induction m1 as [|a m1 IH]; intros l1 H Hx Hy.
  - destruct l1 as [|b l1]; simpl in H; injection H as H1 H2.
    + congruence.
    + left. assumption.
  - destruct l1 as [|b l1]; simpl in H; injection H as H1 H2.
    + destruct Hx. left. auto.
    + right. apply IH; [assumption | | assumption].
      intros Hin. apply Hx. right. assumption.
Qed.

Section Returned.

Context {P : Type}.
Context (py : PyLib).

Lemma decode_output_populates (self : @Self P) index output s v s' l :
  runs (decode_output py self index output) s v s' l -> populates output v.
Proof.
  unfold decode_output, populates.
  destruct (type output) eqn:Ht; intros H; invert_runs; subst; simpl; eauto.
Qed.

Lemma decode_outputs_length (self : @Self P) outputs :
  forall index s tup s' l,
    runs (decode_outputs py self index outputs) s tup s' l ->
    length tup = length outputs.
Proof.
  induction outputs as [|o rest IH]; intros index s tup s' l H; simpl in H;
    invert_runs; subst; [reflexivity|].
  simpl. f_equal. eapply IH. eassumption.
Qed.

(** X11: a run reads outputs only when there are output slots and the
    guest returned code 0: every call of an output accessor in the log
    comes after the call of [itk_wasm_delayed_start] that returned 0. *)
Theorem accessors_follow_zero_return_code
    (pipeline : Pipeline P) args outputs inputs pre e post :
  events (run py pipeline args outputs inputs) = pre ++ e :: post ->
  is_accessor e = true ->
  In (Guest Call_delayed_start (Value 0)) pre /\ outputs <> [].
Proof.
  unfold run. destruct (preopen inputs outputs) as [err|dirs]; simpl;
    intros Hev He; [destruct pre; discriminate|].
  revert Hev.
  generalize (instantiate pipeline (mk_WasiEnv "itk-wasm-pipeline" args [] [] dirs)).
  intros s Hev.
  assert (Hin : In e (log (run_instance py pipeline outputs inputs s))).
  { rewrite Hev. apply in_or_app. right. left. reflexivity. }
  assert (Hnb : forall l, all before_start l -> ~ In e l).
  { intros l Hl Hl'. apply (all_in _ _ _ Hl) in Hl'.
    apply before_start_not_accessor in Hl'. congruence. }
  destruct (run_instance_cases py pipeline outputs inputs s) as
    [(err & Hr & Hl)|[(pre0 & Hr & Hl & Hp)|(self & pre0 & rc & s1 & Hp & Hr & Hl)]].
  - destruct (Hnb _ Hl Hin).
  - rewrite Hl in Hin. apply in_app_or in Hin as [Hin|[<-|[]]];
      [destruct (Hnb _ Hp Hin) | discriminate].
  - pose proof (finish_cases py (exports pipeline) self outputs rc s1) as Hf.
    pose proof (finish_decodes py self outputs rc s1) as Hd.
    simpl in Hf.
    destruct (negb (len outputs =? 0) && (rc =? 0)) eqn:Hc.
    + apply andb_true_iff in Hc as [Ho Hz]. apply Z.eqb_eq in Hz. subst rc.
      split.
      * rewrite Hl in Hev. symmetry in Hev.
        eapply cut_after; [exact Hev | apply Hnb, Hp |].
        intros ->. discriminate.
      * intros ->. discriminate.
    + exfalso. simpl in Hf.
      assert (Hlf : forall x, In x (log (finish py (exports pipeline) self outputs rc s1))
                              -> is_accessor x = false).
      { destruct (itk_wasm_delayed_exit (exports pipeline)) as [f|];
          [destruct (f rc s1)|]; destruct Hf as [_ ->]; simpl;
          intros x Hx; repeat destruct Hx as [<-|Hx]; try reflexivity; destruct Hx. }
      rewrite Hl in Hin. apply in_app_or in Hin as [Hin|[<-|Hin]].
      * destruct (Hnb _ Hp Hin).
      * discriminate.
      * apply Hlf in Hin. congruence.
Qed.

(** X12: when a run whose guest returned code 0 returns, the tuple has one
    entry for each declared output slot, in order: for a slot of one of
    the seven kinds, a populated output of the same kind carrying a
    payload of that kind's class. *)
Theorem returned_tuple_matches_slots (pipeline : Pipeline P) args outputs inputs tup :
  let r := run py pipeline args outputs inputs in
  result r = inr tup ->
  In (Guest Call_delayed_start (Value 0)) (events r) ->
  length tup = length outputs /\
  forall i slot, outputs !! i = Some slot ->
    exists v, tup !! i = Some v /\ populates slot v.
Proof.
  unfold run. destruct (preopen inputs outputs) as [err|dirs]; simpl; [discriminate|].
  generalize (instantiate pipeline (mk_WasiEnv "itk-wasm-pipeline" args [] [] dirs)).
  intros s Hres Hin.
  destruct (run_instance_cases py pipeline outputs inputs s) as
    [(e & Hr & Hl)|[(pre & Hr & Hl & Hp)|(self & pre & rc & s1 & Hp & Hr & Hl)]];
    [congruence | congruence |].
  rewrite Hl in Hin. apply in_app_or in Hin as [Hin|[Hin|Hin]].
  - destruct (start_not_before _ _ Hp Hin).
  - injection Hin as ->. rewrite Hr in Hres.
    pose proof (finish_cases py (exports pipeline) self outputs 0 s1) as Hf.
    simpl in Hf. rewrite andb_true_r in Hf.
    destruct outputs as [|o outputs'].
    + remember (finish py (exports pipeline) self [] 0 s1) as fin eqn:Efin.
      simpl in Hf.
      assert (tup = []) as ->.
      { destruct (itk_wasm_delayed_exit (exports pipeline)) as [f|];
          [destruct (f 0 s1)|]; destruct Hf as [Hf _]; congruence. }
      split; [reflexivity|]. intros i slot Hi. discriminate.
    + set (outputs := o :: outputs') in *.
      assert (Hne : negb (len outputs =? 0) = true).
      { unfold len, outputs. simpl length. apply negb_true_iff, Z.eqb_neq. lia. }
      rewrite Hne in Hf.
      destruct (res (decode_outputs py self 0 outputs s1)) as [e|tup'] eqn:Ed.
      { destruct Hf as [Hf _]. congruence. }
      assert (tup' = tup) as ->.
      { destruct (itk_wasm_delayed_exit (exports pipeline)) as [f|];
          [destruct (f 0 _)|]; destruct Hf as [Hf _]; congruence. }
      apply runs_intro in Ed. split.
      * eapply decode_outputs_length. exact Ed.
      * intros i slot Hi.
        destruct (decode_outputs_lookup py self _ _ _ _ _ _ _ _ Ed Hi)
          as (s2 & v & s3 & l1 & Hd & Hv).
        exists v. split; [exact Hv|]. eapply decode_output_populates. exact Hd.
  - apply finish_not_start in Hin. discriminate.
Qed.

(** X13: an input whose kind is none of the seven aborts the run: the run
    raises, and [itk_wasm_delayed_start] is never called. *)
Theorem unsupported_input_kind_aborts (pipeline : Pipeline P) args outputs inputs name :
  In (InOther name) inputs ->
  let r := run py pipeline args outputs inputs in
  (exists e, result r = inl e) /\ count is_delayed_start (events r) = O.
Proof.
  intros Hin. unfold run.
  destruct (preopen inputs outputs) as [err|dirs]; simpl; [eauto|].
  generalize (instantiate pipeline (mk_WasiEnv "itk-wasm-pipeline" args [] [] dirs)).
  intros s.
  assert (Hno : forall returned,
             ~ In (Guest Call_delayed_start returned)
                  (log (run_instance py pipeline outputs inputs s))).
  { intros returned Hs.
    apply run_staged in Hs as (self & s0 & s1 & staged & post & Hrun & _ & _).
    apply list_elem_of_In, list_elem_of_lookup in Hin as (i & Hi).
    destruct (encode_inputs_split py self inputs _ _ _ _ _ _ _ Hrun Hi)
      as (l1 & l2 & l3 & t1 & t2 & _ & Hr & _).
    simpl in Hr. invert_runs. }
  split.
  - destruct (run_instance_cases py pipeline outputs inputs s) as
      [(e & Hr & Hl)|[(pre & Hr & Hl & Hp)|(self & pre & rc & s1 & Hp & Hr & Hl)]];
      [eauto | eauto |].
    destruct (Hno (Value rc)). rewrite Hl. apply in_or_app. right. left. reflexivity.
  - revert Hno. generalize (log (run_instance py pipeline outputs inputs s)).
    intros l Hno. induction l as [|x l IH]; [reflexivity|].
    simpl. destruct (is_delayed_start x) eqn:E.
    + destruct x as [[] r|]; try discriminate.
      destruct (Hno r). left. reflexivity.
    + apply IH. intros returned H. apply (Hno returned). right. assumption.
Qed.

End Returned.

(** ** Preopened directories, again *)

Lemma preopen_inputs_only inputs :
  forall (dirs : gset string) d,
    d ∈ preopen_inputs dirs inputs ->
    d ∈ dirs \/
    exists input_ path,
      In input_ inputs /\ input_path input_ = Some path /\
      d = Path.str (Path.parent path).
Proof.
  induction inputs as [|x rest IH]; intros dirs d Hd; simpl in Hd; [auto|].
  assert (Hrest : d ∈ dirs \/
                  (exists path, input_path x = Some path /\
                                d = Path.str (Path.parent path)) \/
                  exists input_ path,
                    In input_ rest /\ input_path input_ = Some path /\
                    d = Path.str (Path.parent path)).
  { destruct x; apply IH in Hd as [Hd|Hd]; auto;
      unfold add_parent in Hd; apply elem_of_union in Hd as [Hd|Hd]; auto;
      apply elem_of_singleton in Hd; right; left; eexists;
      (split; [reflexivity | exact Hd]). }
  destruct Hrest as [H|[(path & Hp & ->)|(input_ & path & Hin & Hp & ->)]].
  - auto.
  - right. exists x, path. simpl. auto.
  - right. exists input_, path. simpl. auto.
Qed.

Lemma preopen_outputs_only outputs :
  forall (dirs dirs' : gset string) d,
    preopen_outputs dirs outputs = inr dirs' ->
    d ∈ dirs' ->
    d ∈ dirs \/
    exists output path,
      In output outputs /\ is_file (type output) = true /\
      output_path output = inr path /\ d = Path.str (Path.parent path).
Proof.
  induction outputs as [|o rest IH]; intros dirs dirs' d H Hd; simpl in H.
  - injection H as <-. auto.
  - destruct (is_file (type o)) eqn:Hf.
    + destruct (output_path o) as [e|path] eqn:Hp; [discriminate|].
      destruct (IH _ _ _ H Hd) as [Hin|(output & path' & Hin & Hf' & Hp' & ->)].
      * unfold add_parent in Hin. apply elem_of_union in Hin as [Hin|Hin]; [|auto].
        apply elem_of_singleton in Hin. right. exists o, path. simpl. auto.
      * right. exists output, path'. simpl. auto.
    + destruct (IH _ _ _ H Hd) as [Hin|(output & path' & Hin & Hf' & Hp' & ->)];
        [auto|]. right. exists output, path'. simpl. auto.
Qed.

Lemma preopen_outputs_succeeds outputs :
  forall dirs : gset string,
    (forall output, In output outputs -> is_file (type output) = true ->
                    exists path, output_path output = inr path) ->
    exists dirs', preopen_outputs dirs outputs = inr dirs'.
Proof.
  induction outputs as [|o rest IH]; intros dirs H; simpl; [eauto|].
  destruct (is_file (type o)) eqn:Hf.
  - destruct (H o (or_introl eq_refl) Hf) as (path & ->).
    apply IH. intros output Hin. apply H. right. exact Hin.
  - apply IH. intros output Hin. apply H. right. exact Hin.
Qed.

(** X14: when every declared output of a file kind carries a path, [run]
    instantiates the module with one WASI environment, whatever the
    module: it maps no directory, sets no environment variable, passes
    the caller's arguments, and each directory it preopens is the parent
    of the path of a file input or of a file output of the call.  The
    guest is given no directory the caller did not name through a
    [TextFile] or [BinaryFile]. *)
Theorem preopen_only_parents {P} (py : PyLib) args outputs inputs :
  (forall output, In output outputs -> is_file (type output) = true ->
                  exists path, output_path output = inr path) ->
  exists env,
    (forall pipeline : Pipeline P,
        run py pipeline args outputs inputs
        = run_with py pipeline outputs inputs env) /\
    preopen inputs outputs = inr (preopen_directories env) /\
    program_name env = "itk-wasm-pipeline" /\
    arguments env = args /\
    environments env = [] /\
    map_directories env = [] /\
    forall d, In d (preopen_directories env) -> named_by inputs outputs d.
Proof.
  intros H. unfold run, preopen.
  destruct (preopen_outputs_succeeds outputs (preopen_inputs ∅ inputs) H)
    as (set & E).
  rewrite E.
  exists (mk_WasiEnv "itk-wasm-pipeline" args [] [] (elements set)).
  repeat split. simpl. intros d Hd.
  apply list_elem_of_In, elem_of_elements in Hd.
  destruct (preopen_outputs_only _ _ _ _ E Hd) as [Hin|Hout]; [|right; exact Hout].
  destruct (preopen_inputs_only _ _ _ Hin) as [Hempty|Hinp]; [|left; exact Hinp].
  apply elem_of_empty in Hempty. destruct Hempty.
Qed.

Lemma preopen_outputs_fails outputs :
  forall (dirs : gset string) output e,
    In output outputs -> is_file (type output) = true ->
    output_path output = inl e ->
    exists msg, preopen_outputs dirs outputs = inl (AttributeError msg).
Proof.
  assert (Hattr : forall o e, output_path o = inl e -> exists msg, e = AttributeError msg).
  { intros o e. unfold output_path. destruct (data o) as [d|];
      [destruct (payload_path d)|]; intros H; try discriminate;
      injection H as <-; eauto. }
  induction outputs as [|o rest IH]; intros dirs output e Hin Hf Hp; [destruct Hin|].
  simpl. destruct Hin as [->|Hin].
  - rewrite Hf, Hp. destruct (Hattr _ _ Hp) as (msg & ->). eauto.
  - destruct (is_file (type o)); [|eapply IH; eassumption].
    destruct (output_path o) as [e'|path] eqn:Hp'.
    + destruct (Hattr _ _ Hp') as (msg & ->). eauto.
    + eapply IH; eassumption.
Qed.

(** X15: a declared output of a file kind whose [data] has no [path] (it
    is [None], or a payload of another class) makes the run raise
    [AttributeError] while it derives the preopen directories: the module
    is not instantiated and no guest call is made. *)
Theorem file_output_without_path_aborts
    {P} (py : PyLib) (pipeline : Pipeline P) args outputs inputs output e :
  In output outputs ->
  is_file (type output) = true ->
  output_path output = inl e ->
  let r := run py pipeline args outputs inputs in
  (exists msg, result r = inl (AttributeError msg)) /\ events r = [].
Proof.
  intros Hin Hf Hp. unfold run, preopen.
  destruct (preopen_outputs_fails outputs (preopen_inputs ∅ inputs) output e Hin Hf Hp)
    as (msg & ->).
  simpl. eauto.
Qed.

(** ** Decoded buffers *)

Lemma memoryview_array_inv c buf a :
  _memoryview_to_numpy_array c buf = inr a ->
  dtype_of c = Some (nd_dtype a) /\
  nd_bytes a = buf /\
  len buf mod itemsize (nd_dtype a) = 0.
Proof.
  unfold len.
  destruct c as [[]|[]|]; simpl; unfold frombuffer; try discriminate;
    match goal with
    | |- context [?x mod ?y =? 0] => destruct (x mod y =? 0) eqn:E
    end; try discriminate;
    intros H; injection H as <-; apply Z.eqb_eq in E; simpl; auto.
Qed.

Lemma memoryview_array_shape c buf a :
  _memoryview_to_numpy_array c buf = inr a ->
  nd_shape a = [len (nd_bytes a) / itemsize (nd_dtype a)].
Proof.
  unfold len.
  destruct c as [[]|[]|]; simpl; unfold frombuffer; try discriminate;
    match goal with
    | |- context [?x mod ?y =? 0] => destruct (x mod y =? 0)
    end; try discriminate;
    intros H; injection H as <-; reflexivity.
Qed.

Lemma set_shape2_inv a d a' :
  set_shape2 a d = inr a' ->
  0 <= d /\ d * d = nd_size a /\
  a' = mk_ndarray (nd_dtype a) [d; d] (nd_bytes a).
Proof.
  unfold set_shape2. destruct (0 <=? d) eqn:E1; simpl; [|discriminate].
  destruct (d * d =? nd_size a) eqn:E2; [|discriminate].
  intros H. injection H as <-.
  apply Z.leb_le in E1. apply Z.eqb_eq in E2. auto.
Qed.

Section Buffers.

Context {P : Type}.
Context (py : PyLib) (self : @Self P).

Lemma gated_array_full_inv {T} count c index sub (f g : ndarray -> T -> T) x s y s' l :
  runs (gated_array self count c index sub f g x) s y s' l ->
  (0 < count /\
   exists a p n,
     y = f a x /\ dtype_of c = Some (nd_dtype a) /\
     l = [Guest (Call_output_array_address 0 index sub) (Value p);
          Guest (Call_output_array_size 0 index sub) (Value n)]) \/
  (count <= 0 /\ l = [] /\
   exists d, dtype_of c = Some d /\ y = g (empty_array d) x).
Proof.
  unfold gated_array. destruct (0 <? count) eqn:E; intros H; invert_runs; subst.
  - left. apply Z.ltb_lt in E. split; [assumption|].
    match goal with
    | Hr : runs (read_array _ _ _ _) _ _ _ _ |- _ =>
        apply read_array_inv in Hr as (p & n & -> & Hm)
    end.
    apply memoryview_array_inv in Hm as (Hd & _ & _).
    eexists _, p, n. rewrite app_nil_r. auto.
  - right. apply Z.ltb_ge in E.
    match goal with
    | Hm : _memoryview_to_numpy_array _ [] = _ |- _ =>
        apply empty_buffer_array in Hm as (d & Hd & ->)
    end.
    eauto 6.
Qed.

(** X16: every image a run decodes is the one the constructor of [Image]
    built from the descriptor [_get_output_json] read from the guest for
    the slot, with [data] and [direction] replaced.  The pixel data are
    a one-dimensional array of the element type of the descriptor's
    component type (they are not reshaped to the image size), and the
    direction is a [float64] matrix of shape [(dimension, dimension)],
    that is of [8 * dimension²] bytes. *)
Theorem image_output_buffers index output s out :
  type output = InterfaceTypes.Image ->
  res (decode_output py self index output s) = inr out ->
  exists descriptor constructed pixels direction,
    res (_get_output_json py self index s) = inr descriptor /\
    Image_init py descriptor = inr constructed /\
    out = Some (mk_PipelineOutput InterfaceTypes.Image
                  (Some (PImage (Image.set_direction direction
                                   (Image.set_data pixels constructed))))) /\
    let dimension := ImageType.dimension (Image.imageType constructed) in
    dtype_of (ImageType.componentType (Image.imageType constructed))
    = Some (nd_dtype pixels) /\
    nd_shape pixels = [len (nd_bytes pixels) / itemsize (nd_dtype pixels)] /\
    nd_dtype direction = np_float64 /\
    nd_shape direction = [dimension; dimension] /\
    len (nd_bytes direction) = 8 * dimension * dimension.
Proof.
  intros Ht H. apply runs_intro in H. revert H.
  generalize (log (decode_output py self index output s)).
  generalize (st (decode_output py self index output s)).
  intros s' l H. unfold decode_output in H. rewrite Ht in H.
  invert_runs.
  match goal with
  | Hr : runs (_get_output_json _ _ _) _ ?j _ _ |- _ =>
      assert (Hj : res (_get_output_json py self index s) = inr j)
        by (rewrite Hr; reflexivity);
      apply get_output_json_inv in Hr as (? & ? & ?)
  end.
  repeat match goal with
  | Hr : runs (read_array _ _ _ _) _ _ _ _ |- _ =>
      apply read_array_inv in Hr as (? & ? & ? & ?)
  end.
  repeat match goal with
  | Hm : _memoryview_to_numpy_array _ _ = inr _ |- _ =>
      pose proof (memoryview_array_shape _ _ _ Hm);
      apply memoryview_array_inv in Hm as (? & ? & ?)
  | Hs : set_shape2 _ _ = inr _ |- _ =>
      apply set_shape2_inv in Hs as (? & ? & ?)
  end.
  subst. simpl in *.
  match goal with
  | Hi : Image_init py ?j = inr ?c |- _ => exists j, c
  end.
  eexists _, _. split; [exact Hj|]. split; [eassumption|].
  split; [reflexivity|].
  simpl. split; [assumption|]. split; [assumption|].
  match goal with
  | Hd : Some np_float64 = Some (nd_dtype ?a),
    Hb : nd_bytes ?a = _,
    Hm : len _ mod itemsize (nd_dtype ?a) = 0,
    Hn : _ * _ = nd_size ?a |- _ =>
      injection Hd as Hd; unfold nd_size in Hn; rewrite <- Hb in Hm;
      rewrite <- Hd in Hm, Hn; simpl in Hm, Hn; unfold len in *;
      pose proof (Z.div_mod (Z.of_nat (length (nd_bytes a))) 8 ltac:(lia));
      split; [symmetry; exact Hd|]; split; [reflexivity|]; lia
  end.
Qed.

(** X17: every mesh a run decodes has its four buffers set, each an array
    of the element type of the corresponding component type of the mesh
    type.  For a count that is not positive the buffer is the empty array
    and no output accessor was called for its sub-index; for a positive
    count [itk_wasm_output_array_address] was called once for it. *)
Theorem mesh_output_buffers index output s out :
  type output = InterfaceTypes.Mesh ->
  res (decode_output py self index output s) = inr out ->
  exists mesh,
    out = Some (mk_PipelineOutput InterfaceTypes.Mesh (Some (PMesh mesh))) /\
    forall sub count c field,
      In (sub, count, c, field) (mesh_buffers mesh) ->
      exists a,
        field = Some a /\
        dtype_of c = Some (nd_dtype a) /\
        (count <= 0 ->
         a = empty_array (nd_dtype a) /\
         array_addresses index sub (log (decode_output py self index output s)) = []) /\
        (0 < count ->
         exists ptr,
           array_addresses index sub (log (decode_output py self index output s))
           = [Value ptr]).
Proof.
  intros Ht H. apply runs_intro in H. revert H.
  generalize (log (decode_output py self index output s)).
  generalize (st (decode_output py self index output s)).
  intros s' l H. unfold decode_output in H. rewrite Ht in H.
  invert_runs.
  match goal with
  | Hr : runs (_get_output_json _ _ _) _ _ _ _ |- _ =>
      apply get_output_json_inv in Hr as (? & ? & ?)
  end.
  repeat match goal with
  | Hr : runs (gated_array _ _ _ _ _ _ _ _) _ _ _ _ |- _ =>
      apply gated_array_full_inv in Hr
        as [(? & ? & ? & ? & ? & ? & ?)|(? & ? & ? & ? & ?)]
  end;
  subst; simpl in *;
  (eexists; split; [reflexivity|];
   intros sub count c field Hin; pick_member Hin; subst;
   eexists; (split; [reflexivity|]); simpl;
   (split; [eassumption|]);
   rewrite ?Z.eqb_refl; simpl;
   split; intros; try lia; eauto).
Qed.

(** X18: bytes staged by [_set_input_array] come back unchanged from a
    binary stream output whose accessors report the pointer the allocator
    returned and the length of the data. *)
Theorem binary_stream_passthrough d i k j s p :
  res (_set_input_array self (Some d) i k s) = inr p ->
  let s' := st (_set_input_array self (Some d) i k s) in
  output_array_address self 0 j 0 s' = Some (p, s') ->
  output_array_size self 0 j 0 s' = Some (len d, s') ->
  res (decode_output py self j
         (mk_PipelineOutput InterfaceTypes.BinaryStream None) s')
  = inr (Some (mk_PipelineOutput InterfaceTypes.BinaryStream
                 (Some (PBinaryStream (BinaryStream.mk d))))).
Proof.
  intros H. apply runs_intro in H. revert H.
  generalize (log (_set_input_array self (Some d) i k s)).
  generalize (st (_set_input_array self (Some d) i k s)).
  intros s' l H. cbv zeta. intros Ha Hn.
  unfold _set_input_array in H.
  apply runs_bind_inv in H as (q & s1 & l1 & l2 & _ & H & _).
  apply runs_bind_inv in H as (u & s2 & l3 & l4 & Hw & H & _).
  apply runs_ret_inv in H as (-> & -> & _).
  apply buffer_assign_inv in Hw as (_ & _ & _ & Hr & _).
  unfold decode_output. simpl.
  unfold do_output_array_address, do_output_array_size, bind, call, memoryview.
  rewrite Ha. simpl. rewrite Hn. simpl. rewrite Hr. reflexivity.
Qed.

(** X19: a descriptor staged by [_set_input_json] comes back from
    [_get_output_json] when the output accessors report the pointer the
    JSON allocator returned and the length of the encoded text, provided
    [json.loads] inverts [json.dumps] on the descriptor and [decode]
    inverts [encode] on its text. *)
Theorem descriptor_round_trip obj i j s q :
  res (_set_input_json py self obj i s) = inr tt ->
  let s' := st (_set_input_json py self obj i s) in
  let text := json_dumps py obj in
  In (Guest (Call_input_json_alloc 0 i (len (encode text))) (Value q))
     (log (_set_input_json py self obj i s)) ->
  output_json_address self 0 j s' = Some (q, s') ->
  output_json_size self 0 j s' = Some (len (encode text), s') ->
  decode py (encode text) = inr text ->
  json_loads py text = inr obj ->
  res (_get_output_json py self j s') = inr obj.
Proof.
  intros H. apply runs_intro in H. revert H.
  generalize (log (_set_input_json py self obj i s)).
  generalize (st (_set_input_json py self obj i s)).
  intros s' l H. cbv zeta. intros Hin Ha Hn Hd Hl.
  unfold _set_input_json, do_input_json_alloc in H.
  apply runs_bind_inv in H as (u0 & s0 & l0 & l0' & He & H & ->).
  apply runs_emit_inv in He as (-> & ->).
  apply runs_bind_inv in H as (q' & s1 & l1 & l2 & Hc & Hw & ->).
  apply runs_call_inv in Hc as (_ & ->).
  apply buffer_assign_inv in Hw as (-> & _ & _ & Hr & _).
  simpl in Hin. destruct Hin as [Hin|[Hin|[]]]; [discriminate|].
  injection Hin as <-.
  unfold _get_output_json, do_output_json_address, do_output_json_size,
    bind, call, memoryview.
  rewrite Ha. simpl. rewrite Hn. simpl. rewrite Hr, Hd. simpl. rewrite Hl.
  reflexivity.
Qed.

End Buffers.

(** ** Further runs of the sample guest *)

Lemma set_input_array_writes_allocation_witness :
  let o := _set_input_array (Sample.self []) (Some (encode "hi")) 0 0
                            Sample.instance in
  res o = inr 8 /\
  length (buffer (st o)) = 64%nat /\
  py_slice (buffer (st o)) 8 10 = encode "hi".
Proof.
  cbv zeta. split; [vm_compute; reflexivity|].
  destruct (set_input_array_writes_allocation (Sample.self []) (encode "hi") 0 0
              Sample.instance 8) as (s1 & Ha & _ & Hl & Hr & _);
    [vm_compute; reflexivity|].
  injection Ha as <-. split; [exact Hl | exact Hr].
Defined.

Lemma set_input_array_out_of_bounds_witness :
  _set_input_array (Sample.self []) (Some Sample.too_long) 0 0 Sample.instance
  = mk_Out (inl (ValueError "memoryview assignment")) Sample.after_alloc
           [Guest (Call_input_array_alloc 0 0 0 100) (Value 8)].
Proof.
  apply (set_input_array_out_of_bounds (Sample.self []) Sample.too_long 0 0
           Sample.instance 8 Sample.after_alloc).
  - reflexivity.
  - lia.
  - discriminate.
  - vm_compute. reflexivity.
Defined.

Lemma set_input_json_writes_descriptor_witness :
  let o := _set_input_json Sample.lib (Sample.self []) (JDict []) 0 Sample.instance in
  res o = inr tt /\
  exists q s1,
    input_json_alloc (Sample.self []) 0 0 2 Sample.instance = Some (q, s1) /\
    log o = [InputJson 0 (JDict []); Guest (Call_input_json_alloc 0 0 2) (Value q)] /\
    py_slice (buffer (st o)) q (q + 2) = encode "{}" /\
    length (buffer (st o)) = length (buffer s1) /\
    internal (st o) = internal s1.
Proof.
  cbv zeta. split; [vm_compute; reflexivity|].
  apply (set_input_json_writes_descriptor Sample.lib (Sample.self []) (JDict []) 0
           Sample.instance).
  vm_compute. reflexivity.
Defined.

Lemma address_url_injective_witness :
  address_url 1024 = address_url (1000 + 24) /\ 1024 = 1000 + 24.
Proof.
  split; [reflexivity|].
  apply (address_url_injective 1024 (1000 + 24)). reflexivity.
Defined.

Lemma stream_descriptor_size_witness :
  let input_ := InTextStream (TextStream.mk "hello") in
  let o := encode_input Sample.lib (Sample.self []) 2 input_ Sample.instance in
  res o = inr tt /\
  exists ptr,
    array_allocs 2 0 (log o) = [(5, Value ptr)] /\
    descriptors_of 2 (log o)
    = [JDict [("size", JInt 5); ("data", JStr (address_url ptr))]].
Proof.
  cbv zeta. split; [vm_compute; reflexivity|].
  apply (stream_descriptor_size Sample.lib (Sample.self []) 2
           (InTextStream (TextStream.mk "hello")) (encode "hello") Sample.instance).
  - reflexivity.
  - vm_compute. reflexivity.
Defined.

Lemma staging_calls_in_order_witness :
  let o := encode_input Sample.lib (Sample.self []) 0 (InMesh Sample.mesh)
                        Sample.instance in
  res o = inr tt /\
  exists allocs obj size ptr,
    length allocs = 4%nat /\
    log o = alloc_events 0 0 allocs
            ++ [InputJson 0 obj; Guest (Call_input_json_alloc 0 0 size) (Value ptr)].
Proof.
  cbv zeta. split; [vm_compute; reflexivity|].
  apply (staging_calls_in_order Sample.lib (Sample.self []) 0 (InMesh Sample.mesh)
           Sample.instance).
  - reflexivity.
  - vm_compute. reflexivity.
Defined.

Lemma accessors_follow_zero_return_code_witness :
  let outputs := [Sample.slot InterfaceTypes.BinaryStream] in
  events (run Sample.lib (Sample.pipeline 0 []) [] outputs [])
  = [Guest Call_initialize Void; Guest Call_delayed_start (Value 0)]
    ++ Guest (Call_output_array_address 0 0 0) (Value 0)
    :: [Guest (Call_output_array_size 0 0 0) (Value 0);
        Guest (Call_delayed_exit 0) Void] /\
  In (Guest Call_delayed_start (Value 0))
     [Guest Call_initialize Void; Guest Call_delayed_start (Value 0)] /\
  outputs <> [].
Proof.
  cbv zeta. split; [vm_compute; reflexivity|].
  apply (accessors_follow_zero_return_code Sample.lib (Sample.pipeline 0 []) []
           [Sample.slot InterfaceTypes.BinaryStream] []
           [Guest Call_initialize Void; Guest Call_delayed_start (Value 0)]
           (Guest (Call_output_array_address 0 0 0) (Value 0))
           [Guest (Call_output_array_size 0 0 0) (Value 0);
            Guest (Call_delayed_exit 0) Void]).
  - vm_compute. reflexivity.
  - reflexivity.
Defined.

Lemma returned_tuple_matches_slots_witness :
  let outputs := [Sample.slot InterfaceTypes.BinaryStream;
                  Sample.slot (InterfaceTypes.Other "JsonObject")] in
  let r := run Sample.lib (Sample.pipeline 0 []) [] outputs [] in
  let tup := [Some (mk_PipelineOutput InterfaceTypes.BinaryStream
                      (Some (PBinaryStream (BinaryStream.mk []))));
              None] in
  result r = inr tup /\
  length tup = length outputs /\
  forall i slot, outputs !! i = Some slot ->
    exists v, tup !! i = Some v /\ populates slot v.
Proof.
  cbv zeta. split; [vm_compute; reflexivity|].
  apply (returned_tuple_matches_slots Sample.lib (Sample.pipeline 0 []) []
           [Sample.slot InterfaceTypes.BinaryStream;
            Sample.slot (InterfaceTypes.Other "JsonObject")] []).
  - vm_compute. reflexivity.
  - find_event.
Defined.

Lemma unsupported_input_kind_aborts_witness :
  let inputs := [InTextStream (TextStream.mk "hi"); InOther "JsonObject"] in
  let r := run Sample.lib (Sample.pipeline 0 []) [] [] inputs in
  In (InOther "JsonObject") inputs /\
  (exists e, result r = inl e) /\ count is_delayed_start (events r) = O.
Proof.
  cbv zeta. split; [simpl; auto|].
  apply (unsupported_input_kind_aborts Sample.lib (Sample.pipeline 0 []) [] []
           [InTextStream (TextStream.mk "hi"); InOther "JsonObject"] "JsonObject").
  simpl. auto.
Defined.

Lemma preopen_only_parents_witness :
  (forall output, In output Sample.file_outputs -> is_file (type output) = true ->
                  exists path, output_path output = inr path) /\
  exists env,
    (forall pipeline : Pipeline Z,
        run Sample.lib pipeline ["app"] Sample.file_outputs Sample.file_inputs
        = run_with Sample.lib pipeline Sample.file_outputs Sample.file_inputs env) /\
    env = mk_WasiEnv "itk-wasm-pipeline" ["app"] [] [] ["/tmp/a"; "/tmp/b"] /\
    forall d, In d (preopen_directories env) ->
              named_by Sample.file_inputs Sample.file_outputs d.
Proof.
  assert (H : forall output, In output Sample.file_outputs ->
                             is_file (type output) = true ->
                             exists path, output_path output = inr path).
  { intros output [<-|[]] _. eexists. reflexivity. }
  split; [exact H|].
  destruct (preopen_only_parents (P:=Z) Sample.lib ["app"] Sample.file_outputs
              Sample.file_inputs H)
    as (env & Hrun & Hpre & Hname & Hargs & Henv & Hmap & Hdirs).
  exists env. split; [exact Hrun|]. split; [|exact Hdirs].
  assert (Hd : inr ["/tmp/a"; "/tmp/b"] = (inr (preopen_directories env)
                                           : Exception + list string))
    by (rewrite <- Hpre; vm_compute; reflexivity).
  injection Hd as Hd.
  destruct env as [n a e m d]. simpl in *. subst. reflexivity.
Defined.

Lemma file_output_without_path_aborts_witness :
  let output := Sample.slot InterfaceTypes.TextFile in
  let r := run Sample.lib (Sample.pipeline 0 []) []
               [Sample.slot InterfaceTypes.BinaryStream; output] [] in
  output_path output
  = inl (AttributeError "'NoneType' object has no attribute 'path'") /\
  (exists msg, result r = inl (AttributeError msg)) /\ events r = [].
Proof.
  cbv zeta. split; [reflexivity|].
  apply (file_output_without_path_aborts Sample.lib (Sample.pipeline 0 []) []
           [Sample.slot InterfaceTypes.BinaryStream;
            Sample.slot InterfaceTypes.TextFile] []
           (Sample.slot InterfaceTypes.TextFile)
           (AttributeError "'NoneType' object has no attribute 'path'")).
  - simpl. auto.
  - reflexivity.
  - reflexivity.
Defined.

Lemma image_output_buffers_witness :
  let o := decode_output (Sample.reader 4) (Sample.imaging 4) 0
                         (Sample.slot InterfaceTypes.Image)
                         (Sample.image_instance 4) in
  exists out descriptor constructed pixels direction,
    res o = inr out /\
    pixels = mk_ndarray np_uint8 [4] ["001"; "002"; "003"; "004"]%byte /\
    descriptor = Sample.image_descriptor 4 /\
    res (_get_output_json (Sample.reader 4) (Sample.imaging 4) 0
                          (Sample.image_instance 4)) = inr descriptor /\
    Sample.image_of descriptor = inr constructed /\
    out = Some (mk_PipelineOutput InterfaceTypes.Image
                  (Some (PImage (Image.set_direction direction
                                   (Image.set_data pixels constructed))))) /\
    let dimension := ImageType.dimension (Image.imageType constructed) in
    dtype_of (ImageType.componentType (Image.imageType constructed))
    = Some (nd_dtype pixels) /\
    nd_shape pixels = [len (nd_bytes pixels) / itemsize (nd_dtype pixels)] /\
    nd_dtype direction = np_float64 /\
    nd_shape direction = [dimension; dimension] /\
    len (nd_bytes direction) = 8 * dimension * dimension.
Proof.
  cbv zeta.
  destruct (decode_output (Sample.reader 4) (Sample.imaging 4) 0
              (Sample.slot InterfaceTypes.Image) (Sample.image_instance 4))
    as [[e|out] s' l] eqn:E; [vm_compute in E; discriminate|].
  destruct (image_output_buffers (Sample.reader 4) (Sample.imaging 4) 0
              (Sample.slot InterfaceTypes.Image) (Sample.image_instance 4) out)
    as (descriptor & constructed & pixels & direction & Hj & Hc & Ho & H);
    [reflexivity | rewrite E; reflexivity |].
  exists out, descriptor, constructed, pixels, direction.
  split; [reflexivity|]. split.
  { vm_compute in E. rewrite Ho in E. inversion E; subst. reflexivity. }
  split.
  { assert (Hj' : res (_get_output_json (Sample.reader 4) (Sample.imaging 4) 0
                         (Sample.image_instance 4))
                  = inr (Sample.image_descriptor 4)) by (vm_compute; reflexivity).
    rewrite Hj' in Hj. injection Hj as <-. reflexivity. }
  split; [exact Hj|]. split; [exact Hc|]. split; [exact Ho | exact H].
Defined.

Lemma mesh_output_buffers_witness :
  let o := decode_output Sample.lib (Sample.self []) 0
                         (Sample.slot InterfaceTypes.Mesh) Sample.instance in
  exists out mesh,
    res o = inr out /\
    out = Some (mk_PipelineOutput InterfaceTypes.Mesh (Some (PMesh mesh))) /\
    forall sub count c field,
      In (sub, count, c, field) (mesh_buffers mesh) ->
      exists a,
        field = Some a /\
        dtype_of c = Some (nd_dtype a) /\
        (count <= 0 ->
         a = empty_array (nd_dtype a) /\ array_addresses 0 sub (log o) = []) /\
        (0 < count -> exists ptr, array_addresses 0 sub (log o) = [Value ptr]).
Proof.
  cbv zeta.
  destruct (res (decode_output Sample.lib (Sample.self []) 0
                   (Sample.slot InterfaceTypes.Mesh) Sample.instance))
    as [e|out] eqn:E; [vm_compute in E; discriminate|].
  destruct (mesh_output_buffers Sample.lib (Sample.self []) 0
              (Sample.slot InterfaceTypes.Mesh) Sample.instance out)
    as (mesh & H); [reflexivity | exact E |].
  exists out, mesh. split; [reflexivity | exact H].
Defined.

Lemma binary_stream_passthrough_witness :
  let staged := _set_input_array (Sample.echo 8 2) (Some (encode "hi")) 0 0
                                 Sample.instance in
  res staged = inr 8 /\
  res (decode_output Sample.lib (Sample.echo 8 2) 0
         (mk_PipelineOutput InterfaceTypes.BinaryStream None) (st staged))
  = inr (Some (mk_PipelineOutput InterfaceTypes.BinaryStream
                 (Some (PBinaryStream (BinaryStream.mk (encode "hi")))))).
Proof.
  cbv zeta. split; [vm_compute; reflexivity|].
  apply (binary_stream_passthrough Sample.lib (Sample.echo 8 2) (encode "hi")
           0 0 0 Sample.instance 8).
  - vm_compute. reflexivity.
  - reflexivity.
  - reflexivity.
Defined.

Lemma descriptor_round_trip_witness :
  let staged := _set_input_json Sample.lib (Sample.echo 8 2) (JDict []) 0
                                Sample.instance in
  res staged = inr tt /\
  res (_get_output_json Sample.lib (Sample.echo 8 2) 0 (st staged))
  = inr (JDict []).
Proof.
  cbv zeta. split; [vm_compute; reflexivity|].
  apply (descriptor_round_trip Sample.lib (Sample.echo 8 2) (JDict []) 0 0
           Sample.instance 8).
  - vm_compute. reflexivity.
  - find_event.
  - reflexivity.
  - reflexivity.
  - reflexivity.
  - reflexivity.
Defined.
